(** * The PerfectGym portal client of the NRG Gyms integration

    A shallow embedding of [custom_components/nrg_gyms/client.py] and the
    properties its specification states about it.

    Python values that come out of [resp.json()] are modelled by [json];
    exceptions by the error type [outcome]; the HTTP session, its cookie
    jar and the requests it has sent by explicit state passing in the
    monad [M].  Logging calls have no effect on results and are left out. *)

From Stdlib Require Import ZArith List String Ascii Bool Lia DecimalString.
From Stdlib Require Import Floats Uint63.
Import ListNotations.

Set Warnings "-register-all".

Local Open Scope string_scope.
Local Open Scope Z_scope.

(* ================================================================= *)
(** ** Python values *)

(** What [json.loads] produces.  A dict keeps its keys in insertion order,
    which [list(data.values())] observes, so it is an association list; the
    parser keeps one binding per key and [lookup] reads the first. *)
Inductive json : Type :=
| JNull
| JBool (b : bool)
| JInt (n : Z)
| JFloat (f : float)
| JStr (s : string)
| JList (l : list json)
| JDict (d : list (string * json)).

(** [bool(v)]: the truth value Python's [if], [or] and [not] test. *)
Definition truthy (v : json) : bool :=
  match v with
  | JNull => false
  | JBool b => b
  | JInt n => negb (n =? 0)
  | JFloat f => negb (PrimFloat.eqb f 0%float)
  | JStr s => negb (s =? "")%string
  | JList l => match l with [] => false | _ :: _ => true end
  | JDict d => match d with [] => false | _ :: _ => true end
  end.

(** [a or b]. *)
Definition py_or (a b : json) : json := if truthy a then a else b.

Definition is_list (v : json) : bool :=
  match v with JList _ => true | _ => false end.

Definition is_dict (v : json) : bool :=
  match v with JDict _ => true | _ => false end.

Definition is_str (v : json) : bool :=
  match v with JStr _ => true | _ => false end.

Fixpoint lookup (k : string) (d : list (string * json)) : option json :=
  match d with
  | [] => None
  | (k', v) :: d' => if (k =? k')%string then Some v else lookup k d'
  end.

(** [k in d]. *)
Definition dict_has (d : list (string * json)) (k : string) : bool :=
  match lookup k d with Some _ => true | None => false end.

(** [d.get(k)] on a dict: a missing key reads as [None], which is also what
    a JSON [null] reads as. *)
Definition dict_get (d : list (string * json)) (k : string) : json :=
  match lookup k d with Some v => v | None => JNull end.

(** [list(d.values())]. *)
Definition dict_values (d : list (string * json)) : list json := map snd d.

(* ================================================================= *)
(** ** Exceptions *)

Inductive exn : Type :=
| AttributeError
| TypeError
| ValueError
| OverflowError
| JSONDecodeError
| RequestException
| CookieConflictError.

(** The result of running Python code that may raise.  Every [exn] is a
    subclass of [Exception], so [except Exception] catches them all. *)
Inductive outcome (A : Type) : Type :=
| Ret (a : A)
| Raise (e : exn).
Arguments Ret {A} a.
Arguments Raise {A} e.

Definition obind {A B} (o : outcome A) (k : A -> outcome B) : outcome B :=
  match o with
  | Ret a => k a
  | Raise e => Raise e
  end.

Notation "x <~ e ;; k" := (obind e (fun x => k))
  (at level 61, e at next level, right associativity).

(** [v.get(k)] on an arbitrary value: only a dict has the method. *)
Definition py_get (v : json) (k : string) : outcome json :=
  match v with
  | JDict d => Ret (dict_get d k)
  | _ => Raise AttributeError
  end.

(** The receiver of a chain of [.get] calls: it must be a dict. *)
Definition as_dict (v : json) : outcome (list (string * json)) :=
  match v with
  | JDict d => Ret d
  | _ => Raise AttributeError
  end.

(** [[f(x) for x in xs]], stopping at the first exception. *)
Fixpoint comprehension {A B} (f : A -> outcome B) (xs : list A) : outcome (list B) :=
  match xs with
  | [] => Ret []
  | x :: xs' => y <~ f x ;; ys <~ comprehension f xs' ;; Ret (y :: ys)
  end.

(* ================================================================= *)
(** ** Strings *)

(** [needle in s]. *)
Fixpoint contains (needle s : string) : bool :=
  String.prefix needle s ||
  match s with
  | EmptyString => false
  | String _ s' => contains needle s'
  end.

Definition lower_ascii (c : ascii) : ascii :=
  let n := nat_of_ascii c in
  if ((65 <=? n) && (n <=? 90))%nat then ascii_of_nat (n + 32) else c.

(** [s.lower()], on ASCII letters. *)
Fixpoint lower (s : string) : string :=
  match s with
  | EmptyString => EmptyString
  | String c s' => String (lower_ascii c) (lower s')
  end.

(** [s.replace(c, by)] for a one-character pattern. *)
Fixpoint replace (c : ascii) (by_ : string) (s : string) : string :=
  match s with
  | EmptyString => EmptyString
  | String c' s' =>
      if Ascii.eqb c c' then by_ ++ replace c by_ s' else String c' (replace c by_ s')
  end.

(** [str(n)] for an [int]. *)
Definition str_of_int (n : Z) : string := NilEmpty.string_of_int (Z.to_int n).

(* ================================================================= *)
(** ** Instants *)

(** A [datetime]: the reading of its own clock face, in microseconds counted
    from 1970-01-01T00:00:00 on that face, and its [tzinfo] as an offset from
    UTC in seconds ([None] for a naive value). *)
Record datetime : Type := mk_datetime {
  dt_wall : Z;
  dt_tzinfo : option Z
}.

(** [timezone.utc]. *)
Definition utc : Z := 0.

(** [dt.replace(tzinfo=tz)]: same clock face, new zone. *)
Definition replace_tzinfo (dt : datetime) (tz : Z) : datetime :=
  {| dt_wall := dt_wall dt; dt_tzinfo := Some tz |}.

(** The instants a [datetime] can hold in UTC: 0001-01-01T00:00:00 to
    9999-12-31T23:59:59.999999, as seconds from the epoch. *)
Definition MIN_TIMESTAMP : Z := -62135596800.
Definition MAX_TIMESTAMP : Z := 253402300799.

(** [datetime.fromtimestamp(t, tz=timezone.utc)], with [t] given in
    microseconds; [None] stands for the [OverflowError], [ValueError] or
    [OSError] raised outside the representable years. *)
Definition fromtimestamp_us (us : Z) : option datetime :=
  if (MIN_TIMESTAMP * 1000000 <=? us) && (us <=? MAX_TIMESTAMP * 1000000 + 999999)
  then Some {| dt_wall := us; dt_tzinfo := Some utc |}
  else None.

(** [fromtimestamp(val, tz=utc)] for an [int] number of seconds. *)
Definition fromtimestamp_s (val : Z) : option datetime :=
  fromtimestamp_us (val * 1000000).

(** The integer nearest to [a / b], ties to the even one, for a positive
    [b]. *)
Definition round_half_even (a b : Z) : Z :=
  let q := a / b in
  match 2 * (a mod b) ?= b with
  | Lt => q
  | Gt => q + 1
  | Eq => if Z.even q then q else q + 1
  end.

(** [floor(log2(n / d))] for positive [n] and [d]. *)
Definition ilog2_quot (n d : Z) : Z :=
  let l := Z.log2 n - Z.log2 d in
  if n * 2 ^ Z.max 0 (- l) <? d * 2 ^ Z.max 0 l then l - 1 else l.

(** The double nearest to [n / d], ties to even, as the pair [(m, e)] of
    its value [m * 2 ^ e]: 53 bits of mantissa. [n] is not negative and [d]
    is positive; the quotients taken here are zero or lie between [2 ^ -30]
    and [2 ^ 1023], where a double has its full precision. A quotient of
    two ints and a product of two doubles are rounded this way. *)
Definition nearest_double (n d : Z) : Z * Z :=
  if n =? 0 then (0, 0)
  else
    let e := ilog2_quot n d - 52 in
    (round_half_even (n * 2 ^ Z.max 0 (- e)) (d * 2 ^ Z.max 0 e), e).

(** [datetime.fromtimestamp(t, tz=timezone.utc)] for a double [t] that is
    not negative, given as [m * 2 ^ e]: [modf] splits it, the fraction is
    multiplied by [1e6] as a double and rounded half to even, and a
    fraction that reaches a full second is carried. *)
Definition fromtimestamp_double (m e : Z) : option datetime :=
  let k := Z.max 0 (- e) in
  let num := m * 2 ^ Z.max 0 e in
  let intpart := num / 2 ^ k in
  let floatpart := nearest_double ((num mod 2 ^ k) * 1000000) (2 ^ k) in
  let us := round_half_even (fst floatpart * 2 ^ Z.max 0 (snd floatpart))
                            (2 ^ Z.max 0 (- snd floatpart)) in
  if 1000000 <=? us
  then fromtimestamp_us ((intpart + 1) * 1000000 + (us - 1000000))
  else fromtimestamp_us (intpart * 1000000 + us).

(** [fromtimestamp(val / 1000, tz=utc)] for a positive [int] number of
    milliseconds: the quotient is a double. A quotient too large for a
    double raises in Python and is outside the years here. *)
Definition fromtimestamp_ms (val : Z) : option datetime :=
  let quotient := nearest_double val 1000 in
  fromtimestamp_double (fst quotient) (snd quotient).

(* ================================================================= *)
(** ** The part of Python's library that is taken as given *)

(** Parsers and printers of the standard library whose grammars vary with
    the interpreter's version.  [None] stands for [ValueError]. *)
Class PyLib : Type := {
  (** [datetime.fromisoformat] *)
  fromisoformat : string -> option datetime;
  (** [int(s)] for a [str] *)
  int_of_str : string -> option Z;
  (** [repr(f)] for a [float] *)
  float_repr : float -> string;
  (** [repr(s)] for a [str] *)
  str_repr : string -> string
}.

(** [int(f)] for a [float]: truncation toward zero. *)
Definition int_of_float (f : float) : outcome Z :=
  match Prim2SF f with
  | S754_zero _ => Ret 0
  | S754_finite s m e =>
      let mag := if 0 <=? e then Z.pos m * 2 ^ e else Z.pos m / 2 ^ (- e) in
      Ret (if s then - mag else mag)
  | S754_infinity _ => Raise OverflowError
  | S754_nan => Raise ValueError
  end.

Section Values.
Context {L : PyLib}.

(** [repr(v)]. *)
Fixpoint py_repr (v : json) : string :=
  match v with
  | JNull => "None"
  | JBool true => "True"
  | JBool false => "False"
  | JInt n => str_of_int n
  | JFloat f => float_repr f
  | JStr s => str_repr s
  | JList l => "[" ++ String.concat ", " (map py_repr l) ++ "]"
  | JDict d =>
      "{" ++ String.concat ", "
               (map (fun kv => let '(k, x) := kv in str_repr k ++ ": " ++ py_repr x) d)
          ++ "}"
  end.

(** [str(v)], also what an f-string prints for [{v}]. *)
Definition py_str (v : json) : string :=
  match v with
  | JStr s => s
  | _ => py_repr v
  end.

(** [int(v)]. *)
Definition py_int (v : json) : outcome Z :=
  match v with
  | JInt n => Ret n
  | JBool b => Ret (if b then 1 else 0)
  | JFloat f => int_of_float f
  | JStr s => match int_of_str s with Some n => Ret n | None => Raise ValueError end
  | JNull | JList _ | JDict _ => Raise TypeError
  end.

(* ================================================================= *)
(** ** [PerfectGymClient._parse_dt] *)

Definition _parse_dt (value : json) : option datetime :=
  if negb (truthy value) then None
  else
    (* Attempt ISO parse *)
    match fromisoformat (replace "Z" "+00:00" (py_str value)) with
    | Some dt =>
        Some (match dt_tzinfo dt with
              | None => replace_tzinfo dt utc
              | Some _ => dt
              end)
    | None =>
        (* Try milliseconds epoch *)
        match py_int value with
        | Ret val =>
            if 10000000000 <? val then fromtimestamp_ms val else fromtimestamp_s val
        | Raise _ => None
        end
    end.

(* ================================================================= *)
(** ** [PerfectGymClient._normalize_booking] *)

(** The dict the mapper returns, one field per key. *)
Record booking : Type := mk_booking {
  summary : json;
  start : option datetime;
  end_ : option datetime;
  location : json;
  description : option string
}.

(** The [description_parts] list, appended to in source order. *)
Definition description_parts (d : list (string * json)) : list string :=
  let coach :=
    py_or (dict_get d "TrainerDisplayName")
          (py_or (dict_get d "Coach") (dict_get d "Instructor")) in
  (if truthy coach then ["Coach: " ++ py_str coach] else [])
  ++ (if truthy (dict_get d "Status")
      then ["Status: " ++ py_str (dict_get d "Status")] else [])
  ++ (if truthy (dict_get d "Type")
      then ["Type: " ++ py_str (dict_get d "Type")] else [])
  ++ (if truthy (dict_get d "ClassBookingId")
      then ["ClassBookingId: " ++ py_str (dict_get d "ClassBookingId")]
      else if truthy (dict_get d "BookingId")
      then ["BookingId: " ++ py_str (dict_get d "BookingId")]
      else []).

Definition _normalize_booking (item : json) : outcome booking :=
  d <~ as_dict item ;;
  let title :=
    py_or (dict_get d "Title")
          (py_or (dict_get d "ClassName")
                 (py_or (dict_get d "Name") (JStr "Booking"))) in
  let start :=
    _parse_dt (py_or (dict_get d "StartTimeUtc")
                     (py_or (dict_get d "StartTime")
                            (py_or (dict_get d "Start") (dict_get d "StartDate")))) in
  let end_ :=
    _parse_dt (py_or (dict_get d "EndTime")
                     (py_or (dict_get d "End") (dict_get d "EndDate"))) in
  let location :=
    py_or (dict_get d "Club")
          (py_or (dict_get d "Zone")
                 (py_or (dict_get d "Location") (dict_get d "ClubName"))) in
  let parts := description_parts d in
  let description :=
    match parts with
    | [] => None
    | _ :: _ => Some (String.concat "; " parts)
    end in
  Ret {| summary := title;
         start := start;
         end_ := end_;
         location := location;
         description := description |}.

(** [b.get("start")] as a truth value: a [datetime] is always true. *)
Definition has_start (b : booking) : bool :=
  match start b with Some _ => true | None => false end.

(** The two statements that follow a successful probe in
    [fetch_upcoming_bookings]:
    [normalized = [self._normalize_booking(b) for b in bookings]] and
    [normalized = [b for b in normalized if b.get("start")]]. *)
Definition normalize_batch (bookings : list json) : outcome (list booking) :=
  normalized <~ comprehension _normalize_booking bookings ;;
  Ret (filter has_start normalized).

End Values.

(* ================================================================= *)
(** ** The response-shape normalisation inside [_try_endpoint] *)

(** [for key in keys: if key in data and isinstance(data[key], list):
    return data[key]]: the first key, in the order of [keys], bound to a
    list. *)
Fixpoint first_list_key (keys : list string) (d : list (string * json))
  : option (list json) :=
  match keys with
  | [] => None
  | key :: keys' =>
      match lookup key d with
      | Some (JList l) => Some l
      | _ => first_list_key keys' d
      end
  end.

(** The [Items] list of one section of the MyCalendar shape, empty when the
    section is not a dict or holds no such list. *)
Definition section_items (d : list (string * json)) (section : string) : list json :=
  match dict_get d section with
  | JDict sec =>
      match dict_get sec "Items" with
      | JList l => l
      | _ => []
      end
  | _ => []
  end.

Definition BOOKING_LIST_KEYS : list string :=
  ["Bookings"; "Items"; "Data"; "Result"; "results"].

Definition CALENDAR_SECTIONS : list string :=
  ["RecentItems"; "FutureItems"; "PastItems"].

Definition BOOKING_MARKER_KEYS : list string :=
  ["Start"; "StartDate"; "StartTime"].

(** Lines 92 to 112 of [_try_endpoint]: from the decoded body [data] to the
    list of raw bookings, or [None]. *)
Definition extract_items (data : json) : option (list json) :=
  match data with
  | JDict d =>
      match first_list_key BOOKING_LIST_KEYS d with
      | Some l => Some l
      | None =>
          let items := flat_map (section_items d) CALENDAR_SECTIONS in
          match items with
          | _ :: _ => Some items
          | [] =>
              if existsb (dict_has d) BOOKING_MARKER_KEYS
              then Some [data]
              else None
          end
      end
  | JList l => Some l
  | _ => None
  end.

(* ================================================================= *)
(** ** The portal, the session and the client object *)

Inductive http_method : Type := GET | POST.

(** What a request carries as its body: nothing ([get]), the empty bytes of
    [data=b""], or a JSON document ([json=body], [data=json.dumps(payload)]). *)
Inductive http_body : Type :=
| NoBody
| EmptyBody
| JsonBody (j : json).

(** One call of [self._session.get] or [self._session.post]: the URL, the
    per-request [headers] argument, the session's [Authorization] header at
    that moment, and the body. *)
Record request : Type := mk_request {
  rq_method : http_method;
  rq_url : string;
  rq_headers : list (string * string);
  rq_authorization : option string;
  rq_body : http_body
}.

(** One cookie of the session's jar. The jar keeps one cookie per domain,
    path and name, so two cookies of one name sit in it when they differ in
    domain or path. [ck_value] is [None] for a cookie that came without
    [=value]. *)
Record cookie : Type := mk_cookie {
  ck_domain : string;
  ck_path : string;
  ck_name : string;
  ck_value : option string
}.

(** [requests.cookies.RequestsCookieJar], as the sequence of cookies that
    iterating over it yields. *)
Definition jar : Type := list cookie.

(** What the portal does with a request: the call raises (no connection,
    timeout, too many redirects), or a response arrives with its status
    code and its body as [resp.json()] reads it ([None] when that raises).
    Either way the exchange may have changed the jar: cookies set, replaced
    or expired, also by redirects on the way. The changes are applied in
    order; [[]] leaves the jar as it is. *)
Inductive reply : Type :=
| TransportError (changes : list (jar -> jar))
| Response (status : Z) (body : option json) (changes : list (jar -> jar)).

Definition apply_changes (changes : list (jar -> jar)) (j : jar) : jar :=
  fold_left (fun j' change => change j') changes j.

Record response : Type := mk_response {
  status_code : Z;
  resp_body : option json
}.

(** [requests.Session]: the cookie jar and the one default header the
    client rewrites. *)
Record session : Type := mk_session {
  cookies : jar;
  authorization : option string
}.

Record PerfectGymClient : Type := mk_client {
  _email : string;
  _password : string;
  _bookings_path_override : option string;
  _club_id : option Z;
  _session : session
}.

(** The client object together with the requests sent so far, oldest
    first. *)
Record world : Type := mk_world {
  self : PerfectGymClient;
  sent : list request
}.

(** [RequestsCookieJar._find_no_duplicates(name)]: the loop over the jar
    with its variable [toReturn]. A second cookie of the name, whatever its
    domain and path, raises once [toReturn] holds a value. *)
Fixpoint _find_no_duplicates (name : string) (toReturn : option string) (j : jar)
  : outcome (option string) :=
  match j with
  | [] => Ret toReturn
  | c :: rest =>
      if (ck_name c =? name)%string then
        match toReturn with
        | Some _ => Raise CookieConflictError
        | None => _find_no_duplicates name (ck_value c) rest
        end
      else _find_no_duplicates name toReturn rest
  end.

(** [jar.get(name)]: the value found when it is true; [None], the default,
    when [_find_no_duplicates] ends in [KeyError] because no value or a
    false one was found. [CookieConflictError] is not caught. *)
Definition cookies_get (name : string) (j : jar) : outcome (option string) :=
  toReturn <~ _find_no_duplicates name None j ;;
  Ret (match toReturn with
       | Some v => if (v =? "")%string then None else Some v
       | None => None
       end).

(** [create_cookie(name, value)] as [jar.set(name, value)] calls it: no
    domain, the root path. *)
Definition create_cookie (name value : string) : cookie :=
  {| ck_domain := ""; ck_path := "/"; ck_name := name; ck_value := Some value |}.

Definition with_session (c : PerfectGymClient) (s : session) : PerfectGymClient :=
  {| _email := _email c;
     _password := _password c;
     _bookings_path_override := _bookings_path_override c;
     _club_id := _club_id c;
     _session := s |}.

(** [PerfectGymClient(email, password, bookings_path, club_id)]. *)
Definition new_client (email password : string) (bookings_path : option string)
  (club_id : option Z) : PerfectGymClient :=
  {| _email := email;
     _password := password;
     _bookings_path_override := bookings_path;
     _club_id := club_id;
     _session :=
       {| cookies := [create_cookie "websiteAnalyticsConsent" "true";
                      create_cookie "customTrackingKey" "true"];
          authorization := None |} |}.

(** Stateful code that may raise: the state survives an exception. *)
Definition M (A : Type) : Type := world -> outcome A * world.

Definition ret {A} (a : A) : M A := fun w => (Ret a, w).

Definition bind {A B} (m : M A) (k : A -> M B) : M B :=
  fun w =>
    match m w with
    | (Ret a, w') => k a w'
    | (Raise e, w') => (Raise e, w')
    end.

Notation "x <- e ;; k" := (bind e (fun x => k))
  (at level 61, e at next level, right associativity).

Definition lift {A} (o : outcome A) : M A := fun w => (o, w).

(** [try: body  except Exception as e: handler]. *)
Definition try_except {A} (body : M A) (handler : exn -> M A) : M A :=
  fun w =>
    match body w with
    | (Ret a, w') => (Ret a, w')
    | (Raise e, w') => handler e w'
    end.

Definition get_self : M PerfectGymClient := fun w => (Ret (self w), w).

Definition BASE_URL : string := "https://nrggym.perfectgym.com".
Definition LOGIN_PATH : string := "/clientportal2/Auth/Login".
Definition OCCUPANCY_PATH : string := "/clientportal2/Clubs/Clubs/GetMembersInClubs".
Definition IDENTITY_PATH : string := "/clientportal2/Auth/Login/Identity".
Definition PRODUCTS_PATH : string :=
  "/clientportal2/Products/ChooseProducts/GetProductsForUser".
Definition CONTRACTS_PATH : string := "/clientportal2/Profile/Contracts/ContractList".
Definition PROFILE_PATH : string := "/clientportal2/Profile/Profile/GetProfileForEdit".

Definition BOOKINGS_CANDIDATE_PATHS : list string :=
  [ "/clientportal2/MyCalendar/MyCalendar/GetCalendar";
    "/clientportal2/Booking/GetUpcomingBookings";
    "/clientportal2/Booking/GetFutureBookings";
    "/clientportal2/Bookings/GetUpcoming";
    "/clientportal2/ClassBooking/GetUpcoming";
    "/clientportal2/Calendar/GetMyBookings" ].

(** What [datetime.utcnow()] reads at the start of
    [fetch_upcoming_bookings], as the three strings the method prints it in:
    [now.isoformat()], [(now + timedelta(days=30)).isoformat()] and
    [now.date().isoformat()]. *)
Record clock : Type := mk_clock {
  now_isoformat : string;
  horizon_isoformat : string;
  today_isoformat : string
}.

(* ================================================================= *)
(** ** The records the fetch operations return *)

(** One entry of [clubs] in the occupancy report. *)
Record club : Type := mk_club {
  club_name : json;
  members : Z;
  club_id : json
}.

Record occupancy : Type := mk_occupancy {
  clubs : list club;
  total : Z
}.

(** The dict [fetch_identity] returns when it does not return [{}]. *)
Record identity : Type := mk_identity {
  id_user_id : json;
  id_first_name : json;
  id_last_name : json;
  id_email : json;
  id_home_club_id : json;
  id_default_club_id : json;
  id_type : json;
  id_photo_url : json
}.

(** The dict [fetch_profile] returns when it does not return [{}]; the key
    [club_name] is only set when the products lookup gave one. *)
Record profile : Type := mk_profile {
  pr_user_id : json;
  pr_first_name : json;
  pr_last_name : json;
  pr_email : json;
  pr_phone : json;
  pr_referral_code : json;
  pr_full_name : option string;
  pr_photo_url : json;
  pr_club_name : option json
}.

Record contract : Type := mk_contract {
  c_id : json;
  c_name : json;
  c_addons : json;
  c_club_id : json;
  c_club_name : json;
  c_start_date : option datetime;
  c_end_date : option datetime;
  c_commitment_date : option datetime;
  c_next_payment_date : option datetime;
  c_payment_interval : json;
  c_commitment_period : json;
  c_cost_gross : json;
  c_cost_net : json;
  c_cost_tax : json;
  c_short_description : json
}.

Record contracts_report : Type := mk_contracts_report {
  contracts : list contract;
  active : option contract
}.

(** [{"clubs": [], "total": 0}] *)
Definition empty_occupancy : occupancy := {| clubs := []; total := 0 |}.

(** [{"contracts": [], "active": None}] *)
Definition empty_contracts : contracts_report := {| contracts := []; active := None |}.

(** [for c in v]: a list gives its items, a str its characters, a dict its
    keys; nothing else can be iterated. *)
Definition py_iter (v : json) : outcome (list json) :=
  match v with
  | JList l => Ret l
  | JStr s => Ret (map (fun c => JStr (String c EmptyString)) (list_ascii_of_string s))
  | JDict d => Ret (map (fun kv => JStr (fst kv)) d)
  | _ => Raise TypeError
  end.

(** [" ".join(xs)]: every item must be a str. *)
Fixpoint join_strs (xs : list json) : outcome (list string) :=
  match xs with
  | [] => Ret []
  | JStr s :: xs' => ss <~ join_strs xs' ;; Ret (s :: ss)
  | _ :: _ => Raise TypeError
  end.

(** [x or {}] *)
Definition or_empty_dict (x : json) : json := py_or x (JDict []).

Definition OCCUPANCY_LIST_KEYS : list string :=
  ["Clubs"; "Items"; "Data"; "Result"; "results"].

(** Lines 247 to 259 of [fetch_members_in_clubs]: where the list of raw
    clubs sits in the decoded body. *)
Definition clubs_raw_of (data : json) : list json :=
  match data with
  | JDict d =>
      let from_users :=
        match lookup "UsersInClubList" d with
        | Some (JList l) => l
        | _ => []
        end in
      let clubs_raw :=
        match first_list_key OCCUPANCY_LIST_KEYS d with
        | Some l => l
        | None => from_users
        end in
      match clubs_raw with
      | [] => if is_dict (dict_get d "0") then dict_values d else clubs_raw
      | _ :: _ => clubs_raw
      end
  | JList l => l
  | _ => []
  end.

Section Client.
Context {L : PyLib}.

(** How the portal answers a request, given the requests it has seen
    before. *)
Variable portal : list request -> request -> reply.

(** The clock reading of the call under study. *)
Variable now : clock.

(** [self._session.request(...)]: the request goes out with the session's
    current [Authorization] header, is recorded, and the jar takes the
    changes of the exchange. *)
Definition session_request (m : http_method) (url : string)
  (headers : list (string * string)) (body : http_body) : M response :=
  fun w =>
    let c := self w in
    let rq := {| rq_method := m;
                 rq_url := url;
                 rq_headers := headers;
                 rq_authorization := authorization (_session c);
                 rq_body := body |} in
    let after changes :=
      {| self := with_session c
                   {| cookies := apply_changes changes (cookies (_session c));
                      authorization := authorization (_session c) |};
         sent := sent w ++ [rq] |} in
    match portal (sent w) rq with
    | TransportError changes => (Raise RequestException, after changes)
    | Response st b changes =>
        (Ret {| status_code := st; resp_body := b |}, after changes)
    end.

(** [resp.json()] *)
Definition resp_json (resp : response) : M json :=
  match resp_body resp with
  | Some data => ret data
  | None => lift (Raise JSONDecodeError)
  end.

Definition _ensure_auth_header_from_cookie : M unit :=
  fun w =>
    let c := self w in
    match cookies_get "CpAuthToken" (cookies (_session c)) with
    | Raise e => (Raise e, w)
    | Ret (Some token) =>
        if (token =? "")%string then (Ret tt, w)
        else
          let s := {| cookies := cookies (_session c);
                      authorization := Some ("Bearer " ++ token) |} in
          (Ret tt, {| self := with_session c s; sent := sent w |})
    | Ret None => (Ret tt, w)
    end.

Definition login : M bool :=
  try_except
    (c <- get_self ;;
     let payload := JDict [("RememberMe", JBool true);
                           ("Login", JStr (_email c));
                           ("Password", JStr (_password c))] in
     resp <- session_request POST (BASE_URL ++ LOGIN_PATH)
               [("X-Hash", "#/Login")] (JsonBody payload) ;;
     if status_code resp =? 200 then
       _ <- _ensure_auth_header_from_cookie ;;
       ret true
     else ret false)
    (fun _ => ret false).

Definition _try_endpoint (path : string) (extra_headers : list (string * string))
  : M (option (list json)) :=
  try_except
    (resp <- session_request GET (BASE_URL ++ path) extra_headers NoBody ;;
     if negb (status_code resp =? 200) then ret None
     else
       data <- resp_json resp ;;
       ret (extract_items data))
    (fun _ => ret None).

(** [if bookings:] on the result of [_try_endpoint]. *)
Definition nonempty (bookings : option (list json)) : bool :=
  match bookings with
  | Some (_ :: _) => true
  | _ => false
  end.

Definition batch_of (bookings : option (list json)) : list json :=
  match bookings with Some l => l | None => [] end.

(** [path?start=...&end=...] *)
Definition ranged (path : string) : string :=
  path ++ "?start=" ++ now_isoformat now ++ "&end=" ++ horizon_isoformat now.

Definition is_calendar_like (path : string) : bool :=
  existsb (fun key => contains key (lower path)) ["calendar"; "schedule"].

(** The [extra_headers] of one candidate. *)
Definition headers_for (c : PerfectGymClient) (path : string) : list (string * string) :=
  if contains "/MyCalendar/MyCalendar/GetCalendar" path then
    let club_id :=
      match _club_id c with
      | Some n => if n =? 0 then 5 else n
      | None => 5
      end in
    [("X-Hash", "#/Classes/" ++ str_of_int club_id ++ "/Calendar?date="
                  ++ today_isoformat now)]
  else [].

(** The [for path in paths] loop of [fetch_upcoming_bookings] and the
    [return []] after it. *)
Fixpoint probe_paths (paths : list string) : M (list booking) :=
  match paths with
  | [] => ret []
  | path :: rest =>
      c <- get_self ;;
      let extra_headers := headers_for c path in
      let unranged :=
        bookings <- _try_endpoint path extra_headers ;;
        if nonempty bookings then lift (normalize_batch (batch_of bookings))
        else probe_paths rest in
      if is_calendar_like path then
        bookings <- _try_endpoint (ranged path) extra_headers ;;
        if nonempty bookings then lift (normalize_batch (batch_of bookings))
        else unranged
      else unranged
  end.

(** The list [paths] the loop runs over. *)
Definition candidate_paths (c : PerfectGymClient) : list string :=
  match _bookings_path_override c with
  | Some p => if (p =? "")%string then [] else [p]
  | None => []
  end ++ BOOKINGS_CANDIDATE_PATHS.

Definition fetch_upcoming_bookings : M (list booking) :=
  c <- get_self ;;
  probe_paths (candidate_paths c).

(** The body of [for c in clubs_raw] in [fetch_members_in_clubs]: the club
    entry and the count added to [total]. *)
Definition normalize_club (c : json) : outcome (club * Z) :=
  d <~ as_dict c ;;
  let name :=
    py_or (dict_get d "ClubName")
          (py_or (dict_get d "Name")
                 (py_or (dict_get d "Club")
                        (py_or (dict_get d "name") (JStr "Club")))) in
  let count :=
    py_or (dict_get d "UsersCountCurrentlyInClub")
          (py_or (dict_get d "MembersInClubCount")
                 (py_or (dict_get d "Count")
                        (py_or (dict_get d "members") (dict_get d "value")))) in
  let count :=
    match count with
    | JNull => 0
    | _ => match py_int count with Ret n => n | Raise _ => 0 end
    end in
  Ret ({| club_name := name;
          members := count;
          club_id := py_or (dict_get d "ClubId") (py_or (dict_get d "Id") (dict_get d "id")) |},
       count).

(** The loop itself, with its two accumulators [clubs] and [total]. *)
Fixpoint occupancy_loop (clubs_raw : list json) (clubs : list club) (total : Z)
  : outcome occupancy :=
  match clubs_raw with
  | [] => Ret {| clubs := clubs; total := total |}
  | c :: rest =>
      r <~ normalize_club c ;;
      occupancy_loop rest (clubs ++ [fst r]) (total + snd r)
  end.

Definition fetch_members_in_clubs : M occupancy :=
  _ <- _ensure_auth_header_from_cookie ;;
  try_except
    (resp <- session_request POST (BASE_URL ++ OCCUPANCY_PATH)
               [("X-Hash", "#/Clubs/MembersInClubs")] EmptyBody ;;
     if negb (status_code resp =? 200) then ret empty_occupancy
     else
       data <- resp_json resp ;;
       lift (occupancy_loop (clubs_raw_of data) [] 0))
    (fun _ => ret empty_occupancy).

(** [{}] is [None]; [{"club_name": x}] is [Some x]. *)
Definition fetch_products_for_user : M (option json) :=
  _ <- _ensure_auth_header_from_cookie ;;
  try_except
    (resp <- session_request GET (BASE_URL ++ PRODUCTS_PATH) [] NoBody ;;
     if negb (status_code resp =? 200) then ret None
     else
       data <- resp_json resp ;;
       club_name <- lift (py_get (or_empty_dict data) "ClubName") ;;
       ret (Some club_name))
    (fun _ => ret None).

(** [{}] is [None]. *)
Definition fetch_profile (user_id : json) : M (option profile) :=
  _ <- _ensure_auth_header_from_cookie ;;
  try_except
    (resp <-
       (if truthy user_id then
          session_request POST (BASE_URL ++ PROFILE_PATH)
            [("X-Hash", "#/Profile/Edit?userId=" ++ py_str user_id)]
            (JsonBody (JDict [("userId", user_id)]))
        else
          session_request POST (BASE_URL ++ PROFILE_PATH) [] EmptyBody) ;;
     if negb (status_code resp =? 200) then ret None
     else
       data <- resp_json resp ;;
       model <- lift (m <~ py_get data "Model" ;; Ret (or_empty_dict m)) ;;
       pd <- lift (p <~ py_get model "PersonalData" ;; Ret (or_empty_dict p)) ;;
       phone <- lift (p <~ py_get pd "Phone" ;; Ret (or_empty_dict p)) ;;
       first_name <- lift (py_get pd "FirstName") ;;
       last_name <- lift (py_get pd "LastName") ;;
       names <- lift (join_strs (filter truthy [first_name; last_name])) ;;
       let name := String.concat " " names in
       model_user_id <- lift (py_get model "UserId") ;;
       email <- lift (py_get pd "Email") ;;
       phone_number <- lift (py_get phone "PhoneNumber") ;;
       referral_code <- lift (py_get pd "ReferralCode") ;;
       photo <- lift (p <~ py_get pd "Photo" ;; Ret (or_empty_dict p)) ;;
       photo_url <- lift (py_get photo "Url") ;;
       prod <- fetch_products_for_user ;;
       ret (Some {| pr_user_id := py_or model_user_id user_id;
                    pr_first_name := first_name;
                    pr_last_name := last_name;
                    pr_email := email;
                    pr_phone := phone_number;
                    pr_referral_code := referral_code;
                    pr_full_name := if (name =? "")%string then None else Some name;
                    pr_photo_url := photo_url;
                    pr_club_name :=
                      match prod with
                      | Some club_name => if truthy club_name then Some club_name else None
                      | None => None
                      end |}))
    (fun _ => ret None).

(** [{}] is [None]. *)
Definition fetch_identity : M (option identity) :=
  _ <- _ensure_auth_header_from_cookie ;;
  try_except
    (resp <- session_request POST (BASE_URL ++ IDENTITY_PATH) [] EmptyBody ;;
     if negb (status_code resp =? 200) then ret None
     else
       data <- resp_json resp ;;
       member <- lift (m <~ py_get (or_empty_dict data) "Member" ;; Ret (or_empty_dict m)) ;;
       d <- lift (as_dict member) ;;
       ret (Some {| id_user_id := dict_get d "Id";
                    id_first_name := dict_get d "FirstName";
                    id_last_name := dict_get d "LastName";
                    id_email := dict_get d "Email";
                    id_home_club_id := dict_get d "HomeClubId";
                    id_default_club_id := dict_get d "DefaultClubId";
                    id_type := dict_get d "Type";
                    id_photo_url := dict_get d "PhotoUrl" |}))
    (fun _ => ret None).

(** The body of [for c in contracts_raw] in [fetch_contracts]. *)
Definition normalize_contract (c : json) : outcome contract :=
  d <~ as_dict c ;;
  club <~ as_dict (or_empty_dict (dict_get d "Club")) ;;
  cost <~ as_dict (or_empty_dict (dict_get d "Cost")) ;;
  Ret {| c_id := dict_get d "Id";
         c_name := dict_get d "Name";
         c_addons := py_or (dict_get d "AddonsNames") (JList []);
         c_club_id := dict_get club "Id";
         c_club_name := dict_get club "Name";
         c_start_date := _parse_dt (dict_get d "StartDate");
         c_end_date := _parse_dt (dict_get d "EndDate");
         c_commitment_date := _parse_dt (dict_get d "CommitmentDate");
         c_next_payment_date := _parse_dt (dict_get d "NextPaymentDate");
         c_payment_interval := dict_get d "PaymentInterval";
         c_commitment_period := dict_get d "CommitmentPeriod";
         c_cost_gross := dict_get cost "Gross";
         c_cost_net := dict_get cost "Net";
         c_cost_tax := dict_get cost "Tax";
         c_short_description := dict_get d "ShortDescription" |}.

(** [user_id] is [JNull] when the argument is left out. *)
Definition fetch_contracts (user_id : json) : M contracts_report :=
  _ <- _ensure_auth_header_from_cookie ;;
  try_except
    (user_id <-
       (match user_id with
        | JNull =>
            ident <- fetch_identity ;;
            ret (match ident with
                 | Some i => id_user_id i
                 | None => JNull
                 end)
        | _ => ret user_id
        end) ;;
     if negb (truthy user_id) then ret empty_contracts
     else
       resp <- session_request POST (BASE_URL ++ CONTRACTS_PATH)
                 [("X-Hash", "#/Profile/Contract")]
                 (JsonBody (JDict [("userId", user_id)])) ;;
       if negb (status_code resp =? 200) then ret empty_contracts
       else
         data <- resp_json resp ;;
         contracts_raw <-
           lift (x <~ py_get (or_empty_dict data) "Contracts" ;; Ret (py_or x (JList []))) ;;
         items <- lift (py_iter contracts_raw) ;;
         contracts <- lift (comprehension normalize_contract items) ;;
         let active :=
           match contracts with
           | first :: _ => Some first
           | [] => None
           end in
         ret {| contracts := contracts; active := active |})
    (fun _ => ret empty_contracts).

(** The prober of the specification, on its own: the loop of
    [fetch_upcoming_bookings] up to the batch it settles on, without the
    mapping of that batch. *)
Fixpoint first_batch (paths : list string) : M (option (list json)) :=
  match paths with
  | [] => ret None
  | path :: rest =>
      c <- get_self ;;
      let extra_headers := headers_for c path in
      let unranged :=
        bookings <- _try_endpoint path extra_headers ;;
        if nonempty bookings then ret bookings else first_batch rest in
      if is_calendar_like path then
        bookings <- _try_endpoint (ranged path) extra_headers ;;
        if nonempty bookings then ret bookings else unranged
      else unranged
  end.

(** The URLs one candidate is requested under, in order. *)
Definition attempt_urls (path : string) : list string :=
  if is_calendar_like path
  then [BASE_URL ++ ranged path; BASE_URL ++ path]
  else [BASE_URL ++ path].

End Client.

(* ================================================================= *)
(** ** Notions the properties are stated with *)

(** What [_try_endpoint] makes of a reply. *)
Definition endpoint_result (r : reply) : option (list json) :=
  match r with
  | Response st (Some data) _ => if st =? 200 then extract_items data else None
  | _ => None
  end.

(** A reply after which the caller of [_try_endpoint] stops probing. *)
Definition usable (r : reply) : bool := nonempty (endpoint_result r).

(** A request that raised, a status other than 200, or a body that is not
    JSON. *)
Definition remote_failure (r : reply) : bool :=
  match r with
  | TransportError _ => true
  | Response st body _ =>
      negb (st =? 200) || match body with Some _ => false | None => true end
  end.

(** The identity lookup gave no usable user id: it returned [{}], or a
    [user_id] that is false. *)
Definition no_user_id (ident : option identity) : bool :=
  match ident with
  | Some i => negb (truthy (id_user_id i))
  | None => true
  end.

(** The value a run returned; [None] when it returned [{}] or raised. *)
Definition fst_value {A} (r : outcome (option A) * world) : option A :=
  match fst r with
  | Ret a => a
  | Raise _ => None
  end.

(** The changes an exchange makes to the jar. *)
Definition changes_of (r : reply) : list (jar -> jar) :=
  match r with
  | TransportError changes => changes
  | Response _ _ changes => changes
  end.

(** The [Authorization] header after a refresh that found [t]. *)
Definition refreshed_authorization (w : world) (t : option string) : option string :=
  match t with
  | Some token => Some ("Bearer " ++ token)
  | None => authorization (_session (self w))
  end.

(** What [_ensure_auth_header_from_cookie] reads from the jar in the state
    [w]: the token, [None], or the jar's conflict error. *)
Definition token_lookup (w : world) : outcome (option string) :=
  cookies_get "CpAuthToken" (cookies (_session (self w))).

(** [m] returns from every state in which that lookup returns. *)
Definition returns_unless_conflict {A} (m : M A) : Prop :=
  forall w t, token_lookup w = Ret t -> exists a w', m w = (Ret a, w').

(** [m] returns from every state. *)
Definition never_raises {A} (m : M A) : Prop :=
  forall w, exists a w', m w = (Ret a, w').

(** Whatever [m] returns satisfies [P]. *)
Definition post {A} (m : M A) (P : A -> Prop) : Prop :=
  forall w a w', m w = (Ret a, w') -> P a.

Definition sum_members (cs : list club) : Z :=
  fold_right (fun c acc => members c + acc) 0 cs.

(** The [summary] of what the mapper returned, if it returned. *)
Definition summary_of (o : outcome booking) : option json :=
  match o with
  | Ret b => Some (summary b)
  | Raise _ => None
  end.

(** The first value of [vs] that is true, [default] when there is none. *)
Definition first_truthy (vs : list json) (default : json) : json :=
  match find truthy vs with
  | Some v => v
  | None => default
  end.

(** An object is sectioned when one of the calendar sections holds an
    [Items] list. *)
Definition is_sectioned (d : list (string * json)) : bool :=
  existsb (fun section =>
             match dict_get d section with
             | JDict sec => is_list (dict_get sec "Items")
             | _ => false
             end) CALENDAR_SECTIONS.

(** The decision order as the specification words it: a list as it is;
    else the first known key bound to a list; else, for a sectioned object,
    the concatenation of its sections' items; else the object itself when
    it has a marker key; else nothing. *)
Definition extract_items_spec (payload : json) : option (list json) :=
  match payload with
  | JList l => Some l
  | JDict d =>
      match first_list_key BOOKING_LIST_KEYS d with
      | Some l => Some l
      | None =>
          if is_sectioned d then Some (flat_map (section_items d) CALENDAR_SECTIONS)
          else if existsb (dict_has d) BOOKING_MARKER_KEYS then Some [payload]
          else None
      end
  | _ => None
  end.

(** No key of [keys] is bound to a list in [d]. *)
Definition no_list_key (keys : list string) (d : list (string * json)) : Prop :=
  forall k, In k keys -> forall l, lookup k d <> Some (JList l).

(* ================================================================= *)
(** ** A reference instance of the library, for running the code *)

Module Reference.

Definition digit (c : ascii) : option Z :=
  let n := Z.of_nat (nat_of_ascii c) in
  if (48 <=? n) && (n <=? 57) then Some (n - 48) else None.

(** The digits of [cs] as a number, [None] when one is not a digit or there
    is none. *)
Fixpoint digits_acc (acc : Z) (cs : list ascii) : option Z :=
  match cs with
  | [] => Some acc
  | c :: cs' =>
      match digit c with
      | Some n => digits_acc (acc * 10 + n) cs'
      | None => None
      end
  end.

Definition number (cs : list ascii) : option Z :=
  match cs with
  | [] => None
  | _ :: _ => digits_acc 0 cs
  end.

Definition is_leap (y : Z) : bool :=
  ((y mod 4 =? 0) && negb (y mod 100 =? 0)) || (y mod 400 =? 0).

Definition days_in_month (y m : Z) : Z :=
  if m =? 2 then (if is_leap y then 29 else 28)
  else if (m =? 4) || (m =? 6) || (m =? 9) || (m =? 11) then 30
  else 31.

(** Days from 1970-01-01 to the given civil date. *)
Definition days_from_civil (y m d : Z) : Z :=
  let y' := if m <=? 2 then y - 1 else y in
  let era := y' / 400 in
  let yoe := y' - era * 400 in
  let doy := (153 * (if 2 <? m then m - 3 else m + 9) + 2) / 5 + d - 1 in
  let doe := yoe * 365 + yoe / 4 - yoe / 100 + doy in
  era * 146097 + doe - 719468.

(** [YYYY-MM-DD] *)
Definition parse_date (cs : list ascii) : option Z :=
  match cs with
  | [y1; y2; y3; y4; "-"%char; m1; m2; "-"%char; d1; d2] =>
      match number [y1; y2; y3; y4], number [m1; m2], number [d1; d2] with
      | Some y, Some m, Some d =>
          if (1 <=? y) && (1 <=? m) && (m <=? 12) && (1 <=? d) && (d <=? days_in_month y m)
          then Some (days_from_civil y m d)
          else None
      | _, _, _ => None
      end
  | _ => None
  end.

(** [HH:MM[:SS]], in seconds. *)
Definition parse_clock (cs : list ascii) : option Z :=
  let hms (h m s : option Z) :=
    match h, m, s with
    | Some h, Some m, Some s =>
        if (h <? 24) && (m <? 60) && (s <? 60) then Some (h * 3600 + m * 60 + s) else None
    | _, _, _ => None
    end in
  match cs with
  | [h1; h2; ":"%char; m1; m2] => hms (number [h1; h2]) (number [m1; m2]) (Some 0)
  | [h1; h2; ":"%char; m1; m2; ":"%char; s1; s2] =>
      hms (number [h1; h2]) (number [m1; m2]) (number [s1; s2])
  | _ => None
  end.

(** [+HH:MM] or [-HH:MM], in seconds; the empty suffix is a naive value. *)
Definition parse_offset (cs : list ascii) : option (option Z) :=
  match cs with
  | [] => Some None
  | sign :: rest =>
      match parse_clock rest with
      | Some off =>
          if Ascii.eqb sign "+" then Some (Some off)
          else if Ascii.eqb sign "-" then Some (Some (- off))
          else None
      | None => None
      end
  end.

(** Where the offset starts in a time part, if it has one. *)
Fixpoint split_offset (cs : list ascii) : list ascii * list ascii :=
  match cs with
  | [] => ([], [])
  | c :: cs' =>
      if Ascii.eqb c "+" || Ascii.eqb c "-" then ([], cs)
      else let '(t, o) := split_offset cs' in (c :: t, o)
  end.

(** The extended ISO format [YYYY-MM-DD[*HH:MM[:SS][+HH:MM]]]; every
    other string is rejected. *)
Definition iso_extended (s : string) : option datetime :=
  let cs := list_ascii_of_string s in
  match parse_date (firstn 10 cs) with
  | None => None
  | Some days =>
      match skipn 10 cs with
      | [] => Some {| dt_wall := days * 86400 * 1000000; dt_tzinfo := None |}
      | _ :: time =>
          let '(t, o) := split_offset time in
          match parse_clock t, parse_offset o with
          | Some secs, Some tz =>
              Some {| dt_wall := (days * 86400 + secs) * 1000000; dt_tzinfo := tz |}
          | _, _ => None
          end
      end
  end.

(** An optional sign and decimal digits. *)
Definition int_plain (s : string) : option Z :=
  match list_ascii_of_string s with
  | "-"%char :: cs => option_map Z.opp (number cs)
  | "+"%char :: cs => number cs
  | cs => number cs
  end.

(** Floats print as a token no parser of this module accepts, and strings
    in single quotes without escapes. *)
Definition lib : PyLib := {|
  fromisoformat := iso_extended;
  int_of_str := int_plain;
  float_repr := fun _ => "<float>";
  str_repr := fun s => "'" ++ s ++ "'"
|}.

(** A library whose ISO parser accepts every string, as the start of the
    epoch. *)
Definition permissive : PyLib := {|
  fromisoformat := fun _ => Some {| dt_wall := 0; dt_tzinfo := None |};
  int_of_str := int_plain;
  float_repr := fun _ => "<float>";
  str_repr := fun s => "'" ++ s ++ "'"
|}.

End Reference.


(* ================================================================= *)
(** ** Portals and payloads to run the client against *)

Module Scenario.

Definition clock0 : clock :=
  {| now_isoformat := "2024-05-20T08:00:00";
     horizon_isoformat := "2024-06-19T08:00:00";
     today_isoformat := "2024-05-20" |}.

(** A client just constructed, before any request. *)
Definition fresh : world :=
  {| self := new_client "member@example.org" "secret" None None; sent := [] |}.

(** A portal that gives the same reply to every request. *)
Definition always (r : reply) : list request -> request -> reply :=
  fun _ _ => r.

(** A portal that knows one URL and answers 404 elsewhere. *)
Definition only_at (url : string) (r : reply) : list request -> request -> reply :=
  fun _ rq => if (rq_url rq =? url)%string then r else Response 404 None [].

(** A token cookie of the portal's host under [path]. *)
Definition token_cookie (path value : string) : cookie :=
  {| ck_domain := "nrggym.perfectgym.com";
     ck_path := path;
     ck_name := "CpAuthToken";
     ck_value := Some value |}.

(** The jar takes a cookie it did not hold. *)
Definition add_cookie (c : cookie) : jar -> jar := fun j => (j ++ [c])%list.

(** A client whose jar holds the cookies [cs] and whose header is [auth]. *)
Definition client_with (cs : jar) (auth : option string) : world :=
  {| self := with_session (new_client "member@example.org" "secret" None None)
               {| cookies := cs; authorization := auth |};
     sent := [] |}.

Definition yoga : json :=
  JDict [("StartTime", JStr "2024-06-01T09:00:00Z"); ("Title", JStr "Yoga")].

(** A record whose start does not parse. *)
Definition ghost : json :=
  JDict [("StartTime", JStr "soon"); ("Title", JStr "Ghost")].

(** A record whose [StartTime] parses, behind a [StartTimeUtc] that does
    not. *)
Definition shadowed : json :=
  JDict [("StartTimeUtc", JStr "soon"); ("StartTime", JStr "2024-06-01T10:00:00Z");
         ("Title", JStr "Pilates")].

Definition yoga_booking : booking :=
  {| summary := JStr "Yoga";
     start := Some {| dt_wall := 1717232400000000; dt_tzinfo := Some utc |};
     end_ := None;
     location := JNull;
     description := None |}.

(** The portal of the end-to-end scenario: the login sets the token
    cookie, and the first bookings candidate answers with an [Items]
    envelope. *)
Definition portal_e2e : list request -> request -> reply :=
  fun _ rq =>
    if (rq_url rq =? BASE_URL ++ LOGIN_PATH)%string
    then Response 200 None [add_cookie (token_cookie "/" "t0k3n")]
    else Response 200 (Some (JDict [("Items", JList [yoga])])) [].

(** [login()] followed by [fetch_upcoming_bookings()]. *)
Definition login_then_fetch {L : PyLib} : M (bool * list booking) :=
  ok <- login portal_e2e ;;
  bs <- fetch_upcoming_bookings portal_e2e clock0 ;;
  ret (ok, bs).

(** An identity reply that names the member but carries no [Id]. *)
Definition anonymous : json :=
  JDict [("Member", JDict [("FirstName", JStr "Ada")])].

(** Two clubs, one with a count that is no number. *)
Definition two_clubs : json :=
  JDict [("UsersInClubList",
          JList [JDict [("ClubName", JStr "North");
                        ("UsersCountCurrentlyInClub", JStr "many")];
                 JDict [("ClubName", JStr "South");
                        ("UsersCountCurrentlyInClub", JInt 12)]])].

(** Two contracts, the one that has ended listed first. *)
Definition two_contracts : json :=
  JDict [("Contracts",
          JList [JDict [("Id", JInt 1); ("Name", JStr "Ended plan");
                        ("StartDate", JStr "2020-01-01T00:00:00Z");
                        ("EndDate", JStr "2021-01-01T00:00:00Z")];
                 JDict [("Id", JInt 2); ("Name", JStr "Running plan");
                        ("StartDate", JStr "2024-01-01T00:00:00Z");
                        ("Cost", JDict [("Gross", JInt 30)])]])].

End Scenario.

(* ================================================================= *)
(** ** The callers of the client: [__init__.py] and [sensor.py] *)

(** [DEFAULT_UPDATE_INTERVAL_SECONDS] of [const.py]. *)
Definition DEFAULT_UPDATE_INTERVAL_SECONDS : Z := 3600.

Section Setup.
Context {L : PyLib}.
Variable portal : list request -> request -> reply.

(** [interval_seconds] as [async_setup_entry] computes it from the option
    [update_interval]; [None] when the option is not set. *)
Definition interval_seconds (option : option json) : Z :=
  match py_int (match option with
                | Some v => v
                | None => JInt DEFAULT_UPDATE_INTERVAL_SECONDS
                end) with
  | Ret n => if n <=? 0 then DEFAULT_UPDATE_INTERVAL_SECONDS else n
  | Raise _ => DEFAULT_UPDATE_INTERVAL_SECONDS
  end.

(** [identity.get("user_id") if identity else None] *)
Definition user_id_of (identity : option identity) : json :=
  match identity with
  | Some i => id_user_id i
  | None => JNull
  end.

(** The update method of the profile coordinator. *)
Definition async_update_profile : M (option profile) :=
  identity <- fetch_identity portal ;;
  let user_id := user_id_of identity in
  if truthy user_id then fetch_profile portal user_id
  else ret None.

(** The update method of the contracts coordinator. *)
Definition async_update_contracts : M contracts_report :=
  identity <- fetch_identity portal ;;
  let user_id := user_id_of identity in
  if truthy user_id then fetch_contracts portal user_id
  else ret empty_contracts.

End Setup.

(** [a < b], [a >= b] and the like on two [datetime]s decide by this
    comparison: two aware values compare as instants, two naive ones as
    clock readings, and a naive with an aware value cannot be ordered. *)
Definition dt_compare (a b : datetime) : outcome comparison :=
  match dt_tzinfo a, dt_tzinfo b with
  | Some oa, Some ob =>
      Ret (Z.compare (dt_wall a - oa * 1000000) (dt_wall b - ob * 1000000))
  | None, None => Ret (Z.compare (dt_wall a) (dt_wall b))
  | _, _ => Raise TypeError
  end.

(** [a >= b] *)
Definition dt_ge (a b : datetime) : outcome bool :=
  c <~ dt_compare a b ;;
  Ret (match c with Lt => false | _ => true end).

(** [key(a) < key(b)] for the sort key [b["start"]], which is [None] for a
    booking without start. *)
Definition start_lt (a b : booking) : outcome bool :=
  match start a, start b with
  | Some x, Some y =>
      c <~ dt_compare x y ;;
      Ret (match c with Lt => true | _ => false end)
  | _, _ => Raise TypeError
  end.

(** [list.sort(key=lambda b: b["start"])]: a stable sort, here by
    insertion from the right. *)
Fixpoint insert_by_start (b : booking) (sorted : list booking)
  : outcome (list booking) :=
  match sorted with
  | [] => Ret [b]
  | x :: rest =>
      lt <~ start_lt x b ;;
      if lt then (r <~ insert_by_start b rest ;; Ret (x :: r))
      else Ret (b :: x :: rest)
  end.

Fixpoint sort_by_start (bs : list booking) : outcome (list booking) :=
  match bs with
  | [] => Ret []
  | b :: rest => sorted <~ sort_by_start rest ;; insert_by_start b sorted
  end.

(** What the sensor reads from the clock: the instant, in microseconds from
    the epoch, and the reading of the local clock face. *)
Record wall_clock : Type := mk_wall_clock {
  utc_now_us : Z;
  local_now_us : Z
}.

(** [datetime.now(tz)]: aware in [tz] when one is given, naive local
    otherwise. *)
Definition datetime_now (k : wall_clock) (tz : option Z) : datetime :=
  match tz with
  | Some off => {| dt_wall := utc_now_us k + off * 1000000; dt_tzinfo := Some off |}
  | None => {| dt_wall := local_now_us k; dt_tzinfo := None |}
  end.

Section Sensor.
Context {L : PyLib}.

(** The clock at the moment the sensor is read. *)
Variable k : wall_clock.

(** [dt.strftime("%Y-%m-%d %H:%M")] *)
Variable strftime_minutes : datetime -> string.

(** [[b for b in bookings if b.get("start") and b["start"] >= now]] *)
Fixpoint upcoming_of (now : datetime) (bookings : list booking)
  : outcome (list booking) :=
  match bookings with
  | [] => Ret []
  | b :: rest =>
      keep <~ match start b with
              | Some s => dt_ge s now
              | None => Ret false
              end ;;
      up <~ upcoming_of now rest ;;
      Ret (if keep then b :: up else up)
  end.

(** The lines [NextBookingSensor.native_value] and
    [NextBookingSensor.extra_state_attributes] share: the booking they
    report, [None] when they return [None]. [data] is the coordinator's
    data, [None] before the first refresh. *)
Definition next_booking (data : option (list booking)) : outcome (option booking) :=
  match data with
  | None | Some [] => Ret None
  | Some ((first :: _) as bookings) =>
      let now :=
        match start first with
        | Some s => datetime_now k (dt_tzinfo s)
        | None => datetime_now k None
        end in
      upcoming <~ upcoming_of now bookings ;;
      match upcoming with
      | [] => Ret None
      | _ :: _ =>
          sorted <~ sort_by_start upcoming ;;
          Ret (hd_error sorted)
      end
  end.

(** [NextBookingSensor.native_value] *)
Definition next_booking_native_value (data : option (list booking))
  : outcome (option string) :=
  nb <~ next_booking data ;;
  match nb with
  | None => Ret None
  | Some b =>
      match start b with
      | None => Raise AttributeError
      | Some s =>
          let dt := strftime_minutes s in
          let summary := py_or (summary b) (JStr "Booking") in
          if truthy (location b)
          then Ret (Some (py_str summary ++ " @ " ++ py_str (location b) ++ " on " ++ dt))
          else Ret (Some (py_str summary ++ " on " ++ dt))
      end
  end.

End Sensor.

(* ================================================================= *)
(** ** Notions the further properties are stated with *)

(** The dict [fetch_identity] builds from the [Member] object. *)
Definition identity_of_member (member : list (string * json)) : identity :=
  {| id_user_id := dict_get member "Id";
     id_first_name := dict_get member "FirstName";
     id_last_name := dict_get member "LastName";
     id_email := dict_get member "Email";
     id_home_club_id := dict_get member "HomeClubId";
     id_default_club_id := dict_get member "DefaultClubId";
     id_type := dict_get member "Type";
     id_photo_url := dict_get member "PhotoUrl" |}.

(** A raw contract the mapper can read: an object whose [Club] and [Cost]
    are each an object or false. *)
Definition well_formed_contract (c : json) : bool :=
  match c with
  | JDict d =>
      is_dict (or_empty_dict (dict_get d "Club"))
      && is_dict (or_empty_dict (dict_get d "Cost"))
  | _ => false
  end.

(** A GET without body under the [Authorization] header [auth]. *)
Definition plain_get (auth : option string) (rq : request) : Prop :=
  rq_method rq = GET /\ rq_body rq = NoBody /\ rq_authorization rq = auth.

(** The request [login] sends for a client. *)
Definition login_request (c : PerfectGymClient) : request :=
  {| rq_method := POST;
     rq_url := BASE_URL ++ LOGIN_PATH;
     rq_headers := [("X-Hash", "#/Login")];
     rq_authorization := authorization (_session c);
     rq_body := JsonBody (JDict [("RememberMe", JBool true);
                                 ("Login", JStr (_email c));
                                 ("Password", JStr (_password c))]) |}.

(** The instant of a booking's start in microseconds from the epoch, for
    a start that carries a zone. *)
Definition start_instant (b : booking) : Z :=
  match start b with
  | Some {| dt_wall := wall; dt_tzinfo := Some off |} => wall - off * 1000000
  | _ => 0
  end.

(** A booking whose start is present and carries a zone, as [_parse_dt]
    returns it. *)
Definition aware_start (b : booking) : Prop :=
  exists s off, start b = Some s /\ dt_tzinfo s = Some off.

(** The first booking of least start in a list. *)
Fixpoint earliest (bs : list booking) : option booking :=
  match bs with
  | [] => None
  | b :: rest =>
      match earliest rest with
      | None => Some b
      | Some x => if start_instant x <? start_instant b then Some x else Some b
      end
  end.

(* ================================================================= *)
(** * Properties *)

(** ** Values and strings *)

Lemma py_or_truthy (a b : json) : truthy a = true -> py_or a b = a.
Proof. unfold py_or. intros ->. reflexivity. Qed.

Lemma py_or_falsy (a b : json) : truthy a = false -> py_or a b = b.
Proof. unfold py_or. intros ->. reflexivity. Qed.

Lemma truthy_py_or (a b : json) : truthy (py_or a b) = truthy a || truthy b.
Proof. unfold py_or. destruct (truthy a) eqn:E; simpl; auto. Qed.

Lemma replace_uint (d : Decimal.uint) :
  replace "Z" "+00:00" (NilEmpty.string_of_uint d) = NilEmpty.string_of_uint d.
Proof. induction d; simpl; try rewrite IHd; reflexivity. Qed.

(** The decimal rendering of an [int] holds no ["Z"] to rewrite. *)
Lemma replace_str_of_int (n : Z) :
  replace "Z" "+00:00" (str_of_int n) = str_of_int n.
Proof.
  unfold str_of_int, NilEmpty.string_of_int.
  destruct (Z.to_int n); simpl; rewrite replace_uint; reflexivity.
Qed.

(** ** Timestamps *)

Lemma fromtimestamp_us_utc (us : Z) (dt : datetime) :
  fromtimestamp_us us = Some dt -> dt_tzinfo dt = Some utc /\ dt_wall dt = us.
Proof.
  unfold fromtimestamp_us.
  destruct (_ && _); intros H; inversion H; subst; simpl; auto.
Qed.

Lemma fromtimestamp_us_in_range (us : Z) :
  MIN_TIMESTAMP * 1000000 <= us <= MAX_TIMESTAMP * 1000000 + 999999 ->
  fromtimestamp_us us = Some {| dt_wall := us; dt_tzinfo := Some utc |}.
Proof.
  intros [Hlo Hhi]. unfold fromtimestamp_us.
  apply Z.leb_le in Hlo. apply Z.leb_le in Hhi.
  rewrite Hlo, Hhi. reflexivity.
Qed.

(** ** Doubles and timestamps *)

Lemma round_half_even_spec (a b : Z) :
  0 < b -> - b <= 2 * (round_half_even a b * b - a) <= b.
Proof.
  intros Hb. unfold round_half_even. cbv zeta.
  pose proof (Z.div_mod a b ltac:(lia)) as Hdm.
  pose proof (Z.mod_pos_bound a b Hb) as Hm.
  set (q := a / b) in *. set (r := a mod b) in *.
  assert (Hq : (q + 1) * b = b * q + b) by ring.
  assert (Hq' : q * b = b * q) by ring.
  destruct (Z.compare_spec (2 * r) b) as [E|E|E].
  - destruct (Z.even q); lia.
  - lia.
  - lia.
Qed.

Lemma round_half_even_exact (q b : Z) :
  0 < b -> round_half_even (q * b) b = q.
Proof.
  intros Hb. unfold round_half_even.
  rewrite Z.mod_mul by lia. rewrite Z.div_mul by lia. cbv zeta.
  destruct (Z.compare_spec (2 * 0) b); [lia|reflexivity|lia].
Qed.

Lemma round_half_even_ge (a b c : Z) :
  0 < b -> c * b <= a -> c <= round_half_even a b.
Proof.
  intros Hb H. pose proof (round_half_even_spec a b Hb). nia.
Qed.

Lemma round_half_even_le (a b c : Z) :
  0 < b -> a <= c * b -> round_half_even a b <= c.
Proof.
  intros Hb H. pose proof (round_half_even_spec a b Hb). nia.
Qed.

Lemma pow2_pos (k : Z) : 0 <= k -> 0 < 2 ^ k.
Proof. intros. apply Z.pow_pos_nonneg; lia. Qed.

Lemma pow2_le (a b : Z) : 0 <= a <= b -> 2 ^ a <= 2 ^ b.
Proof. intros. apply Z.pow_le_mono_r; lia. Qed.

(** [ilog2_quot n d] is at most the exponent of any power of two above the quotient. *)
Lemma ilog2_quot_lower (n d : Z) :
  0 < n -> 0 < d -> 0 <= ilog2_quot n d -> d * 2 ^ ilog2_quot n d <= n.
Proof.
  intros Hn Hd. unfold ilog2_quot.
  set (l := Z.log2 n - Z.log2 d).
  pose proof (Z.log2_spec n Hn) as [Hn1 Hn2].
  pose proof (Z.log2_spec d Hd) as [Hd1 Hd2].
  pose proof (Z.log2_nonneg n) as Hln. pose proof (Z.log2_nonneg d) as Hld.
  destruct (n * 2 ^ Z.max 0 (- l) <? d * 2 ^ Z.max 0 l) eqn:E; intros Hx.
  - (* l - 1 *)
    assert (Hl : 1 <= l) by lia.
    replace (Z.log2 n) with (Z.log2 d + 1 + (l - 1)) in Hn1 by (unfold l; lia).
    rewrite Z.pow_add_r in Hn1 by lia.
    pose proof (pow2_pos (l - 1) ltac:(lia)).
    replace (Z.succ (Z.log2 d)) with (Z.log2 d + 1) in Hd2 by lia.
    nia.
  - apply Z.ltb_ge in E.
    rewrite Z.max_r in E by lia. rewrite (Z.max_l 0 (- l)) in E by lia.
    simpl in E. lia.
Qed.

Lemma ilog2_quot_below (n d t : Z) :
  0 < n -> 0 < d -> 0 <= t -> n < d * 2 ^ t -> ilog2_quot n d < t.
Proof.
  intros Hn Hd Ht H.
  destruct (Z.lt_ge_cases (ilog2_quot n d) t) as [|Hge]; [assumption|exfalso].
  pose proof (ilog2_quot_lower n d Hn Hd ltac:(lia)) as Hlow.
  pose proof (pow2_le t (ilog2_quot n d) ltac:(lia)). nia.
Qed.

(** The quotient [v / 1000] as a double with [k >= 9] bits after the point:
    its whole part is the whole quotient, and its fraction is the
    remainder up to the rounding. *)
Lemma quotient_split (v k : Z) :
  0 <= v -> 9 <= k ->
  let m := round_half_even (v * 2 ^ k) 1000 in
  m / 2 ^ k = v / 1000
  /\ 0 <= m mod 2 ^ k < 2 ^ k
  /\ - 500 <= 1000 * (m mod 2 ^ k) - (v mod 1000) * 2 ^ k <= 500.
Proof.
  intros Hv Hk m.
  pose proof (pow2_le 9 k ltac:(lia)) as HA. change (2 ^ 9) with 512 in HA.
  set (A := 2 ^ k) in *.
  pose proof (Z.div_mod v 1000 ltac:(lia)) as Hdm.
  pose proof (Z.mod_pos_bound v 1000 ltac:(lia)) as Hr.
  set (q := v / 1000) in *. set (r := v mod 1000) in *.
  pose proof (round_half_even_spec (v * A) 1000 ltac:(lia)) as Hm. fold m in Hm.
  assert (Hfn : exists fn, m = q * A + fn /\ 0 <= fn < A
                           /\ - 500 <= 1000 * fn - r * A <= 500).
  { exists (m - q * A). split; [ring|].
    destruct (Z.eq_dec r 0) as [Hr0|Hr0].
    - assert (Hex : m = q * A).
      { unfold m. replace (v * A) with ((q * A) * 1000) by (rewrite Hdm, Hr0; ring).
        apply round_half_even_exact. lia. }
      rewrite Hex, Hr0. lia.
    - nia. }
  destruct Hfn as (fn & Hmq & Hfn & Herr).
  assert (Hdiv : m / A = q).
  { symmetry. apply (Z.div_unique m A q fn); [lia|]. rewrite Hmq. ring. }
  assert (Hmod : m mod A = fn).
  { symmetry. apply (Z.mod_unique m A q fn); [lia|]. rewrite Hmq. ring. }
  rewrite Hdiv, Hmod. repeat split; lia.
Qed.

(** [floatpart * 1e6], rounded to microseconds: for a fraction [fn / 2 ^ k]
    that is the remainder [r] of a division by 1000 up to the rounding of
    its double. *)
Lemma microseconds_of_fraction (fn r k : Z) :
  15 <= k -> 0 <= fn < 2 ^ k -> 0 <= r < 1000 ->
  - 500 <= 1000 * fn - r * 2 ^ k <= 500 ->
  let floatpart := nearest_double (fn * 1000000) (2 ^ k) in
  let us := round_half_even (fst floatpart * 2 ^ Z.max 0 (snd floatpart))
                            (2 ^ Z.max 0 (- snd floatpart)) in
  0 <= us /\ Z.abs (us - 1000 * r) <= 15 /\ (20 <= k -> us = 1000 * r).
Proof.
  intros Hk Hfn Hr Herr floatpart us.
  pose proof (pow2_le 15 k ltac:(lia)) as HA. change (2 ^ 15) with 32768 in HA.
  assert (HA20 : 20 <= k -> 1048576 <= 2 ^ k).
  { intros H. pose proof (pow2_le 20 k ltac:(lia)) as H'. exact H'. }
  set (A := 2 ^ k) in *.
  destruct (Z.eq_dec fn 0) as [Hz|Hnz].
  - (* the quotient is whole *)
    assert (Hr0 : r = 0) by nia.
    subst fn r. unfold us, floatpart, nearest_double. cbn [Z.mul Z.eqb fst snd].
    split; [cbv; discriminate|]. split; [cbv; discriminate|]. intros _. reflexivity.
  - unfold us, floatpart, nearest_double.
    destruct (fn * 1000000 =? 0) eqn:E; [apply Z.eqb_eq in E; lia|]. clear E.
    cbn [fst snd].
    assert (Hx : ilog2_quot (fn * 1000000) A < 20).
    { apply ilog2_quot_below; lia. }
    set (x := ilog2_quot (fn * 1000000) A) in *.
    rewrite (Z.max_l 0 (x - 52)) by lia.
    rewrite (Z.max_r 0 (- (x - 52))) by lia.
    change (2 ^ 0) with 1. rewrite !Z.mul_1_r.
    pose proof (pow2_le 33 (- (x - 52)) ltac:(lia)) as HB.
    change (2 ^ 33) with 8589934592 in HB.
    set (B := 2 ^ (- (x - 52))) in *.
    pose proof (round_half_even_spec (fn * 1000000 * B) A ltac:(lia)) as H2.
    set (m2 := round_half_even (fn * 1000000 * B) A) in *.
    pose proof (round_half_even_spec m2 B ltac:(lia)) as H1.
    set (y := round_half_even m2 B) in *.
    set (D := y - 1000 * r).
    set (t1 := y * B - m2) in *. set (t2 := m2 * A - fn * 1000000 * B) in *.
    set (t3 := 1000 * fn - r * A) in *.
    assert (Hsum : 2 * (D * (A * B)) = 2 * (t1 * A) + 2 * t2 + 2000 * (B * t3))
      by (unfold D, t1, t2, t3; ring).
    assert (Ht1 : - (A * B) <= 2 * (t1 * A) <= A * B).
    { split.
      - replace (2 * (t1 * A)) with ((2 * t1) * A) by ring.
        replace (- (A * B)) with ((- B) * A) by ring.
        apply Z.mul_le_mono_nonneg_r; lia.
      - replace (2 * (t1 * A)) with ((2 * t1) * A) by ring.
        replace (A * B) with (B * A) by ring.
        apply Z.mul_le_mono_nonneg_r; lia. }
    assert (Ht3 : - (500 * B) <= B * t3 <= 500 * B).
    { split.
      - replace (- (500 * B)) with (B * (-500)) by ring.
        apply Z.mul_le_mono_nonneg_l; lia.
      - replace (500 * B) with (B * 500) by ring.
        apply Z.mul_le_mono_nonneg_l; lia. }
    assert (HPA : 32768 * B <= A * B) by (apply Z.mul_le_mono_nonneg_r; lia).
    assert (HPB : 8589934592 * A <= A * B).
    { replace (8589934592 * A) with (A * 8589934592) by ring.
      apply Z.mul_le_mono_nonneg_l; lia. }
    assert (Hmono : forall c, c <= D -> c * (A * B) <= D * (A * B)).
    { intros c Hc. apply Z.mul_le_mono_nonneg_r; lia. }
    assert (Hmono' : forall c, D <= c -> D * (A * B) <= c * (A * B)).
    { intros c Hc. apply Z.mul_le_mono_nonneg_r; lia. }
    set (P := A * B) in *. set (Q := D * P) in *.
    split; [|split].
    + apply round_half_even_ge; [lia|].
      assert (0 <= m2); [|lia].
      apply round_half_even_ge; [lia|].
      assert (0 <= fn * B) by (apply Z.mul_nonneg_nonneg; lia). lia.
    + apply Z.abs_le. split.
      * destruct (Z.lt_ge_cases D (-15)) as [Hc|Hc]; [exfalso|lia].
        pose proof (Hmono' (-16) ltac:(lia)). lia.
      * destruct (Z.lt_ge_cases 15 D) as [Hc|Hc]; [exfalso|lia].
        pose proof (Hmono 16 ltac:(lia)). lia.
    + intros H20. specialize (HA20 H20).
      assert (HPA' : 1048576 * B <= P) by (apply Z.mul_le_mono_nonneg_r; lia).
      destruct (Z.lt_trichotomy D 0) as [Hc|[Hc|Hc]]; [exfalso| lia |exfalso].
      * pose proof (Hmono' (-1) ltac:(lia)). lia.
      * pose proof (Hmono 1 ltac:(lia)). lia.
Qed.

Lemma fromtimestamp_us_above (us : Z) :
  MAX_TIMESTAMP * 1000000 + 999999 < us -> fromtimestamp_us us = None.
Proof.
  intros H. unfold fromtimestamp_us.
  apply Z.leb_gt in H. rewrite H, andb_false_r. reflexivity.
Qed.

(** Milliseconds of the years 1970 to 9999: the whole seconds are exact
    and the microseconds are those of [v] up to 15, and exact before
    2242-03-16T12:56:32Z, where the double of the quotient has 20 bits and
    more after the point. *)
Lemma fromtimestamp_ms_in_range (v : Z) :
  10000000000 < v <= 253402300799999 ->
  exists dt,
    fromtimestamp_ms v = Some dt
    /\ dt_tzinfo dt = Some utc
    /\ Z.abs (dt_wall dt - v * 1000) <= 15
    /\ (v < 8589934592000 -> dt_wall dt = v * 1000).
Proof.
  intros Hv. unfold fromtimestamp_ms, nearest_double.
  destruct (v =? 0) eqn:E; [apply Z.eqb_eq in E; lia|]. clear E. cbn [fst snd].
  assert (Hx : ilog2_quot v 1000 < 38) by (apply ilog2_quot_below; lia).
  assert (Hx' : v < 8589934592000 -> ilog2_quot v 1000 < 33).
  { intros H. apply ilog2_quot_below; lia. }
  set (x := ilog2_quot v 1000) in *.
  unfold fromtimestamp_double.
  rewrite !(Z.max_l 0 (x - 52)) by lia.
  rewrite !(Z.max_r 0 (- (x - 52))) by lia.
  change (2 ^ 0) with 1. rewrite !Z.mul_1_r.
  set (k := - (x - 52)) in *.
  destruct (quotient_split v k ltac:(lia) ltac:(lia)) as (Hdiv & Hfn & Herr).
  set (m := round_half_even (v * 2 ^ k) 1000) in *.
  rewrite Hdiv.
  pose proof (Z.mod_pos_bound v 1000 ltac:(lia)) as Hr.
  destruct (microseconds_of_fraction (m mod 2 ^ k) (v mod 1000) k
              ltac:(lia) Hfn Hr Herr) as (Hnn & Hus & Hexact).
  set (us := round_half_even (fst _ * _) _) in *.
  pose proof (Z.div_mod v 1000 ltac:(lia)) as Hdm.
  assert (Hq : 10000000 <= v / 1000 <= 253402300799).
  { lia. }
  apply Z.abs_le in Hus.
  destruct (1000000 <=? us) eqn:Ec; [apply Z.leb_le in Ec; lia|].
  apply Z.leb_gt in Ec.
  eexists. split.
  - apply fromtimestamp_us_in_range. unfold MIN_TIMESTAMP, MAX_TIMESTAMP. lia.
  - cbn [dt_tzinfo dt_wall]. split; [reflexivity|]. split.
    + apply Z.abs_le. lia.
    + intros H. specialize (Hx' H). rewrite Hexact by lia. lia.
Qed.

(** Milliseconds after the year 9999 give no instant, however large. *)
Lemma fromtimestamp_ms_above (v : Z) :
  253402300799999 < v -> fromtimestamp_ms v = None.
Proof.
  intros Hv. unfold fromtimestamp_ms, nearest_double.
  destruct (v =? 0) eqn:E; [apply Z.eqb_eq in E; lia|]. clear E. cbn [fst snd].
  set (x := ilog2_quot v 1000).
  unfold fromtimestamp_double.
  set (e := x - 52).
  set (m := round_half_even (v * 2 ^ Z.max 0 (- e)) (1000 * 2 ^ Z.max 0 e)).
  set (k := Z.max 0 (- e)).
  set (num := m * 2 ^ Z.max 0 e).
  set (floatpart := nearest_double _ _).
  set (us := round_half_even _ _).
  assert (Hk : 0 <= k) by (unfold k; lia).
  pose proof (pow2_pos k Hk) as HA.
  pose proof (pow2_pos (Z.max 0 e) ltac:(lia)) as HE.
  assert (Hint : 253402300800 <= num / 2 ^ k).
  { destruct (Z.le_gt_cases e (-9)) as [He|He].
    - (* the double has bits after the point *)
      assert (Hke : k = - e) by (unfold k; lia).
      unfold num, m. rewrite (Z.max_l 0 e) by lia. fold k.
      change (2 ^ 0) with 1. rewrite !Z.mul_1_r.
      destruct (quotient_split v k ltac:(lia) ltac:(lia)) as (Hdiv & _).
      rewrite Hdiv. apply Z.div_le_lower_bound; lia.
    - (* the double is 2 ^ 43 at least *)
      assert (Hx : 0 <= x) by (unfold e in He; lia).
      pose proof (ilog2_quot_lower v 1000 ltac:(lia) ltac:(lia) Hx) as Hlow.
      fold x in Hlow.
      assert (Hm : 2 ^ 52 <= m).
      { unfold m. apply round_half_even_ge; [lia|].
        destruct (Z.le_gt_cases 0 e) as [He0|He0].
        - rewrite (Z.max_l 0 (- e)), (Z.max_r 0 e) by lia.
          change (2 ^ 0) with 1. rewrite Z.mul_1_r.
          replace x with (e + 52) in Hlow by (unfold e; lia).
          rewrite Z.pow_add_r in Hlow by lia. lia.
        - rewrite (Z.max_r 0 (- e)), (Z.max_l 0 e) by lia.
          change (2 ^ 0) with 1. rewrite Z.mul_1_r.
          replace 52 with (x + - e) by (unfold e; lia).
          rewrite Z.pow_add_r by lia. nia. }
      apply Z.div_le_lower_bound; [lia|].
      unfold num.
      assert (Hk9 : k <= 9) by (unfold k; lia).
      pose proof (pow2_le k 9 ltac:(lia)) as H9. change (2 ^ 9) with 512 in H9.
      change (2 ^ 52) with 4503599627370496 in Hm. nia. }
  assert (Hus : 0 <= us).
  { unfold us. apply round_half_even_ge; [apply pow2_pos; lia|].
    assert (0 <= fst floatpart).
    { unfold floatpart, nearest_double.
      destruct (_ =? 0); cbn [fst]; [lia|].
      apply round_half_even_ge.
      - pose proof (pow2_pos (Z.max 0 (ilog2_quot (num mod 2 ^ k * 1000000) (2 ^ k) - 52))
                      ltac:(lia)). nia.
      - pose proof (Z.mod_pos_bound num (2 ^ k) HA).
        pose proof (pow2_pos (Z.max 0 (- (ilog2_quot (num mod 2 ^ k * 1000000) (2 ^ k) - 52)))
                      ltac:(lia)). nia. }
    pose proof (pow2_pos (Z.max 0 (snd floatpart)) ltac:(lia)). nia. }
  destruct (1000000 <=? us); apply fromtimestamp_us_above;
    unfold MAX_TIMESTAMP; lia.
Qed.

Lemma fromtimestamp_ms_utc (val : Z) (dt : datetime) :
  fromtimestamp_ms val = Some dt -> dt_tzinfo dt = Some utc.
Proof.
  unfold fromtimestamp_ms, fromtimestamp_double.
  destruct (1000000 <=? _); intros H; apply fromtimestamp_us_utc in H; tauto.
Qed.

(** ** The temporal parser *)

Section ParseDt.
Context {L : PyLib}.

(** Whatever [_parse_dt] returns carries a zone. *)
Lemma _parse_dt_aware (value : json) (dt : datetime) :
  _parse_dt value = Some dt -> exists tz, dt_tzinfo dt = Some tz.
Proof.
  unfold _parse_dt.
  destruct (negb (truthy value)); [discriminate|].
  destruct (fromisoformat _) as [iso|].
  - intros H. inversion H; subst; clear H.
    destruct (dt_tzinfo iso) as [tz|] eqn:E.
    + exists tz. exact E.
    + exists utc. reflexivity.
  - destruct (py_int value) as [val|]; [|discriminate].
    destruct (10000000000 <? val); intros H; exists utc.
    + exact (fromtimestamp_ms_utc _ _ H).
    + apply fromtimestamp_us_utc in H. tauto.
Qed.

(** The epoch branch, for any value the ISO attempt rejects and [int()]
    converts. *)
Lemma _parse_dt_epoch_branch (value : json) (val : Z) :
  truthy value = true ->
  fromisoformat (replace "Z" "+00:00" (py_str value)) = None ->
  py_int value = Ret val ->
  _parse_dt value =
    if 10000000000 <? val then fromtimestamp_ms val else fromtimestamp_s val.
Proof.
  intros Ht Hiso Hint. unfold _parse_dt.
  rewrite Ht, Hiso, Hint. reflexivity.
Qed.

End ParseDt.

(** C9. A value that is false in Python's sense ([None], [0], [""],
    [False], and also [0.0], [[]] and [{}]) makes [_parse_dt] return [None]
    at its first statement, whatever the ISO parser and [int()] would have
    made of it. *)
Theorem _parse_dt_falsy (L : PyLib) (value : json) :
  truthy value = false -> _parse_dt value = None.
Proof.
  intros H. unfold _parse_dt. rewrite H. reflexivity.
Qed.

(** [None], [0], [""] and [False] are false, and the epoch timestamp [0]
    is lost although both interpretations would have accepted it: under a
    library whose ISO parser accepts every string, and with
    [fromtimestamp(0)] being 1970-01-01T00:00:00Z. *)
Lemma _parse_dt_falsy_witness :
  (truthy JNull = false /\ truthy (JInt 0) = false
   /\ truthy (JStr "") = false /\ truthy (JBool false) = false)
  /\ @_parse_dt Reference.permissive (JInt 0) = None
  /\ @fromisoformat Reference.permissive (str_of_int 0)
     = Some {| dt_wall := 0; dt_tzinfo := None |}
  /\ fromtimestamp_s 0 = Some {| dt_wall := 0; dt_tzinfo := Some utc |}.
Proof.
  split; [repeat split|].
  split; [apply (_parse_dt_falsy Reference.permissive (JInt 0)); reflexivity|].
  split; reflexivity.
Defined.

(** C4, as the code has it. For a non-zero integer [v] whose decimal
    rendering the ISO parser rejects: up to 10_000_000_000, [v] is read as
    epoch seconds, exactly. Above, [v] is read as epoch milliseconds: the
    quotient [v / 1000] is a double and is rounded to microseconds, so the
    result is the instant of [v] milliseconds exactly before 2^33 seconds
    (2242-03-16T12:56:32Z) and within 15 microseconds of it up to the year
    9999. Outside the years a [datetime] can hold the result is [None];
    every instant returned has [tzinfo] UTC. *)
Theorem _parse_dt_epoch_int (L : PyLib) (v : Z) :
  v <> 0 ->
  fromisoformat (str_of_int v) = None ->
  (v <= 10000000000 ->
     (MIN_TIMESTAMP <= v ->
      _parse_dt (JInt v) = Some {| dt_wall := v * 1000000; dt_tzinfo := Some utc |})
     /\ (v < MIN_TIMESTAMP -> _parse_dt (JInt v) = None))
  /\ (10000000000 < v ->
      (v <= MAX_TIMESTAMP * 1000 + 999 ->
       exists dt,
         _parse_dt (JInt v) = Some dt
         /\ dt_tzinfo dt = Some utc
         /\ Z.abs (dt_wall dt - v * 1000) <= 15
         /\ (v < 8589934592000 -> dt_wall dt = v * 1000))
      /\ (MAX_TIMESTAMP * 1000 + 999 < v -> _parse_dt (JInt v) = None))
  /\ (forall dt, _parse_dt (JInt v) = Some dt -> dt_tzinfo dt = Some utc).
Proof.
  intros Hv Hiso.
  assert (E : _parse_dt (JInt v)
              = if 10000000000 <? v then fromtimestamp_ms v else fromtimestamp_s v).
  { apply (_parse_dt_epoch_branch (JInt v) v).
    - simpl. apply negb_true_iff, Z.eqb_neq. exact Hv.
    - simpl. rewrite replace_str_of_int. exact Hiso.
    - reflexivity. }
  rewrite E. split; [|split].
  - intros Hs. apply Z.ltb_ge in Hs. rewrite Hs. unfold fromtimestamp_s.
    apply Z.ltb_ge in Hs. split.
    + intros Hlo. apply fromtimestamp_us_in_range.
      unfold MIN_TIMESTAMP, MAX_TIMESTAMP in *. lia.
    + intros Hlo. unfold fromtimestamp_us.
      destruct (MIN_TIMESTAMP * 1000000 <=? v * 1000000) eqn:E1; [|reflexivity].
      apply Z.leb_le in E1. unfold MIN_TIMESTAMP in *. lia.
  - intros Hms. apply Z.ltb_lt in Hms. rewrite Hms. apply Z.ltb_lt in Hms. split.
    + intros Hhi. apply fromtimestamp_ms_in_range. unfold MAX_TIMESTAMP in Hhi. lia.
    + intros Hhi. apply fromtimestamp_ms_above. unfold MAX_TIMESTAMP in Hhi. lia.
  - intros dt. destruct (10000000000 <? v); intros H.
    + exact (fromtimestamp_ms_utc _ _ H).
    + apply fromtimestamp_us_utc in H. tauto.
Qed.

(** 1717232400000 is 2024-06-01T09:00:00Z in milliseconds. *)
Lemma _parse_dt_epoch_int_witness :
  @_parse_dt Reference.lib (JInt 1717232400000)
  = Some {| dt_wall := 1717232400000000; dt_tzinfo := Some utc |}.
Proof.
  destruct (_parse_dt_epoch_int Reference.lib 1717232400000) as (_ & Hms & _);
    [discriminate | reflexivity |].
  destruct Hms as ((dt & E & Htz & _ & Hexact) & _);
    [reflexivity | vm_compute; discriminate |].
  rewrite E. destruct dt as [wall tz]. cbn [dt_wall dt_tzinfo] in *.
  rewrite Htz, Hexact by reflexivity. reflexivity.
Defined.

(** One millisecond after 2^33 seconds the quotient 8589934592.001 has no
    double nearer than a microsecond: the result is a microsecond early. *)
Example _parse_dt_epoch_ms_rounding :
  @_parse_dt Reference.lib (JInt 8589934592001)
  = Some {| dt_wall := 8589934592000999; dt_tzinfo := Some utc |}.
Proof. vm_compute. reflexivity. Qed.

(** The double of that quotient, as the primitive doubles of Rocq compute
    it, and the double of the fraction times [1e6]. *)
Example nearest_double_primitive :
  Prim2SF (PrimFloat.of_uint63 8589934592001%uint63 / 1000)%float
  = S754_finite false (Z.to_pos (fst (nearest_double 8589934592001 1000)))
                      (snd (nearest_double 8589934592001 1000))
  /\ Prim2SF ((PrimFloat.of_uint63 8589934592001%uint63 / 1000
               - PrimFloat.of_uint63 8589934592%uint63) * 1000000)%float
     = S754_finite false 8791261184000000 (-43)
  /\ nearest_double (4503599627371020 mod 2 ^ 19 * 1000000) (2 ^ 19)
     = (8791261184000000, -43).
Proof. vm_compute. repeat split; reflexivity. Qed.

(** C4 as stated fails at the integer [0]: it is at most 10_000_000_000,
    yet it is not read as the epoch second 0; no instant is returned. *)
Lemma _parse_dt_epoch_zero :
  (10000000000 <? 0) = false
  /\ fromtimestamp_s 0 = Some {| dt_wall := 0; dt_tzinfo := Some utc |}
  /\ @_parse_dt Reference.lib (JInt 0) = None
  /\ ~ (exists dt, @_parse_dt Reference.lib (JInt 0) = Some dt
                   /\ dt_tzinfo dt = Some utc).
Proof.
  repeat split. intros [dt [E _]]. discriminate E.
Qed.

(** ** The booking mapper *)

Section Mapper.
Context {L : PyLib}.

(** On a dict the mapper returns. *)
Lemma _normalize_booking_dict (d : list (string * json)) :
  exists b, _normalize_booking (JDict d) = Ret b.
Proof. unfold _normalize_booking. simpl. eexists. reflexivity. Qed.

(** On anything else, its first [item.get] raises. *)
Lemma _normalize_booking_not_dict (item : json) :
  is_dict item = false -> _normalize_booking item = Raise AttributeError.
Proof. destruct item; simpl; intros H; try reflexivity; discriminate. Qed.

Lemma comprehension_length {A B} (f : A -> outcome B) (xs : list A) (ys : list B) :
  comprehension f xs = Ret ys -> List.length ys = List.length xs.
Proof.
  revert ys. induction xs as [|x xs IH]; simpl; intros ys H.
  - inversion H. reflexivity.
  - destruct (f x) as [y|]; simpl in H; [|discriminate].
    destruct (comprehension f xs) as [ys'|]; simpl in H; [|discriminate].
    inversion H. simpl. f_equal. apply IH. reflexivity.
Qed.

Lemma comprehension_total {A B} (f : A -> outcome B) (xs : list A) :
  Forall (fun x => exists y, f x = Ret y) xs ->
  exists ys, comprehension f xs = Ret ys.
Proof.
  induction 1 as [|x xs [y Hy] _ [ys IH]]; simpl.
  - eexists. reflexivity.
  - rewrite Hy, IH. simpl. eexists. reflexivity.
Qed.

(** A batch of dicts is mapped item by item. *)
Lemma comprehension_normalize_dicts (items : list json) :
  Forall (fun i => is_dict i = true) items ->
  exists all, comprehension _normalize_booking items = Ret all.
Proof.
  intros H. apply comprehension_total.
  eapply Forall_impl; [|exact H].
  intros [] Hd; try discriminate. apply _normalize_booking_dict.
Qed.

(** The start of the mapped record is what [_parse_dt] makes of one of the
    four start candidates: when none of them parses, there is no start. *)
Lemma _normalize_booking_no_start (d : list (string * json)) (b : booking) :
  _normalize_booking (JDict d) = Ret b ->
  (forall k, In k ["StartTimeUtc"; "StartTime"; "Start"; "StartDate"] ->
             _parse_dt (dict_get d k) = None) ->
  has_start b = false.
Proof.
  unfold _normalize_booking. simpl. intros H Hall. inversion H; subst; clear H.
  unfold has_start. simpl. unfold py_or.
  destruct (truthy (dict_get d "StartTimeUtc"));
    [|destruct (truthy (dict_get d "StartTime"));
      [|destruct (truthy (dict_get d "Start"))]];
    rewrite Hall; simpl; auto.
Qed.

(** A batch with an item that is not a dict makes the mapping raise. *)
Lemma normalize_batch_non_dict (items : list json) :
  Exists (fun i => is_dict i = false) items ->
  normalize_batch items = Raise AttributeError.
Proof.
  unfold normalize_batch. induction items as [|i items IH]; intros H.
  - inversion H.
  - simpl. destruct (is_dict i) eqn:Ed.
    + destruct i; try discriminate.
      destruct (_normalize_booking_dict d) as [b Hb]. rewrite Hb. simpl.
      inversion H as [? ? Hi|? ? Hi]; subst; [simpl in Hi; discriminate|].
      specialize (IH Hi).
      destruct (comprehension _normalize_booking items); simpl in *;
        [discriminate|exact IH].
    + rewrite (_normalize_booking_not_dict i Ed). reflexivity.
Qed.

(** The start of the mapped record is what [_parse_dt] makes of the first
    true value among [StartTimeUtc], [StartTime] and [Start], and of
    [StartDate] when none is true. *)
Lemma _normalize_booking_start (d : list (string * json)) :
  exists b,
    _normalize_booking (JDict d) = Ret b
    /\ start b
       = _parse_dt (first_truthy [dict_get d "StartTimeUtc"; dict_get d "StartTime";
                                  dict_get d "Start"]
                                 (dict_get d "StartDate")).
Proof.
  unfold _normalize_booking. simpl. eexists. split; [reflexivity|]. simpl.
  f_equal. unfold first_truthy, py_or. simpl.
  destruct (truthy (dict_get d "StartTimeUtc")); [reflexivity|].
  destruct (truthy (dict_get d "StartTime")); [reflexivity|].
  destruct (truthy (dict_get d "Start")); reflexivity.
Qed.

(** Whatever [normalize_batch] returns has a start. *)
Lemma normalize_batch_has_start (bookings : list json) (bs : list booking) :
  normalize_batch bookings = Ret bs ->
  Forall (fun b => exists dt, start b = Some dt) bs.
Proof.
  unfold normalize_batch.
  destruct (comprehension _normalize_booking bookings) as [all|]; simpl; [|discriminate].
  intros H. inversion H; subst; clear H.
  apply Forall_forall. intros b Hb. apply filter_In in Hb. destruct Hb as [_ Hb].
  unfold has_start in Hb. destruct (start b) as [dt|]; [|discriminate].
  exists dt. reflexivity.
Qed.

End Mapper.

(** C10, as the code has it. On every dict the mapper returns a booking
    whose [summary] is the first true value among [Title], [ClassName] and
    [Name], and the string ["Booking"] when none is true. It is never
    [None] and never false; it is a non-empty string whenever each of the
    three fields is missing, [null] or a string. *)
Theorem _normalize_booking_summary (L : PyLib) (d : list (string * json)) :
  exists b,
    _normalize_booking (JDict d) = Ret b
    /\ summary b = first_truthy [dict_get d "Title"; dict_get d "ClassName"; dict_get d "Name"]
                                (JStr "Booking")
    /\ truthy (summary b) = true
    /\ (Forall (fun v => v = JNull \/ is_str v = true)
               [dict_get d "Title"; dict_get d "ClassName"; dict_get d "Name"] ->
        exists s, summary b = JStr s /\ s <> "").
Proof.
  unfold _normalize_booking. simpl. eexists. split; [reflexivity|]. simpl.
  unfold first_truthy, py_or. simpl.
  destruct (truthy (dict_get d "Title")) eqn:E1;
    [|destruct (truthy (dict_get d "ClassName")) eqn:E2;
      [|destruct (truthy (dict_get d "Name")) eqn:E3]];
    (split; [reflexivity|]); (split; [assumption || reflexivity|]);
    intros H; inversion_clear H as [|? ? H1 H']; inversion_clear H' as [|? ? H2 H''];
    inversion_clear H'' as [|? ? H3 _].
  - destruct H1 as [H1|H1]; [rewrite H1 in E1; discriminate|].
    destruct (dict_get d "Title"); try discriminate.
    exists s. split; [reflexivity|]. intros ->. discriminate.
  - destruct H2 as [H2|H2]; [rewrite H2 in E2; discriminate|].
    destruct (dict_get d "ClassName"); try discriminate.
    exists s. split; [reflexivity|]. intros ->. discriminate.
  - destruct H3 as [H3|H3]; [rewrite H3 in E3; discriminate|].
    destruct (dict_get d "Name"); try discriminate.
    exists s. split; [reflexivity|]. intros ->. discriminate.
  - exists "Booking". split; [reflexivity|]. discriminate.
Qed.

(** A title and a class name, both strings: the title is the summary. *)
Lemma _normalize_booking_summary_witness :
  exists s, summary_of (@_normalize_booking Reference.lib
                          (JDict [("Title", JStr "Yoga"); ("ClassName", JStr "Flow")]))
            = Some (JStr s) /\ s = "Yoga".
Proof.
  destruct (_normalize_booking_summary Reference.lib
              [("Title", JStr "Yoga"); ("ClassName", JStr "Flow")])
    as [b [Hb [Hs _]]].
  exists "Yoga". rewrite Hb. simpl. rewrite Hs. split; reflexivity.
Defined.

(** C10 as stated fails on a title that is not a string: the summary is
    that value, here the number 7. *)
Lemma _normalize_booking_summary_number :
  summary_of (@_normalize_booking Reference.lib (JDict [("Title", JInt 7)]))
  = Some (JInt 7)
  /\ is_str (JInt 7) = false.
Proof. split; reflexivity. Qed.

(** ** The shape normaliser *)

Lemma first_list_key_none (keys : list string) (d : list (string * json)) :
  no_list_key keys d -> first_list_key keys d = None.
Proof.
  induction keys as [|k keys IH]; intros H; simpl; [reflexivity|].
  assert (Hk : forall l, lookup k d <> Some (JList l)) by (apply H; left; reflexivity).
  assert (IH' : first_list_key keys d = None)
    by (apply IH; intros k' Hin; apply H; right; exact Hin).
  destruct (lookup k d) as [[]|]; try exact IH'.
  exfalso. eapply Hk. reflexivity.
Qed.

Lemma first_list_key_some (keys : list string) (d : list (string * json)) (l : list json) :
  first_list_key keys d = Some l ->
  exists pre k post,
    keys = (pre ++ k :: post)%list /\ no_list_key pre d /\ lookup k d = Some (JList l).
Proof.
  induction keys as [|k keys IH]; simpl; [discriminate|].
  destruct (lookup k d) as [v|] eqn:E.
  - destruct v;
      try (intros H; destruct (IH H) as (pre & k' & post & -> & Hno & Hk);
           exists (k :: pre), k', post; split; [reflexivity|]; split; [|exact Hk];
           intros k0 [<-|Hin] l0; [rewrite E; discriminate | apply Hno; exact Hin]).
    intros H. inversion H; subst.
    exists [], k, keys. split; [reflexivity|]. split; [|exact E].
    intros ? [].
  - intros H; destruct (IH H) as (pre & k' & post & -> & Hno & Hk).
    exists (k :: pre), k', post. split; [reflexivity|]. split; [|exact Hk].
    intros k0 [<-|Hin] l0; [rewrite E; discriminate | apply Hno; exact Hin].
Qed.

(** The first key bound to a list wins, in the order of [keys]. *)
Lemma first_list_key_first (pre post : list string) (k : string)
  (d : list (string * json)) (l : list json) :
  no_list_key pre d -> lookup k d = Some (JList l) ->
  first_list_key (pre ++ k :: post)%list d = Some l.
Proof.
  induction pre as [|k' pre IH]; intros Hno Hk; simpl.
  - rewrite Hk. reflexivity.
  - assert (Hk' : forall l', lookup k' d <> Some (JList l'))
      by (apply Hno; left; reflexivity).
    assert (IH' : first_list_key (pre ++ k :: post)%list d = Some l)
      by (apply IH; [intros k0 Hin; apply Hno; right; exact Hin | exact Hk]).
    destruct (lookup k' d) as [[]|]; try exact IH'.
    exfalso. eapply Hk'. reflexivity.
Qed.

Lemma existsb_dict_has_false (d : list (string * json)) (keys : list string) :
  (forall k, In k keys -> dict_has d k = false) -> existsb (dict_has d) keys = false.
Proof.
  induction keys as [|k keys IH]; intros H; simpl; [reflexivity|].
  rewrite (H k) by (left; reflexivity). apply IH.
  intros k' Hin. apply H. right. exact Hin.
Qed.

(** C5, as the code has it. The decision order of the normalisation inside
    [_try_endpoint], first match winning:
    (1) a list is returned as it is;
    (2) for an object, the first of [Bookings], [Items], [Data], [Result],
        [results] that is bound to a list gives that list;
    (3) else, when the [Items] lists of the sections [RecentItems],
        [FutureItems], [PastItems], concatenated in this order, are not
        empty, that concatenation;
    (4) else, when the object has one of the keys [Start], [StartDate],
        [StartTime], the object alone;
    (5) else, and for every value that is neither list nor object,
        nothing. *)
Theorem extract_items_decision_order :
  (forall l, extract_items (JList l) = Some l)
  /\ (forall d pre k post l,
        BOOKING_LIST_KEYS = (pre ++ k :: post)%list ->
        no_list_key pre d -> lookup k d = Some (JList l) ->
        extract_items (JDict d) = Some l)
  /\ (forall d,
        no_list_key BOOKING_LIST_KEYS d ->
        flat_map (section_items d) CALENDAR_SECTIONS <> [] ->
        extract_items (JDict d)
        = Some (section_items d "RecentItems" ++ section_items d "FutureItems"
                ++ section_items d "PastItems")%list)
  /\ (forall d,
        no_list_key BOOKING_LIST_KEYS d ->
        flat_map (section_items d) CALENDAR_SECTIONS = [] ->
        (exists k, In k BOOKING_MARKER_KEYS /\ dict_has d k = true) ->
        extract_items (JDict d) = Some [JDict d])
  /\ (forall d,
        no_list_key BOOKING_LIST_KEYS d ->
        flat_map (section_items d) CALENDAR_SECTIONS = [] ->
        (forall k, In k BOOKING_MARKER_KEYS -> dict_has d k = false) ->
        extract_items (JDict d) = None)
  /\ (forall v, is_list v = false -> is_dict v = false -> extract_items v = None).
Proof.
  repeat split.
  - intros d pre k post l Hkeys Hno Hk. unfold extract_items.
    rewrite Hkeys, (first_list_key_first pre post k d l Hno Hk). reflexivity.
  - intros d Hno Hne. unfold extract_items.
    rewrite (first_list_key_none _ _ Hno).
    destruct (flat_map (section_items d) CALENDAR_SECTIONS) eqn:E; [congruence|].
    rewrite <- E. simpl. rewrite app_nil_r. reflexivity.
  - intros d Hno Hem [k [Hin Hk]]. unfold extract_items.
    rewrite (first_list_key_none _ _ Hno), Hem.
    replace (existsb (dict_has d) BOOKING_MARKER_KEYS) with true; [reflexivity|].
    symmetry. apply existsb_exists. exists k. split; assumption.
  - intros d Hno Hem Hk. unfold extract_items.
    rewrite (first_list_key_none _ _ Hno), Hem, (existsb_dict_has_false _ _ Hk).
    reflexivity.
  - intros [] Hl Hd; try reflexivity; discriminate.
Qed.

(** The five shapes, one payload each: a flat list; [Items] winning over a
    [Data] that comes first in the payload but later in the priority order
    and a [Bookings] that is no list; two sections given in the payload in
    the order past, recent; a single record; an unknown object. *)
Lemma extract_items_decision_order_witness :
  extract_items (JList [JInt 1]) = Some [JInt 1]
  /\ extract_items (JDict [("Data", JList [JInt 1]); ("Bookings", JNull);
                           ("Items", JList [JInt 2])]) = Some [JInt 2]
  /\ extract_items (JDict [("PastItems", JDict [("Items", JList [JInt 1])]);
                           ("RecentItems", JDict [("Items", JList [JInt 2])])])
     = Some [JInt 2; JInt 1]
  /\ extract_items (JDict [("StartDate", JNull)]) = Some [JDict [("StartDate", JNull)]]
  /\ extract_items (JDict [("Foo", JDict [("Items", JList [JInt 1])])]) = None.
Proof.
  destruct extract_items_decision_order as (H1 & H2 & H3 & H4 & H5 & _).
  split; [apply H1|].
  split; [apply (H2 _ ["Bookings"] "Items" ["Data"; "Result"; "results"]);
          [reflexivity | | reflexivity];
          intros k [<-|[]] l; vm_compute; discriminate|].
  split; [apply H3;
          [intros k Hin l; simpl in Hin;
           repeat (destruct Hin as [<-|Hin]; [vm_compute; discriminate|]); destruct Hin
          | vm_compute; discriminate]|].
  split; [apply H4;
          [intros k Hin l; simpl in Hin;
           repeat (destruct Hin as [<-|Hin]; [vm_compute; discriminate|]); destruct Hin
          | reflexivity
          | exists "StartDate"; split; [right; left; reflexivity | reflexivity]]|].
  apply H5;
    [intros k Hin l; simpl in Hin;
     repeat (destruct Hin as [<-|Hin]; [vm_compute; discriminate|]); destruct Hin
    | reflexivity
    | intros k Hin; simpl in Hin;
      repeat (destruct Hin as [<-|Hin]; [reflexivity|]); destruct Hin].
Defined.

(** C5 as stated fails on a sectioned object whose sections are empty:
    rule (3) would return the empty concatenation, the code goes on to
    rule (4) and returns the object itself. *)
Lemma extract_items_empty_sections :
  let payload := JDict [("FutureItems", JDict [("Items", JList [])]);
                        ("StartTime", JStr "2024-06-01T09:00:00Z")] in
  extract_items_spec payload = Some []
  /\ extract_items payload = Some [payload]
  /\ extract_items payload <> extract_items_spec payload.
Proof. cbv zeta. split; [reflexivity|]. split; [reflexivity|]. discriminate. Qed.

(** ** Reasoning about [M] *)

Lemma never_raises_ret {A} (a : A) : never_raises (ret a).
Proof. intros w. exists a, w. reflexivity. Qed.

Lemma never_raises_bind {A B} (m : M A) (k : A -> M B) :
  never_raises m -> (forall a, never_raises (k a)) -> never_raises (bind m k).
Proof.
  intros Hm Hk w. destruct (Hm w) as (a & w1 & E).
  destruct (Hk a w1) as (b & w2 & E'). exists b, w2.
  unfold bind. rewrite E. exact E'.
Qed.

(** A [try] whose handler returns never lets an exception out. *)
Lemma never_raises_try {A} (body : M A) (handler : exn -> M A) :
  (forall e, never_raises (handler e)) -> never_raises (try_except body handler).
Proof.
  intros Hh w. unfold try_except.
  destruct (body w) as [[a|e] w1].
  - exists a, w1. reflexivity.
  - apply Hh.
Qed.

Lemma bind_assoc {A B C} (m : M A) (f : A -> M B) (g : B -> M C) (w : world) :
  bind (bind m f) g w = bind m (fun a => bind (f a) g) w.
Proof. unfold bind. destruct (m w) as [[a|e] w1]; reflexivity. Qed.

Lemma bind_ext {A B} (m : M A) (f g : A -> M B) (w : world) :
  (forall a w', f a w' = g a w') -> bind m f w = bind m g w.
Proof. intros H. unfold bind. destruct (m w) as [[a|e] w1]; [apply H|reflexivity]. Qed.

Lemma post_ret {A} (a : A) (P : A -> Prop) : P a -> post (ret a) P.
Proof. intros H w a' w' E. inversion E; subst. exact H. Qed.

Lemma post_bind {A B} (m : M A) (k : A -> M B) (P : B -> Prop) :
  (forall a, post (k a) P) -> post (bind m k) P.
Proof.
  intros Hk w b w' E. unfold bind in E.
  destruct (m w) as [[a|e] w1]; [|discriminate].
  eapply Hk. exact E.
Qed.

Lemma post_try {A} (body : M A) (handler : exn -> M A) (P : A -> Prop) :
  post body P -> (forall e, post (handler e) P) -> post (try_except body handler) P.
Proof.
  intros Hb Hh w a w' E. unfold try_except in E.
  destruct (body w) as [[a'|e] w1] eqn:Eb.
  - inversion E; subst. eapply Hb. exact Eb.
  - eapply Hh. exact E.
Qed.

Lemma post_lift {A} (o : outcome A) (P : A -> Prop) :
  (forall a, o = Ret a -> P a) -> post (lift o) P.
Proof. intros H w a w' E. inversion E; subst. apply H. reflexivity. Qed.

Lemma post_if {A} (b : bool) (m1 m2 : M A) (P : A -> Prop) :
  post m1 P -> post m2 P -> post (if b then m1 else m2) P.
Proof. destruct b; auto. Qed.

(** ** The session *)

Section Session.
Context {L : PyLib}.
Variable portal : list request -> request -> reply.

(** The lookup raises nothing but the jar's conflict error. *)
Lemma _find_no_duplicates_conflict (name : string) (j : jar) (toReturn : option string)
  (e : exn) :
  _find_no_duplicates name toReturn j = Raise e -> e = CookieConflictError.
Proof.
  revert toReturn. induction j as [|c rest IH]; intros toReturn; simpl.
  - discriminate.
  - destruct (ck_name c =? name)%string; [|apply IH].
    destruct toReturn; [intros H; inversion H; reflexivity|apply IH].
Qed.

Lemma cookies_get_conflict (name : string) (j : jar) (e : exn) :
  cookies_get name j = Raise e -> e = CookieConflictError.
Proof.
  unfold cookies_get.
  destruct (_find_no_duplicates name None j) as [r|e'] eqn:E; simpl; [discriminate|].
  intros H. inversion H; subst. exact (_find_no_duplicates_conflict _ _ _ _ E).
Qed.

(** A value that is returned is not empty. *)
Lemma cookies_get_nonempty (name : string) (j : jar) (token : string) :
  cookies_get name j = Ret (Some token) -> token <> "".
Proof.
  unfold cookies_get.
  destruct (_find_no_duplicates name None j) as [[v|]|]; simpl; try discriminate.
  destruct (v =? "")%string eqn:E; [discriminate|].
  intros H. inversion H; subst. apply String.eqb_neq. exact E.
Qed.

(** When the lookup raises, so does the refresh, and nothing has changed. *)
Lemma _ensure_auth_header_from_cookie_conflict (w : world) (e : exn) :
  token_lookup w = Raise e -> _ensure_auth_header_from_cookie w = (Raise e, w).
Proof.
  unfold token_lookup, _ensure_auth_header_from_cookie. intros ->. reflexivity.
Qed.

(** Otherwise it returns, sends nothing, leaves the jar and the
    configuration as they are, and the header is the bearer token found,
    or what it was when none was found. *)
Lemma _ensure_auth_header_from_cookie_spec (w : world) (t : option string) :
  token_lookup w = Ret t ->
  exists w',
    _ensure_auth_header_from_cookie w = (Ret tt, w')
    /\ sent w' = sent w
    /\ cookies (_session (self w')) = cookies (_session (self w))
    /\ _bookings_path_override (self w') = _bookings_path_override (self w)
    /\ _club_id (self w') = _club_id (self w)
    /\ authorization (_session (self w')) = refreshed_authorization w t.
Proof.
  intros Ht. pose proof Ht as Ht'.
  unfold token_lookup in Ht. unfold _ensure_auth_header_from_cookie. rewrite Ht.
  destruct t as [token|].
  - pose proof (cookies_get_nonempty _ _ _ Ht) as Hne.
    apply String.eqb_neq in Hne. rewrite Hne.
    eexists. repeat split.
  - exists w. repeat split.
Qed.

(** It is idempotent: the header is derived from the cookie alone. *)
Lemma _ensure_auth_header_from_cookie_idem (w : world) :
  _ensure_auth_header_from_cookie (snd (_ensure_auth_header_from_cookie w))
  = _ensure_auth_header_from_cookie w.
Proof.
  unfold _ensure_auth_header_from_cookie.
  destruct (cookies_get "CpAuthToken" (cookies (_session (self w))))
    as [[token|]|e] eqn:E.
  - destruct (token =? "")%string eqn:Et; simpl.
    + rewrite E, Et. reflexivity.
    + rewrite E, Et. reflexivity.
  - simpl. rewrite E. reflexivity.
  - simpl. rewrite E. reflexivity.
Qed.

(** The lookup reads the jar only. *)
Lemma token_lookup_after_ensure (w : world) :
  token_lookup (snd (_ensure_auth_header_from_cookie w)) = token_lookup w.
Proof.
  unfold token_lookup, _ensure_auth_header_from_cookie.
  destruct (cookies_get "CpAuthToken" (cookies (_session (self w))))
    as [[token|]|e] eqn:E;
    [destruct (token =? "")%string|..]; simpl; rewrite ?E; reflexivity.
Qed.

(** One request, recorded at the end of the trace, answered by the portal. *)
Lemma session_request_spec (m : http_method) (url : string)
  (headers : list (string * string)) (body : http_body) (w : world) :
  let rq := {| rq_method := m; rq_url := url; rq_headers := headers;
               rq_authorization := authorization (_session (self w));
               rq_body := body |} in
  exists w',
    sent w' = (sent w ++ [rq])%list
    /\ _bookings_path_override (self w') = _bookings_path_override (self w)
    /\ _club_id (self w') = _club_id (self w)
    /\ session_request portal m url headers body w
       = (match portal (sent w) rq with
          | TransportError _ => Raise RequestException
          | Response st b _ => Ret {| status_code := st; resp_body := b |}
          end, w').
Proof.
  intros rq. unfold session_request. fold rq.
  destruct (portal (sent w) rq);
    refine (ex_intro _ _ (conj _ (conj _ (conj _ eq_refl)))); reflexivity.
Qed.

(** An operation that starts with the refresh, outside any [try], lets the
    conflict error out before it has done anything. *)
Lemma refresh_conflict {A} (k : unit -> M A) (w : world) (e : exn) :
  token_lookup w = Raise e ->
  bind _ensure_auth_header_from_cookie k w = (Raise CookieConflictError, w).
Proof.
  intros H. unfold bind.
  rewrite (_ensure_auth_header_from_cookie_conflict w e H).
  rewrite (cookies_get_conflict _ _ _ H). reflexivity.
Qed.

(** Otherwise it goes on in the state the refresh left. *)
Lemma refresh_returns {A} (k : unit -> M A) (w : world) (t : option string) :
  token_lookup w = Ret t ->
  bind _ensure_auth_header_from_cookie k w
  = k tt (snd (_ensure_auth_header_from_cookie w)).
Proof.
  intros H. destruct (_ensure_auth_header_from_cookie_spec w t H) as (w' & E & _).
  unfold bind. rewrite E. reflexivity.
Qed.

(** What has returned did not meet the conflict. *)
Lemma refresh_returned {A} (k : unit -> M A) (w : world) (a : A) (w' : world) :
  bind _ensure_auth_header_from_cookie k w = (Ret a, w') ->
  exists t, token_lookup w = Ret t.
Proof.
  intros H. destruct (token_lookup w) as [t|e] eqn:E; [exists t; reflexivity|].
  rewrite (refresh_conflict k w e E) in H. discriminate.
Qed.

(** One request followed by code that computes its result from the
    response without touching the session. *)
Lemma request_then {A} (m : http_method) (url : string)
  (headers : list (string * string)) (body : http_body)
  (K : response -> M A) (F : response -> outcome A) (w : world) :
  (forall resp w0, K resp w0 = (F resp, w0)) ->
  let rq := {| rq_method := m; rq_url := url; rq_headers := headers;
               rq_authorization := authorization (_session (self w));
               rq_body := body |} in
  exists w',
    bind (session_request portal m url headers body) K w
    = (match portal (sent w) rq with
       | TransportError _ => Raise RequestException
       | Response st b _ => F {| status_code := st; resp_body := b |}
       end, w')
    /\ sent w' = (sent w ++ [rq])%list
    /\ authorization (_session (self w')) = authorization (_session (self w))
    /\ cookies (_session (self w'))
       = apply_changes (changes_of (portal (sent w) rq)) (cookies (_session (self w)))
    /\ _bookings_path_override (self w') = _bookings_path_override (self w)
    /\ _club_id (self w') = _club_id (self w).
Proof.
  intros HK rq. unfold bind, session_request. fold rq.
  destruct (portal (sent w) rq) as [ch|st b ch].
  - eexists. split; [reflexivity|]. simpl. auto 6.
  - rewrite HK. eexists. split; [reflexivity|]. simpl. auto 6.
Qed.

(** So an operation of that shape whose [try] catches everything returns
    from every state in which the lookup does. *)
Lemma refresh_try_returns {A} (body : M A) (default : A) :
  returns_unless_conflict
    (bind _ensure_auth_header_from_cookie
          (fun _ => try_except body (fun _ => ret default))).
Proof.
  intros w t H. rewrite (refresh_returns _ w t H). unfold try_except.
  destruct (body _) as [[a|e] w1]; eexists _, _; reflexivity.
Qed.

End Session.

(** ** Occupancy *)

Section Occupancy.
Context {L : PyLib}.
Variable portal : list request -> request -> reply.

Lemma sum_members_app (cs : list club) (c : club) :
  sum_members (cs ++ [c]) = sum_members cs + members c.
Proof.
  unfold sum_members. induction cs as [|c' cs IH]; simpl; [lia|].
  rewrite IH. lia.
Qed.

(** The count added to [total] is the one stored in the entry. *)
Lemma normalize_club_members (c : json) (r : club * Z) :
  normalize_club c = Ret r -> members (fst r) = snd r.
Proof.
  unfold normalize_club. destruct (as_dict c) as [d|]; simpl; [|discriminate].
  intros H. inversion H. reflexivity.
Qed.

(** A club none of whose count fields holds a value that [int()] converts
    is entered with 0 members. *)
Lemma normalize_club_unparseable (d : list (string * json)) (r : club * Z) :
  normalize_club (JDict d) = Ret r ->
  (forall k, In k ["UsersCountCurrentlyInClub"; "MembersInClubCount"; "Count";
                   "members"; "value"] ->
             dict_get d k = JNull \/ exists e, py_int (dict_get d k) = Raise e) ->
  members (fst r) = 0.
Proof.
  unfold normalize_club. simpl. intros H Hall. inversion H; subst; clear H. simpl.
  assert (Hzero : forall v, (v = JNull \/ exists e, py_int v = Raise e) ->
            match v with
            | JNull => 0
            | _ => match py_int v with Ret n => n | Raise _ => 0 end
            end = 0).
  { intros v [->|[e He]]; [reflexivity|]. rewrite He. destruct v; reflexivity. }
  unfold py_or.
  destruct (truthy (dict_get d "UsersCountCurrentlyInClub"));
    [|destruct (truthy (dict_get d "MembersInClubCount"));
      [|destruct (truthy (dict_get d "Count"));
        [|destruct (truthy (dict_get d "members"))]]];
    apply Hzero, Hall; simpl; auto 6.
Qed.

Lemma normalize_club_dict (d : list (string * json)) :
  exists r, normalize_club (JDict d) = Ret r.
Proof. unfold normalize_club. simpl. eexists. reflexivity. Qed.

(** The loop invariant: [total] is the sum of the counts of [clubs]. *)
Lemma occupancy_loop_total (clubs_raw : list json) (cs : list club) (t : Z)
  (r : occupancy) :
  t = sum_members cs ->
  occupancy_loop clubs_raw cs t = Ret r ->
  total r = sum_members (clubs r).
Proof.
  revert cs t. induction clubs_raw as [|c rest IH]; intros cs t Ht; simpl.
  - intros H. inversion H; subst. reflexivity.
  - destruct (normalize_club c) as [p|] eqn:E; simpl; [|discriminate].
    apply IH. rewrite sum_members_app, (normalize_club_members c p E). lia.
Qed.

(** On a list of dicts the loop runs to its end, one entry per item. *)
Lemma occupancy_loop_dicts (clubs_raw : list json) (cs : list club) (t : Z) :
  Forall (fun c => is_dict c = true) clubs_raw ->
  exists r, occupancy_loop clubs_raw cs t = Ret r
            /\ List.length (clubs r) = (List.length cs + List.length clubs_raw)%nat.
Proof.
  intros H. revert cs t.
  induction H as [|c rest Hc _ IH]; intros cs t; simpl.
  - eexists. split; [reflexivity|]. simpl. lia.
  - destruct c; try discriminate.
    destruct (normalize_club_dict d) as [p Hp]. rewrite Hp. simpl.
    destruct (IH (cs ++ [fst p])%list (t + snd p)) as (r & Hr & Hlen).
    exists r. split; [exact Hr|]. rewrite Hlen, length_app. simpl. lia.
Qed.

(** The occupancy loop is the item-by-item mapping followed by the sums. *)
Lemma occupancy_loop_comprehension (clubs_raw : list json) (cs : list club) (t : Z) :
  occupancy_loop clubs_raw cs t
  = (rs <~ comprehension normalize_club clubs_raw ;;
     Ret {| clubs := (cs ++ map fst rs)%list;
            total := t + fold_right (fun r acc => snd r + acc) 0 rs |}).
Proof.
  revert cs t. induction clubs_raw as [|c rest IH]; intros cs t; simpl.
  - rewrite app_nil_r, Z.add_0_r. reflexivity.
  - destruct (normalize_club c) as [r|e]; simpl; [|reflexivity].
    rewrite IH. destruct (comprehension normalize_club rest) as [rs|e]; simpl;
      [|reflexivity].
    rewrite <- app_assoc, Z.add_assoc. reflexivity.
Qed.

Lemma fetch_members_in_clubs_returns :
  returns_unless_conflict (fetch_members_in_clubs portal).
Proof. apply refresh_try_returns. Qed.

(** C2. [fetch_members_in_clubs] reads the token cookie before its [try]:
    when the jar holds two cookies of that name the lookup raises and the
    error leaves the method before any request. Otherwise the method
    returns a report after one request, and in that report [total] is the
    sum of the [members] of its [clubs]. When the request raises, the
    status is not 200 or the body is not JSON, the report is
    [{"clubs": [], "total": 0}]. When the body is a list of dicts the
    report has one entry per dict, the one the loop body makes of it,
    whatever the count fields hold: a count that is missing or does not
    convert with [int()] is entered as 0. *)
Theorem fetch_members_in_clubs_total (w : world) :
  (forall e, token_lookup w = Raise e ->
     fetch_members_in_clubs portal w = (Raise CookieConflictError, w))
  /\ (forall t, token_lookup w = Ret t ->
      exists r rq w',
        fetch_members_in_clubs portal w = (Ret r, w')
        /\ sent w' = (sent w ++ [rq])%list
        /\ total r = sum_members (clubs r)
        /\ (remote_failure (portal (sent w) rq) = true -> r = empty_occupancy)
        /\ (forall items ck,
              portal (sent w) rq = Response 200 (Some (JList items)) ck ->
              Forall (fun c => is_dict c = true) items ->
              exists rs,
                comprehension normalize_club items = Ret rs
                /\ clubs r = map fst rs
                /\ List.length (clubs r) = List.length items))
  /\ (forall d c,
        normalize_club (JDict d) = Ret c ->
        (forall k, In k ["UsersCountCurrentlyInClub"; "MembersInClubCount"; "Count";
                         "members"; "value"] ->
                   dict_get d k = JNull \/ exists e, py_int (dict_get d k) = Raise e) ->
        members (fst c) = 0).
Proof.
  split; [|split; [|exact normalize_club_unparseable]].
  { intros e He. exact (refresh_conflict _ w e He). }
  intros t Ht.
  destruct (_ensure_auth_header_from_cookie_spec w t Ht) as (wa & Ea & Hs & _).
  unfold fetch_members_in_clubs, bind. rewrite Ea. unfold try_except, bind.
  destruct (session_request_spec portal POST (BASE_URL ++ OCCUPANCY_PATH)
              [("X-Hash", "#/Clubs/MembersInClubs")] EmptyBody wa)
    as (w2 & Hsent & _ & _ & Ereq).
  rewrite Ereq, Hs in *. clear Ereq.
  set (rq := {| rq_method := POST; rq_url := BASE_URL ++ OCCUPANCY_PATH;
                rq_headers := [("X-Hash", "#/Clubs/MembersInClubs")];
                rq_authorization := authorization (_session (self wa));
                rq_body := EmptyBody |}) in *.
  destruct (portal (sent w) rq) as [ch|st b ck] eqn:Ep.
  - (* the request raised *)
    exists empty_occupancy, rq, w2.
    split; [reflexivity|]. split; [exact Hsent|]. split; [reflexivity|].
    split; [reflexivity|]. intros items ck Hi. rewrite Ep in Hi. discriminate.
  - simpl. destruct (st =? 200) eqn:Est; simpl.
    + apply Z.eqb_eq in Est. subst st.
      unfold resp_json. simpl. destruct b as [data|]; simpl.
      * (* a decoded body *)
        destruct (occupancy_loop (clubs_raw_of data) [] 0) as [r|e] eqn:El; simpl.
        -- exists r, rq, w2. split; [reflexivity|]. split; [exact Hsent|].
           split; [eapply occupancy_loop_total; [|exact El]; reflexivity|].
           rewrite Ep. split; [discriminate|].
           intros items ck' Hi Hd. inversion Hi; subst. simpl in El.
           rewrite occupancy_loop_comprehension in El.
           destruct (comprehension normalize_club items) as [rs|] eqn:Ec;
             simpl in El; [|discriminate].
           inversion El; subst; clear El. simpl.
           exists rs. split; [reflexivity|]. split; [reflexivity|].
           rewrite length_map. exact (comprehension_length _ _ _ Ec).
        -- exists empty_occupancy, rq, w2.
           split; [reflexivity|]. split; [exact Hsent|]. split; [reflexivity|].
           split; [reflexivity|]. rewrite Ep.
           intros items ck' Hi Hd. inversion Hi; subst. simpl in El.
           destruct (occupancy_loop_dicts items [] 0 Hd) as (r' & Hr' & _).
           rewrite Hr' in El. discriminate.
      * (* the body is not JSON *)
        exists empty_occupancy, rq, w2.
        split; [reflexivity|]. split; [exact Hsent|]. split; [reflexivity|].
        split; [reflexivity|]. rewrite Ep. discriminate.
    + (* a status other than 200 *)
      exists empty_occupancy, rq, w2.
      split; [reflexivity|]. split; [exact Hsent|]. split; [reflexivity|].
      split; [reflexivity|]. rewrite Ep.
      intros items ck' Hi. inversion Hi; subst. discriminate.
Qed.

End Occupancy.

(** ** Identity and contracts *)

Section Contracts.
Context {L : PyLib}.
Variable portal : list request -> request -> reply.

Lemma fetch_identity_returns : returns_unless_conflict (fetch_identity portal).
Proof. apply refresh_try_returns. Qed.

Lemma fetch_products_for_user_returns :
  returns_unless_conflict (fetch_products_for_user portal).
Proof. apply refresh_try_returns. Qed.

Lemma fetch_profile_returns (user_id : json) :
  returns_unless_conflict (fetch_profile portal user_id).
Proof. apply refresh_try_returns. Qed.

Lemma fetch_contracts_returns (user_id : json) :
  returns_unless_conflict (fetch_contracts portal user_id).
Proof. apply refresh_try_returns. Qed.

(** A second refresh of the header before the identity request changes
    nothing. *)
Lemma fetch_identity_after_ensure (w : world) :
  fetch_identity portal (snd (_ensure_auth_header_from_cookie w))
  = fetch_identity portal w.
Proof.
  unfold fetch_identity at 1. unfold bind.
  rewrite _ensure_auth_header_from_cookie_idem. reflexivity.
Qed.

(** What the identity lookup computes from the response. *)
Lemma fetch_identity_pure (resp : response) (w0 : world) :
  (if negb (status_code resp =? 200) then ret None
   else
     data <- resp_json resp ;;
     member <- lift (m <~ py_get (or_empty_dict data) "Member" ;; Ret (or_empty_dict m)) ;;
     d <- lift (as_dict member) ;;
     ret (Some {| id_user_id := dict_get d "Id";
                  id_first_name := dict_get d "FirstName";
                  id_last_name := dict_get d "LastName";
                  id_email := dict_get d "Email";
                  id_home_club_id := dict_get d "HomeClubId";
                  id_default_club_id := dict_get d "DefaultClubId";
                  id_type := dict_get d "Type";
                  id_photo_url := dict_get d "PhotoUrl" |})) w0
  = (if negb (status_code resp =? 200) then Ret None
     else match resp_body resp with
          | None => Raise JSONDecodeError
          | Some data =>
              m <~ py_get (or_empty_dict data) "Member" ;;
              d <~ as_dict (or_empty_dict m) ;;
              Ret (Some (identity_of_member d))
          end, w0).
Proof.
  destruct (negb (status_code resp =? 200)); [reflexivity|].
  unfold bind, resp_json. destruct (resp_body resp) as [data|]; [|reflexivity].
  simpl. unfold lift.
  destruct (py_get (or_empty_dict data) "Member") as [m|]; [|reflexivity]. simpl.
  destruct (as_dict (or_empty_dict m)); reflexivity.
Qed.

(** The identity lookup sends one request, to the identity path. *)
Lemma fetch_identity_trace (w : world) (t : option string)
  (o : outcome (option identity)) (w1 : world) :
  token_lookup w = Ret t ->
  fetch_identity portal w = (o, w1) ->
  exists rq, sent w1 = (sent w ++ [rq])%list /\ rq_url rq = BASE_URL ++ IDENTITY_PATH.
Proof.
  intros Ht. destruct (_ensure_auth_header_from_cookie_spec w t Ht) as (wa & Ea & Hs & _).
  unfold fetch_identity, bind at 1. rewrite Ea. unfold try_except.
  match goal with
  | |- context [bind (session_request _ ?mt ?u ?h ?b) ?K] =>
      destruct (request_then portal mt u h b K _ wa (fetch_identity_pure))
        as (w2 & E2 & Hs2 & _)
  end.
  rewrite E2. rewrite Hs in Hs2. intros H.
  assert (Hw : w1 = w2).
  { destruct (portal (sent wa) _) as [ch|st b ch]; simpl in H.
    - inversion H. reflexivity.
    - match type of H with
      | (match ?o with _ => _ end) = _ => destruct o; inversion H; reflexivity
      end. }
  subst w1.
  match type of Hs2 with _ = (_ ++ [?r])%list => exists r end.
  split; [exact Hs2|reflexivity].
Qed.

(** C7. When [fetch_contracts] is called without a user id and the identity
    lookup gives none, it returns [{"contracts": [], "active": None}]
    normally, and the only request it has sent is the identity request:
    the contracts path is not requested. *)
Theorem fetch_contracts_missing_user_id (w : world) (ident : option identity)
  (w1 : world) :
  fetch_identity portal w = (Ret ident, w1) ->
  no_user_id ident = true ->
  fetch_contracts portal JNull w = (Ret empty_contracts, w1)
  /\ exists rq,
       sent w1 = (sent w ++ [rq])%list
       /\ rq_url rq = BASE_URL ++ IDENTITY_PATH
       /\ rq_url rq <> BASE_URL ++ CONTRACTS_PATH.
Proof.
  intros Hid Hno.
  destruct (refresh_returned _ w _ _ Hid) as [t Ht].
  split.
  - destruct (_ensure_auth_header_from_cookie_spec w t Ht) as (wa & Ea & _).
    pose proof (fetch_identity_after_ensure w) as Hafter.
    rewrite Ea in Hafter. simpl in Hafter. rewrite Hid in Hafter.
    unfold fetch_contracts, bind. rewrite Ea. unfold try_except, bind.
    rewrite Hafter. unfold ret.
    destruct ident as [i|]; simpl in Hno.
    + apply negb_true_iff in Hno. rewrite Hno. reflexivity.
    + reflexivity.
  - destruct (fetch_identity_trace w t _ _ Ht Hid) as (rq & Hsent & Hurl).
    exists rq. split; [exact Hsent|]. split; [exact Hurl|].
    rewrite Hurl. discriminate.
Qed.

Lemma fetch_contracts_post (user_id : json) :
  post (fetch_contracts portal user_id)
       (fun r => active r = hd_error (contracts r)).
Proof.
  unfold fetch_contracts.
  apply post_bind; intros _.
  apply post_try; [|intros e; apply post_ret; reflexivity].
  apply post_bind; intros uid.
  apply post_if; [apply post_ret; reflexivity|].
  apply post_bind; intros resp.
  apply post_if; [apply post_ret; reflexivity|].
  apply post_bind; intros data.
  apply post_bind; intros contracts_raw.
  apply post_bind; intros items.
  apply post_bind; intros cs.
  apply post_ret. destruct cs; reflexivity.
Qed.

(** The mapper returns exactly on the well-formed raw contracts, and then
    the name and the id are the raw ones. *)
Lemma normalize_contract_well_formed (c : json) :
  (well_formed_contract c = true ->
   exists k d, c = JDict d /\ normalize_contract c = Ret k
               /\ c_name k = dict_get d "Name" /\ c_id k = dict_get d "Id")
  /\ (well_formed_contract c = false -> normalize_contract c = Raise AttributeError).
Proof.
  unfold well_formed_contract, normalize_contract.
  destruct c; try (split; [discriminate|reflexivity]).
  simpl.
  destruct (or_empty_dict (dict_get d "Club")); simpl;
    try (split; [discriminate|reflexivity]).
  destruct (or_empty_dict (dict_get d "Cost")); simpl;
    try (split; [discriminate|reflexivity]).
  split; [|discriminate]. intros _. do 2 eexists. repeat split.
Qed.

Lemma comprehension_normalize_contract_ok (items : list json) :
  Forall (fun c => well_formed_contract c = true) items ->
  exists cs, comprehension normalize_contract items = Ret cs
             /\ map c_name cs = map (fun c => match c with
                                              | JDict d => dict_get d "Name"
                                              | _ => JNull
                                              end) items.
Proof.
  induction 1 as [|c items Hc _ (cs & Hcs & Hn)]; simpl.
  - exists []. split; reflexivity.
  - destruct (proj1 (normalize_contract_well_formed c) Hc) as (k & d & -> & Hk & Hname & _).
    rewrite Hk, Hcs. simpl. eexists. split; [reflexivity|]. simpl.
    rewrite Hname, Hn. reflexivity.
Qed.

Lemma comprehension_normalize_contract_bad (items : list json) :
  Exists (fun c => well_formed_contract c = false) items ->
  comprehension normalize_contract items = Raise AttributeError.
Proof.
  induction items as [|c items IH]; intros H; [inversion H|].
  simpl. destruct (well_formed_contract c) eqn:E.
  - destruct (proj1 (normalize_contract_well_formed c) E) as (k & d & _ & -> & _).
    simpl. inversion H as [? ? Hi|? ? Hi]; subst; [congruence|].
    rewrite (IH Hi). reflexivity.
  - rewrite (proj2 (normalize_contract_well_formed c) E). reflexivity.
Qed.

(** What [fetch_contracts] computes from the response to the contracts
    request. *)
Lemma fetch_contracts_pure (resp : response) (w0 : world) :
  (if negb (status_code resp =? 200) then ret empty_contracts
   else
     data <- resp_json resp ;;
     contracts_raw <-
       lift (x <~ py_get (or_empty_dict data) "Contracts" ;; Ret (py_or x (JList []))) ;;
     items <- lift (py_iter contracts_raw) ;;
     contracts <- lift (comprehension normalize_contract items) ;;
     ret {| contracts := contracts;
            active := match contracts with
                      | first :: _ => Some first
                      | [] => None
                      end |}) w0
  = (if negb (status_code resp =? 200) then Ret empty_contracts
     else match resp_body resp with
          | None => Raise JSONDecodeError
          | Some data =>
              x <~ py_get (or_empty_dict data) "Contracts" ;;
              items <~ py_iter (py_or x (JList [])) ;;
              cs <~ comprehension normalize_contract items ;;
              Ret {| contracts := cs; active := hd_error cs |}
          end, w0).
Proof.
  destruct (negb (status_code resp =? 200)); [reflexivity|].
  unfold bind, resp_json. destruct (resp_body resp) as [data|]; [|reflexivity].
  simpl. unfold lift.
  destruct (py_get (or_empty_dict data) "Contracts") as [x|]; [|reflexivity]. simpl.
  destruct (py_iter (py_or x (JList []))) as [items|]; [|reflexivity]. simpl.
  destruct (comprehension normalize_contract items) as [[|c cs]|]; reflexivity.
Qed.

(** A 200 reply whose [Contracts] is a list of well-formed records is
    mapped record by record. *)
Lemma contracts_of_well_formed (d : list (string * json)) (items : list json) :
  dict_get d "Contracts" = JList items ->
  Forall (fun c => well_formed_contract c = true) items ->
  exists cs,
    comprehension normalize_contract items = Ret cs
    /\ (x <~ py_get (or_empty_dict (JDict d)) "Contracts" ;;
        items <~ py_iter (py_or x (JList [])) ;;
        cs <~ comprehension normalize_contract items ;;
        Ret {| contracts := cs; active := hd_error cs |})
       = Ret {| contracts := cs; active := hd_error cs |}.
Proof.
  intros Hc Hwf.
  destruct (comprehension_normalize_contract_ok items Hwf) as (cs & Hcs & _).
  exists cs. split; [exact Hcs|].
  assert (Hd : or_empty_dict (JDict d) = JDict d).
  { unfold or_empty_dict, py_or. destruct d; reflexivity. }
  rewrite Hd. simpl. rewrite Hc.
  assert (Hl : py_or (JList items) (JList []) = JList items).
  { unfold py_or. destruct items; reflexivity. }
  rewrite Hl. simpl. rewrite Hcs. reflexivity.
Qed.

(** The user id [fetch_contracts] goes on with: the one passed in, or the
    one of an identity lookup, which costs one request. *)
Lemma fetch_contracts_user_id (user_id : json) (w : world) (t : option string) :
  token_lookup w = Ret t ->
  exists uid w1 pre,
    (match user_id with
     | JNull =>
         ident <- fetch_identity portal ;;
         ret (match ident with
              | Some i => id_user_id i
              | None => JNull
              end)
     | _ => ret user_id
     end) w = (Ret uid, w1)
    /\ sent w1 = (sent w ++ pre)%list
    /\ (pre = [] \/ exists rq, pre = [rq] /\ rq_url rq = BASE_URL ++ IDENTITY_PATH).
Proof.
  intros Ht.
  assert (Hgiven : exists uid w1 pre,
            ret user_id w = (Ret uid, w1) /\ sent w1 = (sent w ++ pre)%list
            /\ (pre = [] \/ exists rq, pre = [rq] /\ rq_url rq = BASE_URL ++ IDENTITY_PATH)).
  { exists user_id, w, []. rewrite app_nil_r. auto. }
  destruct user_id; try exact Hgiven. clear Hgiven.
  destruct (fetch_identity_returns w t Ht) as (ident & w1 & Ei).
  destruct (fetch_identity_trace w t _ _ Ht Ei) as (rq & Hs & Hu).
  unfold bind. rewrite Ei. eexists _, w1, [rq]. split; [reflexivity|].
  split; [exact Hs|]. right. exists rq. auto.
Qed.

(** C8. [fetch_contracts] reads the token cookie before its [try], and
    lets the jar's conflict error out before any request. Otherwise it
    returns a report in which [active] is the first element of [contracts]
    when there is one and [None] when there is none. When the portal
    answered the contracts request with 200 and a list of well-formed
    records, [contracts] holds the record made of each, in the portal's
    order, so that [active] is made of the first record listed: the choice
    looks at the position only. *)
Theorem fetch_contracts_active (user_id : json) (w : world) :
  (forall e, token_lookup w = Raise e ->
     fetch_contracts portal user_id w = (Raise CookieConflictError, w))
  /\ (forall t, token_lookup w = Ret t ->
      exists r w',
        fetch_contracts portal user_id w = (Ret r, w')
        /\ active r = hd_error (contracts r)
        /\ (forall pre rq d items ck,
              sent w' = (sent w ++ pre ++ [rq])%list ->
              rq_url rq = BASE_URL ++ CONTRACTS_PATH ->
              portal (sent w ++ pre)%list rq = Response 200 (Some (JDict d)) ck ->
              dict_get d "Contracts" = JList items ->
              Forall (fun c => well_formed_contract c = true) items ->
              comprehension normalize_contract items = Ret (contracts r)
              /\ List.length (contracts r) = List.length items
              /\ (forall first rest, items = first :: rest ->
                    exists k, normalize_contract first = Ret k /\ active r = Some k)
              /\ (items = [] -> active r = None))).
Proof.
  split.
  { intros e He. exact (refresh_conflict _ w e He). }
  intros t Ht.
  destruct (fetch_contracts_returns user_id w t Ht) as (r & w' & E).
  exists r, w'. split; [exact E|].
  split; [exact (fetch_contracts_post user_id w r w' E)|].
  intros pre rq d items ck Hsent Hurl Hrep Hc Hwf.
  (* the run, step by step *)
  destruct (_ensure_auth_header_from_cookie_spec w t Ht) as (wa & Ea & Hsa & _).
  assert (Hta : token_lookup wa = Ret t).
  { pose proof (token_lookup_after_ensure w) as H. rewrite Ea in H. simpl in H.
    rewrite H. exact Ht. }
  destruct (fetch_contracts_user_id user_id wa t Hta) as (uid & w1 & pre1 & Eu & Hs1 & Hpre).
  unfold fetch_contracts, bind at 1 in E. rewrite Ea in E.
  unfold try_except, bind at 1 in E. rewrite Eu in E.
  rewrite Hsa in Hs1.
  destruct (truthy uid) eqn:Hu; cbn [negb] in E; cbv iota in E.
  - (* the contracts request goes out *)
    revert E.
    match goal with
    | |- context [bind (session_request _ ?mt ?u ?h ?b) ?K] =>
        destruct (request_then portal mt u h b K _ w1 (fetch_contracts_pure))
          as (w2 & E2 & Hs2 & _)
    end.
    rewrite E2. clear E2.
    set (rq2 := {| rq_method := POST; rq_url := BASE_URL ++ CONTRACTS_PATH;
                   rq_headers := [("X-Hash", "#/Profile/Contract")];
                   rq_authorization := authorization (_session (self w1));
                   rq_body := JsonBody (JDict [("userId", uid)]) |}) in *.
    intros E.
    assert (Hw : w' = w2).
    { destruct (portal (sent w1) rq2) as [ch|st b ch];
        [inversion E; reflexivity|].
      match type of E with
      | (match ?o with _ => _ end) = _ => destruct o; inversion E; reflexivity
      end. }
    subst w'. rewrite Hs2, Hs1, <- app_assoc in Hsent.
    apply app_inv_head in Hsent. apply app_inj_tail in Hsent.
    destruct Hsent as [Hp Hr]. subst pre rq.
    rewrite Hs1, Hrep in E. cbn [status_code resp_body] in E.
    change (negb (200 =? 200)) with false in E. cbv iota in E.
    destruct (contracts_of_well_formed d items Hc Hwf) as (cs & Hcs & Hrun).
    rewrite Hrun in E. inversion E; subst; clear E. cbn [contracts active].
    split; [exact Hcs|]. split; [exact (comprehension_length _ _ _ Hcs)|]. split.
    + intros first rest ->. simpl in Hcs.
      destruct (normalize_contract first) as [k|]; simpl in Hcs; [|discriminate].
      destruct (comprehension normalize_contract rest); simpl in Hcs; [|discriminate].
      inversion Hcs; subst. exists k. split; reflexivity.
    + intros ->. simpl in Hcs. inversion Hcs; subst. reflexivity.
  - (* no user id: the last request, if any, went to the identity path *)
    exfalso. inversion E; subst; clear E. rewrite Hs1 in Hsent.
    apply app_inv_head in Hsent.
    destruct Hpre as [->|(rq1 & -> & Hu1)].
    + destruct pre; discriminate.
    + change [rq1] with ([] ++ [rq1])%list in Hsent.
      apply app_inj_tail in Hsent. destruct Hsent as [_ ->].
      rewrite Hurl in Hu1. discriminate.
Qed.

End Contracts.

(** ** Bookings *)

Section Bookings.
Context {L : PyLib}.
Variable portal : list request -> request -> reply.
Variable now : clock.

(** One probe: one GET, recorded; the result is read off the reply and no
    exception leaves the method. *)
Lemma _try_endpoint_spec (path : string) (extra_headers : list (string * string))
  (w : world) :
  let rq := {| rq_method := GET; rq_url := BASE_URL ++ path;
               rq_headers := extra_headers;
               rq_authorization := authorization (_session (self w));
               rq_body := NoBody |} in
  exists w',
    _try_endpoint portal path extra_headers w
    = (Ret (endpoint_result (portal (sent w) rq)), w')
    /\ sent w' = (sent w ++ [rq])%list
    /\ _bookings_path_override (self w') = _bookings_path_override (self w)
    /\ _club_id (self w') = _club_id (self w).
Proof.
  intros rq. unfold _try_endpoint, try_except, bind.
  destruct (session_request_spec portal GET (BASE_URL ++ path) extra_headers NoBody w)
    as (w' & Hsent & Ho & Hc & Ereq).
  fold rq in Hsent, Ereq. rewrite Ereq. clear Ereq.
  exists w'. split; [|auto].
  destruct (portal (sent w) rq) as [|st b ck]; simpl; [reflexivity|].
  destruct (st =? 200); simpl.
  - unfold resp_json. simpl. destruct b; reflexivity.
  - destruct b; reflexivity.
Qed.

Lemma _try_endpoint_never_raises (path : string) (hs : list (string * string)) :
  never_raises (_try_endpoint portal path hs).
Proof. apply never_raises_try. intros e. apply never_raises_ret. Qed.

Lemma login_never_raises : never_raises (login portal).
Proof. apply never_raises_try. intros e. apply never_raises_ret. Qed.

(** The loop is the prober followed by the mapping of the batch it found. *)
Lemma probe_paths_first_batch (paths : list string) (w : world) :
  probe_paths portal now paths w
  = bind (first_batch portal now paths)
         (fun b => match b with
                   | Some items => lift (normalize_batch items)
                   | None => ret []
                   end) w.
Proof.
  revert w. induction paths as [|path rest IH]; intros w; [reflexivity|].
  simpl. rewrite bind_assoc. apply bind_ext. intros c w0.
  assert (Hfound : forall b w1,
    nonempty b = true ->
    lift (normalize_batch (batch_of b)) w1
    = bind (ret b) (fun b => match b with
                             | Some items => lift (normalize_batch items)
                             | None => ret []
                             end) w1).
  { intros [[|x l]|] w1 Hb; try discriminate. reflexivity. }
  assert (Hun : forall w1,
    bind (_try_endpoint portal path (headers_for now c path))
         (fun bookings =>
            if nonempty bookings then lift (normalize_batch (batch_of bookings))
            else probe_paths portal now rest) w1
    = bind (bind (_try_endpoint portal path (headers_for now c path))
                 (fun bookings =>
                    if nonempty bookings then ret bookings
                    else first_batch portal now rest))
           (fun b => match b with
                     | Some items => lift (normalize_batch items)
                     | None => ret []
                     end) w1).
  { intros w1. rewrite bind_assoc. apply bind_ext. intros b w2.
    destruct (nonempty b) eqn:Eb; [apply Hfound; exact Eb | apply IH]. }
  destruct (is_calendar_like path); [|apply Hun].
  rewrite bind_assoc. apply bind_ext. intros b w1.
  destruct (nonempty b) eqn:Eb; [apply Hfound; exact Eb | apply Hun].
Qed.

(** The prober returns, with a batch or without. *)
Lemma first_batch_never_raises (paths : list string) :
  never_raises (first_batch portal now paths).
Proof.
  induction paths as [|path rest IH]; simpl; [apply never_raises_ret|].
  apply never_raises_bind; [intros w; exists (self w), w; reflexivity|]. intros c.
  assert (Hun : never_raises
    (bind (_try_endpoint portal path (headers_for now c path))
          (fun bookings => if nonempty bookings then ret bookings
                           else first_batch portal now rest))).
  { apply never_raises_bind; [apply _try_endpoint_never_raises|]. intros b.
    destruct (nonempty b); [apply never_raises_ret|exact IH]. }
  destruct (is_calendar_like path); [|exact Hun].
  apply never_raises_bind; [apply _try_endpoint_never_raises|]. intros b.
  destruct (nonempty b); [apply never_raises_ret|exact Hun].
Qed.

(** Whatever the loop returns has passed the filter on [start]. *)
Lemma probe_paths_post (paths : list string) :
  post (probe_paths portal now paths)
       (Forall (fun b => exists dt, start b = Some dt)).
Proof.
  induction paths as [|path rest IH]; simpl.
  - apply post_ret. constructor.
  - apply post_bind; intros c.
    assert (Hun : post
      (bind (_try_endpoint portal path (headers_for now c path))
            (fun bookings =>
               if nonempty bookings then lift (normalize_batch (batch_of bookings))
               else probe_paths portal now rest))
      (Forall (fun b => exists dt, start b = Some dt))).
    { apply post_bind; intros b. apply post_if; [|exact IH].
      apply post_lift. intros bs. apply normalize_batch_has_start. }
    destruct (is_calendar_like path); [|exact Hun].
    apply post_bind; intros b. apply post_if; [|exact Hun].
    apply post_lift. intros bs. apply normalize_batch_has_start.
Qed.

(** C3, as the code has it. Every booking [fetch_upcoming_bookings]
    returns has a start instant. When the batch the prober settles on
    consists of dicts, each item is mapped and the result is the mapped
    items that have a start, in their order. The start of an item is
    parsed from one field only, the first true one of [StartTimeUtc],
    [StartTime] and [Start], else [StartDate]: an item is dropped when that
    field does not parse, so when none of the four parses, but also when a
    later field would have parsed. When the batch holds an item that is not
    a dict, nothing is returned: the mapping raises. *)
Theorem fetch_upcoming_bookings_start (w : world) :
  (forall bs w',
     fetch_upcoming_bookings portal now w = (Ret bs, w') ->
     Forall (fun b => exists dt, start b = Some dt) bs)
  /\ (forall items w1,
        first_batch portal now (candidate_paths (self w)) w = (Ret (Some items), w1) ->
        Forall (fun i => is_dict i = true) items ->
        exists all,
          comprehension _normalize_booking items = Ret all
          /\ List.length all = List.length items
          /\ fetch_upcoming_bookings portal now w = (Ret (filter has_start all), w1))
  /\ (forall items w1,
        first_batch portal now (candidate_paths (self w)) w = (Ret (Some items), w1) ->
        Exists (fun i => is_dict i = false) items ->
        fetch_upcoming_bookings portal now w = (Raise AttributeError, w1))
  /\ (forall d, exists b,
        _normalize_booking (JDict d) = Ret b
        /\ start b
           = _parse_dt (first_truthy [dict_get d "StartTimeUtc"; dict_get d "StartTime";
                                      dict_get d "Start"]
                                     (dict_get d "StartDate"))
        /\ ((forall k, In k ["StartTimeUtc"; "StartTime"; "Start"; "StartDate"] ->
                       _parse_dt (dict_get d k) = None) ->
            has_start b = false)).
Proof.
  split; [|split; [|split]].
  - intros bs w' H.
    unfold fetch_upcoming_bookings, bind, get_self in H.
    exact (probe_paths_post _ _ _ _ H).
  - intros items w1 Hb Hd.
    destruct (comprehension_normalize_dicts items Hd) as [all Hall].
    exists all. split; [exact Hall|]. split; [exact (comprehension_length _ _ _ Hall)|].
    unfold fetch_upcoming_bookings, bind at 1, get_self.
    rewrite probe_paths_first_batch. unfold bind. rewrite Hb.
    unfold lift, normalize_batch. rewrite Hall. reflexivity.
  - intros items w1 Hb Hex.
    unfold fetch_upcoming_bookings, bind at 1, get_self.
    rewrite probe_paths_first_batch. unfold bind. rewrite Hb.
    unfold lift. rewrite (normalize_batch_non_dict items Hex). reflexivity.
  - intros d. destruct (_normalize_booking_start d) as (b & Hb & Hs).
    exists b. split; [exact Hb|]. split; [exact Hs|].
    exact (_normalize_booking_no_start d b Hb).
Qed.

End Bookings.

(** ** Candidate fallback *)

Section Fallback.
Context {L : PyLib}.
Variable portal : list request -> request -> reply.
Variable now : clock.

(** A candidate whose replies are all unusable is passed over after one
    request per URL it is tried under. *)
Lemma probe_paths_skip (path : string) (rest : list string) (w : world) :
  (forall h rq, In (rq_url rq) (attempt_urls now path) -> usable (portal h rq) = false) ->
  exists w1 new,
    probe_paths portal now (path :: rest) w = probe_paths portal now rest w1
    /\ sent w1 = (sent w ++ new)%list
    /\ map rq_url new = attempt_urls now path.
Proof.
  intros Hfail. simpl. unfold bind at 1. unfold get_self.
  assert (Hun : forall w0,
    exists w1 rq,
      bind (_try_endpoint portal path (headers_for now (self w) path))
           (fun bookings =>
              if nonempty bookings then lift (normalize_batch (batch_of bookings))
              else probe_paths portal now rest) w0
      = probe_paths portal now rest w1
      /\ sent w1 = (sent w0 ++ [rq])%list
      /\ rq_url rq = BASE_URL ++ path).
  { intros w0.
    destruct (_try_endpoint_spec portal path (headers_for now (self w) path) w0)
      as (w1 & E & Hsent & _).
    eexists w1, _. split; [|split; [exact Hsent|reflexivity]].
    unfold bind. rewrite E.
    match goal with |- context [nonempty (endpoint_result ?r)] =>
      change (nonempty (endpoint_result r)) with (usable r) end.
    rewrite Hfail; [reflexivity|].
    unfold attempt_urls. destruct (is_calendar_like path); simpl; auto. }
  unfold attempt_urls in *. destruct (is_calendar_like path) eqn:Ecal.
  - destruct (_try_endpoint_spec portal (ranged now path)
                (headers_for now (self w) path) w) as (wa & E & Hsent & _).
    unfold bind at 1. rewrite E.
    match goal with |- context [nonempty (endpoint_result ?r)] =>
      change (nonempty (endpoint_result r)) with (usable r) end.
    rewrite Hfail by (simpl; auto).
    destruct (Hun wa) as (w1 & rq & E1 & Hsent1 & Hurl).
    eexists w1, [_; rq]. split; [exact E1|]. split.
    + rewrite Hsent1, Hsent, <- app_assoc. reflexivity.
    + simpl. rewrite Hurl. reflexivity.
  - destruct (Hun w) as (w1 & rq & E1 & Hsent1 & Hurl).
    exists w1, [rq]. split; [exact E1|]. split; [exact Hsent1|].
    simpl. rewrite Hurl. reflexivity.
Qed.

(** A candidate that answers with a non-empty list ends the loop at its
    first request. *)
Lemma probe_paths_hit (path : string) (rest : list string) (items : list json)
  (w : world) :
  (forall h rq, In (rq_url rq) (attempt_urls now path) ->
     exists ck, portal h rq = Response 200 (Some (JList items)) ck) ->
  items <> [] ->
  exists w1 rq,
    probe_paths portal now (path :: rest) w = (normalize_batch items, w1)
    /\ sent w1 = (sent w ++ [rq])%list
    /\ [rq_url rq] = firstn 1 (attempt_urls now path).
Proof.
  intros Hok Hne. simpl. unfold bind at 1. unfold get_self.
  assert (Hhit : forall p w0,
    In (BASE_URL ++ p) (attempt_urls now path) ->
    forall k,
    exists w1 rq,
      bind (_try_endpoint portal p (headers_for now (self w) path))
           (fun bookings =>
              if nonempty bookings then lift (normalize_batch (batch_of bookings))
              else k) w0
      = (normalize_batch items, w1)
      /\ sent w1 = (sent w0 ++ [rq])%list
      /\ rq_url rq = BASE_URL ++ p).
  { intros p w0 Hin k.
    destruct (_try_endpoint_spec portal p (headers_for now (self w) path) w0)
      as (w1 & E & Hsent & _).
    eexists w1, _. split; [|split; [exact Hsent|reflexivity]].
    unfold bind. rewrite E.
    match goal with |- context [portal ?h ?r] =>
      destruct (Hok h r Hin) as [ck ->] end.
    simpl. destruct items; [congruence|reflexivity]. }
  unfold attempt_urls in *. destruct (is_calendar_like path).
  - destruct (Hhit (ranged now path) w (or_introl eq_refl)
                (bind (_try_endpoint portal path (headers_for now (self w) path))
                   (fun bookings =>
                      if nonempty bookings
                      then lift (normalize_batch (batch_of bookings))
                      else probe_paths portal now rest)))
      as (w1 & rq & E & Hsent & Hurl).
    exists w1, rq. split; [exact E|]. split; [exact Hsent|].
    simpl. rewrite Hurl. reflexivity.
  - destruct (Hhit path w (or_introl eq_refl) (probe_paths portal now rest))
      as (w1 & rq & E & Hsent & Hurl).
    exists w1, rq. split; [exact E|]. split; [exact Hsent|].
    simpl. rewrite Hurl. reflexivity.
Qed.

(** The override, when set to a non-empty path, heads the list the loop
    runs over. *)
Lemma candidate_paths_override (c : PerfectGymClient) (p : string) :
  _bookings_path_override c = Some p -> p <> "" ->
  candidate_paths c = p :: BOOKINGS_CANDIDATE_PATHS.
Proof.
  intros H Hne. unfold candidate_paths. rewrite H.
  destruct (p =? "")%string eqn:E; [|reflexivity].
  apply String.eqb_eq in E. contradiction.
Qed.

(** The loop only adds to the trace, and its first request goes to its
    first candidate. *)
Lemma probe_paths_trace (paths : list string) (w : world)
  (o : outcome (list booking)) (w' : world) :
  probe_paths portal now paths w = (o, w') ->
  match paths with
  | [] => sent w' = sent w
  | path :: _ =>
      exists rq more,
        sent w' = (sent w ++ rq :: more)%list
        /\ [rq_url rq] = firstn 1 (attempt_urls now path)
  end.
Proof.
  revert w o w'. induction paths as [|path rest IH]; intros w o w' H.
  - inversion H. reflexivity.
  - simpl in H. unfold bind at 1 in H. unfold get_self in H.
    assert (Hrest : forall w0 o0 w0',
      probe_paths portal now rest w0 = (o0, w0') ->
      exists more, sent w0' = (sent w0 ++ more)%list).
    { intros w0 o0 w0' H0. apply IH in H0. destruct rest.
      - exists []. rewrite app_nil_r. exact H0.
      - destruct H0 as (rq & more & H0 & _). exists (rq :: more). exact H0. }
    assert (Hun : forall w0 o0 w0',
      bind (_try_endpoint portal path (headers_for now (self w) path))
           (fun bookings =>
              if nonempty bookings then lift (normalize_batch (batch_of bookings))
              else probe_paths portal now rest) w0 = (o0, w0') ->
      exists rq more,
        sent w0' = (sent w0 ++ rq :: more)%list /\ rq_url rq = BASE_URL ++ path).
    { intros w0 o0 w0' H0.
      destruct (_try_endpoint_spec portal path (headers_for now (self w) path) w0)
        as (w1 & E & Hsent & _).
      unfold bind in H0. rewrite E in H0.
      match type of Hsent with _ = (_ ++ [?r])%list => exists r end.
      destruct (nonempty _).
      - inversion H0; subst. exists []. split; [exact Hsent|reflexivity].
      - apply Hrest in H0. destruct H0 as [more H0].
        exists more. split; [|reflexivity].
        rewrite H0, Hsent, <- app_assoc. reflexivity. }
    unfold attempt_urls. destruct (is_calendar_like path).
    + destruct (_try_endpoint_spec portal (ranged now path)
                  (headers_for now (self w) path) w) as (w1 & E & Hsent & _).
      unfold bind at 1 in H. rewrite E in H.
      match type of Hsent with _ = (_ ++ [?r])%list => exists r end.
      destruct (nonempty _).
      * inversion H; subst. exists []. split; [exact Hsent|reflexivity].
      * apply Hun in H. destruct H as (rq & more & H & _).
        exists (rq :: more). split; [|reflexivity].
        rewrite H, Hsent, <- app_assoc. reflexivity.
    + apply Hun in H. destruct H as (rq & more & H & Hurl).
      exists rq, more. split; [exact H|]. simpl. rewrite Hurl. reflexivity.
Qed.

(** C6, as the code has it. Of three candidate paths let the first two
    get only unusable replies and the third answer 200 with a list of
    dicts. Then the loop returns the mapped items of that list. Each of
    the first two candidates is passed once and nothing is retried: the
    requests sent are one per URL of the first candidate, then one per URL
    of the second, then the third's, up to its first answer. A candidate
    has one URL, its path, and a second one, tried first, with the date
    range appended, when its path contains [calendar] or [schedule]. An
    override that is set and not empty heads the list of candidates, and
    the first request of [fetch_upcoming_bookings] goes to it. *)
Theorem probe_paths_fallback :
  (forall (p1 p2 p3 : string) (items : list json) (w : world),
     (forall h rq, In (rq_url rq) (attempt_urls now p1 ++ attempt_urls now p2) ->
        usable (portal h rq) = false) ->
     (forall h rq, In (rq_url rq) (attempt_urls now p3) ->
        exists ck, portal h rq = Response 200 (Some (JList items)) ck) ->
     Forall (fun i => is_dict i = true) items ->
     exists bs w' new,
       probe_paths portal now [p1; p2; p3] w = (Ret bs, w')
       /\ normalize_batch items = Ret bs
       /\ sent w' = (sent w ++ new)%list
       /\ map rq_url new
          = (attempt_urls now p1 ++ attempt_urls now p2
             ++ match items with
                | [] => attempt_urls now p3
                | _ :: _ => firstn 1 (attempt_urls now p3)
                end)%list)
  /\ (forall (w : world) (p : string),
        _bookings_path_override (self w) = Some p -> p <> "" ->
        candidate_paths (self w) = p :: BOOKINGS_CANDIDATE_PATHS
        /\ exists o w' rq more,
             fetch_upcoming_bookings portal now w = (o, w')
             /\ sent w' = (sent w ++ rq :: more)%list
             /\ [rq_url rq] = firstn 1 (attempt_urls now p)).
Proof.
  split.
  - intros p1 p2 p3 items w H12 H3 Hd.
    destruct (probe_paths_skip p1 [p2; p3] w) as (w1 & n1 & E1 & S1 & U1).
    { intros h rq Hin. apply H12. apply in_or_app. left. exact Hin. }
    destruct (probe_paths_skip p2 [p3] w1) as (w2 & n2 & E2 & S2 & U2).
    { intros h rq Hin. apply H12. apply in_or_app. right. exact Hin. }
    destruct (comprehension_normalize_dicts items Hd) as [all Hall].
    assert (Hnb : normalize_batch items = Ret (filter has_start all))
      by (unfold normalize_batch; rewrite Hall; reflexivity).
    rewrite E1, E2. destruct items as [|i items].
    + destruct (probe_paths_skip p3 [] w2) as (w3 & n3 & E3 & S3 & U3).
      { intros h rq Hin. destruct (H3 h rq Hin) as [ck ->]. reflexivity. }
      exists [], w3, (n1 ++ n2 ++ n3)%list.
      split; [rewrite E3; reflexivity|].
      split; [inversion Hall; reflexivity|].
      split; [rewrite S3, S2, S1, <- !app_assoc; reflexivity|].
      rewrite !map_app, U1, U2, U3. reflexivity.
    + destruct (probe_paths_hit p3 [] (i :: items) w2 H3) as (w3 & rq & E3 & S3 & U3);
        [discriminate|].
      exists (filter has_start all), w3, (n1 ++ n2 ++ [rq])%list.
      split; [rewrite E3, Hnb; reflexivity|].
      split; [exact Hnb|].
      split; [rewrite S3, S2, S1, <- !app_assoc; reflexivity|].
      rewrite !map_app, U1, U2. simpl map. rewrite U3. reflexivity.
  - intros w p Ho Hne.
    pose proof (candidate_paths_override (self w) p Ho Hne) as Hc.
    split; [exact Hc|].
    unfold fetch_upcoming_bookings, bind, get_self. rewrite Hc.
    destruct (probe_paths portal now (p :: BOOKINGS_CANDIDATE_PATHS) w) as [o w'] eqn:E.
    destruct (probe_paths_trace _ _ _ _ E) as (rq & more & Hs & Hu).
    exists o, w', rq, more. auto.
Qed.

End Fallback.

(** ** The client at work *)

Import Scenario.

(** The end-to-end scenario of the specification: the login succeeds, the
    first candidate answers with an [Items] envelope of one record, and one
    booking comes back, with the bearer token sent along. *)
Example login_then_fetch_yoga :
  fst (login_then_fetch (L := Reference.lib) fresh) = Ret (true, [yoga_booking])
  /\ map rq_authorization (sent (snd (login_then_fetch (L := Reference.lib) fresh)))
     = [None; Some "Bearer t0k3n"].
Proof. vm_compute. split; reflexivity. Qed.

(** A count that does not convert is entered as 0 and the report goes on. *)
Example fetch_members_in_clubs_two_clubs :
  fst (fetch_members_in_clubs (L := Reference.lib)
         (always (Response 200 (Some two_clubs) [])) fresh)
  = Ret {| clubs := [ {| club_name := JStr "North"; members := 0; club_id := JNull |};
                      {| club_name := JStr "South"; members := 12; club_id := JNull |} ];
           total := 12 |}.
Proof. vm_compute. reflexivity. Qed.

(** The active contract is the one listed first, also when it has ended
    and a later one is running. *)
Example fetch_contracts_first_listed :
  match fst (fetch_contracts (L := Reference.lib)
               (always (Response 200 (Some two_contracts) [])) (JInt 42) fresh) with
  | Ret r =>
      map c_name (contracts r) = [JStr "Ended plan"; JStr "Running plan"]
      /\ option_map c_name (active r) = Some (JStr "Ended plan")
  | Raise _ => False
  end.
Proof. vm_compute. split; reflexivity. Qed.

(** C1, where the code falls short of it. The portal answers the first
    probe with status 200 and the JSON body [[1]]: the list is accepted as
    a batch, the mapper calls [.get] on the number, and the
    [AttributeError] leaves [fetch_upcoming_bookings], which has no [try]
    around the mapping. *)
Theorem fetch_upcoming_bookings_raises (L : PyLib) (now : clock) (w : world) :
  fst (fetch_upcoming_bookings (always (Response 200 (Some (JList [JInt 1])) [])) now w)
  = Raise AttributeError.
Proof.
  unfold fetch_upcoming_bookings, bind, get_self.
  assert (Hc : exists p rest, candidate_paths (self w) = p :: rest).
  { unfold candidate_paths, BOOKINGS_CANDIDATE_PATHS.
    destruct (_bookings_path_override (self w)) as [p|];
      [destruct (p =? "")%string|]; simpl; do 2 eexists; reflexivity. }
  destruct Hc as (p & rest & ->).
  assert (Hok : forall h rq, In (rq_url rq) (attempt_urls now p) ->
            exists ck, always (Response 200 (Some (JList [JInt 1])) []) h rq
                       = Response 200 (Some (JList [JInt 1])) ck)
    by (intros h rq _; exists []; reflexivity).
  assert (Hne : [JInt 1] <> []) by discriminate.
  destruct (probe_paths_hit _ now p rest [JInt 1] w Hok Hne) as (w1 & rq & E & _).
  rewrite E. reflexivity.
Qed.

(** [login] has its whole body inside [try ... except Exception] and
    returns whatever the portal does. So do the other fetch operations,
    but for their first statement: the lookup of the token cookie stands
    before the [try], and the jar's conflict error leaves the method. A
    failure of the portal, or a reply of the wrong shape, never does. *)
Lemma guarded_operations_return (L : PyLib)
  (portal : list request -> request -> reply) :
  never_raises (login portal)
  /\ returns_unless_conflict (fetch_members_in_clubs portal)
  /\ returns_unless_conflict (fetch_identity portal)
  /\ returns_unless_conflict (fetch_products_for_user portal)
  /\ (forall user_id, returns_unless_conflict (fetch_profile portal user_id))
  /\ (forall user_id, returns_unless_conflict (fetch_contracts portal user_id))
  /\ (forall w e user_id,
        token_lookup w = Raise e ->
        fetch_members_in_clubs portal w = (Raise CookieConflictError, w)
        /\ fetch_identity portal w = (Raise CookieConflictError, w)
        /\ fetch_products_for_user portal w = (Raise CookieConflictError, w)
        /\ fetch_profile portal user_id w = (Raise CookieConflictError, w)
        /\ fetch_contracts portal user_id w = (Raise CookieConflictError, w)).
Proof.
  split; [apply login_never_raises|].
  split; [apply fetch_members_in_clubs_returns|].
  split; [apply fetch_identity_returns|].
  split; [apply fetch_products_for_user_returns|].
  split; [apply fetch_profile_returns|].
  split; [apply fetch_contracts_returns|].
  intros w e user_id He. repeat split; exact (refresh_conflict _ w e He).
Qed.

(** [fetch_upcoming_bookings] returns too when the batch it settles on
    holds dicts only, or when no candidate gives a batch. *)
Lemma fetch_upcoming_bookings_returns (L : PyLib)
  (portal : list request -> request -> reply) (now : clock) (w : world) :
  (forall items w1,
     first_batch portal now (candidate_paths (self w)) w = (Ret (Some items), w1) ->
     Forall (fun i => is_dict i = true) items) ->
  exists bs w', fetch_upcoming_bookings portal now w = (Ret bs, w').
Proof.
  intros Hd.
  unfold fetch_upcoming_bookings, bind at 1, get_self.
  rewrite probe_paths_first_batch. unfold bind.
  destruct (first_batch portal now (candidate_paths (self w)) w) as [[[items|]|e] w1] eqn:E.
  - destruct (comprehension_normalize_dicts items (Hd items w1 eq_refl)) as [all Hall].
    unfold lift, normalize_batch. rewrite Hall. simpl. eauto.
  - unfold ret. eauto.
  - destruct (first_batch_never_raises portal now (candidate_paths (self w)) w)
      as (b & w2 & E'). rewrite E in E'. discriminate.
Qed.

(** A batch of two records, the second without a start that parses: the
    first is returned, the second dropped. *)
Lemma fetch_upcoming_bookings_start_witness :
  fst (fetch_upcoming_bookings (L := Reference.lib)
         (always (Response 200 (Some (JList [yoga; ghost])) [])) clock0 fresh)
  = Ret [yoga_booking].
Proof.
  set (portal := always (Response 200 (Some (JList [yoga; ghost])) [])).
  set (fb := first_batch portal clock0 (candidate_paths (self fresh)) fresh).
  assert (Hfb : fb = (Ret (Some [yoga; ghost]), snd fb)) by (vm_compute; reflexivity).
  assert (Hd : Forall (fun i => is_dict i = true) [yoga; ghost])
    by (repeat constructor).
  destruct (proj1 (proj2 (fetch_upcoming_bookings_start (L := Reference.lib)
                            portal clock0 fresh))
              [yoga; ghost] (snd fb) Hfb Hd) as (all & Hall & _ & Hfetch).
  rewrite Hfetch. vm_compute in Hall. inversion Hall. reflexivity.
Defined.

(** The identity reply carries no [Id]: an empty report, and one request. *)
Lemma fetch_contracts_missing_user_id_witness :
  fst (fetch_contracts (L := Reference.lib)
         (always (Response 200 (Some anonymous) [])) JNull fresh)
  = Ret empty_contracts
  /\ map rq_url (sent (snd (fetch_contracts (L := Reference.lib)
                              (always (Response 200 (Some anonymous) [])) JNull fresh)))
     = [BASE_URL ++ IDENTITY_PATH].
Proof.
  set (portal := always (Response 200 (Some anonymous) [])).
  set (fi := fetch_identity portal fresh).
  assert (Hfi : fi = (Ret (fst_value fi), snd fi)) by (vm_compute; reflexivity).
  assert (Hno : no_user_id (fst_value fi) = true) by (vm_compute; reflexivity).
  remember (snd fi) as w1 eqn:Ew1. remember (fst_value fi) as ident eqn:Ei.
  destruct (fetch_contracts_missing_user_id (L := Reference.lib) portal fresh
              ident w1 Hfi Hno) as [E (rq & Hs & Hu & _)].
  rewrite E. split; [reflexivity|].
  simpl. rewrite Hs. simpl. rewrite Hu. reflexivity.
Defined.

(** Three candidates, the second one schedule-like, the third the only one
    the portal knows. *)
Lemma probe_paths_fallback_witness :
  fst (probe_paths (L := Reference.lib) (only_at (BASE_URL ++ "/c") (Response 200 (Some (JList [yoga])) []))
         clock0 ["/a"; "/b/schedule"; "/c"] fresh)
  = Ret [yoga_booking]
  /\ map rq_url
       (sent (snd (probe_paths (L := Reference.lib)
                     (only_at (BASE_URL ++ "/c") (Response 200 (Some (JList [yoga])) []))
                     clock0 ["/a"; "/b/schedule"; "/c"] fresh)))
     = [BASE_URL ++ "/a";
        BASE_URL ++ "/b/schedule?start=2024-05-20T08:00:00&end=2024-06-19T08:00:00";
        BASE_URL ++ "/b/schedule";
        BASE_URL ++ "/c"].
Proof.
  set (portal := only_at (BASE_URL ++ "/c") (Response 200 (Some (JList [yoga])) [])).
  assert (H12 : forall h rq,
            In (rq_url rq) (attempt_urls clock0 "/a" ++ attempt_urls clock0 "/b/schedule") ->
            usable (portal h rq) = false).
  { intros h rq Hin. unfold portal, only_at.
    apply in_app_or in Hin. unfold attempt_urls in Hin.
    destruct Hin as [Hin|Hin]; simpl in Hin;
      repeat (destruct Hin as [<-|Hin]; [reflexivity|]); destruct Hin. }
  assert (H3 : forall h rq,
            In (rq_url rq) (attempt_urls clock0 "/c") ->
            exists ck, portal h rq = Response 200 (Some (JList [yoga])) ck).
  { intros h rq Hin. unfold portal, only_at.
    unfold attempt_urls in Hin. simpl in Hin.
    destruct Hin as [<-|[]]. exists []. reflexivity. }
  assert (Hd : Forall (fun i => is_dict i = true) [yoga]) by (repeat constructor).
  destruct (proj1 (probe_paths_fallback (L := Reference.lib) portal clock0)
              "/a" "/b/schedule" "/c" [yoga] fresh H12 H3 Hd)
    as (bs & w' & new & E & Hn & Hs & Hu).
  rewrite E. vm_compute in Hn. inversion Hn; subst bs.
  split; [reflexivity|].
  simpl. rewrite Hs. simpl. rewrite Hu. vm_compute. reflexivity.
Defined.

(** C6 as stated fails for a first candidate whose path contains
    [calendar]: before the third candidate is reached it has been
    requested twice, with the date range and without. *)
Lemma probe_paths_calendar_twice :
  let run :=
    probe_paths (L := Reference.lib)
      (only_at (BASE_URL ++ "/c") (Response 200 (Some (JList [yoga])) []))
      clock0 ["/a/calendar"; "/b"; "/c"] fresh in
  let urls := map rq_url (sent (snd run)) in
  fst run = Ret [yoga_booking]
  /\ urls = [BASE_URL ++ "/a/calendar?start=2024-05-20T08:00:00&end=2024-06-19T08:00:00";
             BASE_URL ++ "/a/calendar";
             BASE_URL ++ "/b";
             BASE_URL ++ "/c"]
  /\ List.length (filter (String.prefix (BASE_URL ++ "/a/calendar")) urls) = 2%nat
  /\ ~ (List.length (filter (String.prefix (BASE_URL ++ "/a/calendar")) urls) <= 1)%nat.
Proof.
  vm_compute. split; [reflexivity|]. split; [reflexivity|]. split; [reflexivity|].
  intros H. inversion H as [|? H']. inversion H'.
Qed.

(** C3 as stated fails on two counts. The record [shadowed] has a start
    candidate that parses, [StartTime], yet it is dropped, because the
    mapper reads [StartTimeUtc] alone: of the batch [[shadowed; yoga]] only
    the second record is returned. And of the batch [[yoga; 1]], which the
    prober accepts, nothing is returned: the record with a start is lost
    with the call. *)
Lemma fetch_upcoming_bookings_shadowed_start :
  @_parse_dt Reference.lib (JStr "2024-06-01T10:00:00Z")
  = Some {| dt_wall := 1717236000000000; dt_tzinfo := Some utc |}
  /\ fst (fetch_upcoming_bookings (L := Reference.lib)
            (always (Response 200 (Some (JList [shadowed; yoga])) [])) clock0 fresh)
     = Ret [yoga_booking]
  /\ fst (first_batch
            (always (Response 200 (Some (JList [yoga; JInt 1])) [])) clock0
            (candidate_paths (self fresh)) fresh)
     = Ret (Some [yoga; JInt 1])
  /\ fst (fetch_upcoming_bookings (L := Reference.lib)
            (always (Response 200 (Some (JList [yoga; JInt 1])) [])) clock0 fresh)
     = Raise AttributeError.
Proof. vm_compute. repeat split; reflexivity. Qed.

(* ================================================================= *)
(** * Further properties of the client *)

(** ** More on the temporal parser *)

Lemma string_app_assoc (a b c : string) : a ++ (b ++ c) = (a ++ b) ++ c.
Proof. induction a as [|x a IH]; simpl; [reflexivity|]. rewrite IH. reflexivity. Qed.

Lemma replace_app (c : ascii) (by_ a b : string) :
  replace c by_ (a ++ b) = replace c by_ a ++ replace c by_ b.
Proof.
  induction a as [|x a IH]; simpl; [reflexivity|].
  destruct (Ascii.eqb c x); rewrite IH; [apply string_app_assoc|reflexivity].
Qed.

Lemma replace_cons (c : ascii) (by_ : string) (x : ascii) (s : string) :
  replace c by_ (String x s)
  = if Ascii.eqb c x then by_ ++ replace c by_ s else String x (replace c by_ s).
Proof. reflexivity. Qed.

(** Rewriting ["Z"] a second time changes nothing: the offset that was
    written holds no ["Z"]. *)
Lemma replace_Z_idem (s : string) :
  replace "Z" "+00:00" (replace "Z" "+00:00" s) = replace "Z" "+00:00" s.
Proof.
  induction s as [|x s IH]; [reflexivity|].
  rewrite (replace_cons "Z" "+00:00" x s).
  destruct (Ascii.eqb "Z" x) eqn:E.
  - rewrite replace_app, IH. reflexivity.
  - rewrite replace_cons, E, IH. reflexivity.
Qed.

Lemma replace_Z_empty (s : string) :
  (replace "Z" "+00:00" s =? "")%string = (s =? "")%string.
Proof.
  destruct s as [|x s]; [reflexivity|].
  rewrite replace_cons. destruct (Ascii.eqb "Z" x); reflexivity.
Qed.

(** X1. Whatever instant [_parse_dt] returns carries a zone. On the ISO
    path the clock reading is the parsed one and the zone is the parsed
    offset, or UTC when the text gave none. *)
Theorem _parse_dt_always_aware (L : PyLib) (value : json) (dt : datetime) :
  _parse_dt value = Some dt ->
  (exists tz, dt_tzinfo dt = Some tz)
  /\ (forall iso,
        fromisoformat (replace "Z" "+00:00" (py_str value)) = Some iso ->
        dt_wall dt = dt_wall iso
        /\ dt_tzinfo dt = Some (match dt_tzinfo iso with Some tz => tz | None => utc end)).
Proof.
  intros H. split; [exact (_parse_dt_aware value dt H)|].
  intros iso Hiso. unfold _parse_dt in H. rewrite Hiso in H.
  destruct (negb (truthy value)); [discriminate|].
  inversion H; subst; clear H.
  destruct (dt_tzinfo iso) as [tz|] eqn:E; simpl; auto.
Qed.

(** A date without time and without offset: midnight, stamped UTC. *)
Lemma _parse_dt_always_aware_witness :
  exists tz, dt_tzinfo {| dt_wall := 1717200000000000; dt_tzinfo := Some utc |} = Some tz.
Proof.
  apply (_parse_dt_always_aware Reference.lib (JStr "2024-06-01")
           {| dt_wall := 1717200000000000; dt_tzinfo := Some utc |}).
  reflexivity.
Defined.

(** X2. For a text the ISO parser accepts once its ["Z"]s are rewritten,
    parsing it and parsing the rewritten text give the same instant: a
    trailing ["Z"] and an explicit [+00:00] are read alike. *)
Theorem _parse_dt_zulu (L : PyLib) (s : string) (iso : datetime) :
  fromisoformat (replace "Z" "+00:00" s) = Some iso ->
  _parse_dt (JStr s) = _parse_dt (JStr (replace "Z" "+00:00" s)).
Proof.
  intros H. unfold _parse_dt. simpl.
  rewrite replace_Z_idem, replace_Z_empty, H. reflexivity.
Qed.

Lemma _parse_dt_zulu_witness :
  @_parse_dt Reference.lib (JStr "2024-05-01T10:00:00Z")
  = @_parse_dt Reference.lib (JStr "2024-05-01T10:00:00+00:00").
Proof.
  apply (_parse_dt_zulu Reference.lib "2024-05-01T10:00:00Z"
           {| dt_wall := 1714557600000000; dt_tzinfo := Some 0 |}).
  reflexivity.
Defined.

(** ** More on the booking mapper *)

(** X3. The start of a booking is parsed from one field only: the first
    of [StartTimeUtc], [StartTime], [Start] that is true, and [StartDate]
    when none is. So a [StartTimeUtc] that is set but does not parse gives
    a booking without start, which the batch filter drops, whatever the
    other three fields hold. *)
Theorem _normalize_booking_start_source (L : PyLib) (d : list (string * json)) :
  exists b,
    _normalize_booking (JDict d) = Ret b
    /\ start b
       = _parse_dt (first_truthy [dict_get d "StartTimeUtc"; dict_get d "StartTime";
                                  dict_get d "Start"]
                                 (dict_get d "StartDate"))
    /\ (truthy (dict_get d "StartTimeUtc") = true ->
        _parse_dt (dict_get d "StartTimeUtc") = None ->
        normalize_batch [JDict d] = Ret []).
Proof.
  unfold _normalize_booking, normalize_batch. simpl. eexists.
  split; [reflexivity|]. simpl. unfold first_truthy, py_or, has_start. simpl.
  destruct (truthy (dict_get d "StartTimeUtc")) eqn:E1.
  - split; [reflexivity|]. intros _ ->. reflexivity.
  - split; [|discriminate].
    destruct (truthy (dict_get d "StartTime")); [reflexivity|].
    destruct (truthy (dict_get d "Start")); reflexivity.
Qed.

(** A record with a valid [StartTime] is lost to a [StartTimeUtc] that
    reads ["tbc"]. *)
Lemma _normalize_booking_start_source_witness :
  @normalize_batch Reference.lib
    [JDict [("StartTimeUtc", JStr "tbc");
            ("StartTime", JStr "2024-06-01T09:00:00Z");
            ("Title", JStr "Yoga")]]
  = Ret [].
Proof.
  destruct (_normalize_booking_start_source Reference.lib
              [("StartTimeUtc", JStr "tbc");
               ("StartTime", JStr "2024-06-01T09:00:00Z");
               ("Title", JStr "Yoga")]) as (b & _ & _ & H).
  apply H; reflexivity.
Defined.

Section Description.
Context {L : PyLib}.

Lemma concat_parts_nonempty (p : string) (ps : list string) :
  p <> "" -> String.concat "; " (p :: ps) <> "".
Proof.
  intros Hp. destruct ps as [|q ps]; simpl; [exact Hp|].
  destruct p; [contradiction|]. discriminate.
Qed.

Lemma description_parts_nil (d : list (string * json)) :
  description_parts d = [] <->
  Forall (fun key => truthy (dict_get d key) = false)
         ["TrainerDisplayName"; "Coach"; "Instructor"; "Status"; "Type";
          "ClassBookingId"; "BookingId"].
Proof.
  unfold description_parts. rewrite !truthy_py_or.
  split.
  - intros H.
    destruct (truthy (dict_get d "TrainerDisplayName")) eqn:E1; [discriminate H|].
    destruct (truthy (dict_get d "Coach")) eqn:E2; [discriminate H|].
    destruct (truthy (dict_get d "Instructor")) eqn:E3; [discriminate H|].
    destruct (truthy (dict_get d "Status")) eqn:E4; [discriminate H|].
    destruct (truthy (dict_get d "Type")) eqn:E5; [discriminate H|].
    destruct (truthy (dict_get d "ClassBookingId")) eqn:E6; [discriminate H|].
    destruct (truthy (dict_get d "BookingId")) eqn:E7; [discriminate H|].
    repeat (constructor; [assumption|]). constructor.
  - intros H.
    repeat match goal with
           | H : Forall _ (_ :: _) |- _ => inversion H; clear H; subst
           end.
    repeat match goal with
           | H : truthy _ = false |- _ => rewrite H; clear H
           end.
    reflexivity.
Qed.

(** Every part starts with its label. *)
Lemma description_parts_nonempty (d : list (string * json)) :
  Forall (fun p => p <> "") (description_parts d).
Proof.
  unfold description_parts.
  repeat (apply Forall_app; split);
    repeat match goal with
           | |- context [if ?b then _ else _] => destruct b
           end;
    repeat constructor; discriminate.
Qed.

(** X4. The description of a booking is absent exactly when the record
    names no coach ([TrainerDisplayName], [Coach], [Instructor]), no
    [Status], no [Type], no [ClassBookingId] and no [BookingId]; when it is
    present it is not empty; and a [ClassBookingId] is printed last, in
    place of the [BookingId]. *)
Theorem _normalize_booking_description (d : list (string * json)) :
  exists b,
    _normalize_booking (JDict d) = Ret b
    /\ (description b = None <->
        Forall (fun key => truthy (dict_get d key) = false)
               ["TrainerDisplayName"; "Coach"; "Instructor"; "Status"; "Type";
                "ClassBookingId"; "BookingId"])
    /\ (forall s, description b = Some s -> s <> "")
    /\ (truthy (dict_get d "ClassBookingId") = true ->
        exists before,
          description_parts d
          = (before
             ++ [("ClassBookingId: " ++ py_str (dict_get d "ClassBookingId"))%string])%list
          /\ (List.length before <= 3)%nat).
Proof.
  unfold _normalize_booking. simpl. eexists. split; [reflexivity|]. simpl.
  split; [|split].
  - rewrite <- description_parts_nil.
    destruct (description_parts d); split; intros H; try reflexivity; discriminate.
  - intros s H. pose proof (description_parts_nonempty d) as Hne.
    destruct (description_parts d) as [|p ps]; [discriminate|].
    inversion H; subst. inversion Hne; subst.
    apply concat_parts_nonempty. assumption.
  - intros H. unfold description_parts. rewrite H.
    eexists. rewrite !app_assoc. split; [reflexivity|].
    rewrite !length_app.
    repeat match goal with
           | |- context [if ?b then _ else _] => destruct b
           end; simpl; lia.
Qed.

End Description.

(** ** More on occupancy *)

Section ClubMapper.
Context {L : PyLib}.

(** X5. The name of a club entry is never missing and never false: it is
    the first true value among [ClubName], [Name], [Club] and [name], and
    the string ["Club"] when there is none. The count stored in the entry
    is the one added to the total. *)
Theorem normalize_club_name (d : list (string * json)) :
  exists c n,
    normalize_club (JDict d) = Ret (c, n)
    /\ club_name c
       = first_truthy [dict_get d "ClubName"; dict_get d "Name"; dict_get d "Club";
                       dict_get d "name"] (JStr "Club")
    /\ truthy (club_name c) = true
    /\ members c = n.
Proof.
  unfold normalize_club. simpl. do 2 eexists. split; [reflexivity|]. simpl.
  unfold first_truthy, py_or. simpl.
  destruct (truthy (dict_get d "ClubName")) eqn:E1;
    [|destruct (truthy (dict_get d "Name")) eqn:E2;
      [|destruct (truthy (dict_get d "Club")) eqn:E3;
        [|destruct (truthy (dict_get d "name")) eqn:E4]]];
    repeat split; assumption || reflexivity.
Qed.

End ClubMapper.

(** X6. Where [fetch_members_in_clubs] looks for the clubs, first match
    winning: a body that is a list is the list; in an object, the first of
    [Clubs], [Items], [Data], [Result], [results] bound to a list gives
    that list when it is not empty, ahead of [UsersInClubList]; when none
    of them is bound to a list, a non-empty [UsersInClubList] gives it. In
    the cases that are left (the first list-valued key holds the empty
    list, or no list was found), the values of the body in their order when
    the key ["0"] holds an object, and nothing otherwise. A body that is
    neither gives nothing. So an empty list under the first list-valued
    key hides a non-empty one under a later key. *)
Theorem clubs_raw_of_decision_order :
  (forall l, clubs_raw_of (JList l) = l)
  /\ (forall d pre k post x l,
        OCCUPANCY_LIST_KEYS = (pre ++ k :: post)%list ->
        no_list_key pre d -> lookup k d = Some (JList (x :: l)) ->
        clubs_raw_of (JDict d) = x :: l)
  /\ (forall d x l,
        no_list_key OCCUPANCY_LIST_KEYS d ->
        lookup "UsersInClubList" d = Some (JList (x :: l)) ->
        clubs_raw_of (JDict d) = x :: l)
  /\ (forall d pre k post,
        OCCUPANCY_LIST_KEYS = (pre ++ k :: post)%list ->
        no_list_key pre d -> lookup k d = Some (JList []) ->
        clubs_raw_of (JDict d) = if is_dict (dict_get d "0") then map snd d else [])
  /\ (forall d,
        no_list_key OCCUPANCY_LIST_KEYS d ->
        (forall x l, lookup "UsersInClubList" d <> Some (JList (x :: l))) ->
        clubs_raw_of (JDict d) = if is_dict (dict_get d "0") then map snd d else [])
  /\ (forall v, is_list v = false -> is_dict v = false -> clubs_raw_of v = []).
Proof.
  split; [reflexivity|].
  split.
  { intros d pre k post x l Hk Hno Hl. unfold clubs_raw_of.
    rewrite Hk, (first_list_key_first pre post k d _ Hno Hl). reflexivity. }
  split.
  { intros d x l Hno Hu. unfold clubs_raw_of.
    rewrite (first_list_key_none _ _ Hno), Hu. reflexivity. }
  split.
  { intros d pre k post Hk Hno Hl. unfold clubs_raw_of.
    rewrite Hk, (first_list_key_first pre post k d _ Hno Hl). reflexivity. }
  split.
  { intros d Hno Hu. unfold clubs_raw_of.
    rewrite (first_list_key_none _ _ Hno).
    destruct (lookup "UsersInClubList" d) as [[| | | | |[|x l]|]|] eqn:E; try reflexivity.
    exfalso. exact (Hu x l eq_refl). }
  intros [] Hl Hd; try reflexivity; discriminate.
Qed.

(** An empty [Clubs] hides the two clubs under [Items]; the shape keyed by
    ["0"], ["1"] gives both values; an object of another shape gives
    nothing. *)
Lemma clubs_raw_of_decision_order_witness :
  clubs_raw_of (JDict [("Items", JList [JInt 1; JInt 2]); ("Clubs", JList [])]) = []
  /\ clubs_raw_of (JDict [("0", JDict [("Name", JStr "North")]);
                          ("1", JDict [("Name", JStr "South")])])
     = [JDict [("Name", JStr "North")]; JDict [("Name", JStr "South")]]
  /\ clubs_raw_of (JDict [("Message", JStr "closed")]) = [].
Proof.
  destruct clubs_raw_of_decision_order as (_ & _ & _ & H4 & H5 & _).
  assert (Hno : forall d,
            (forall k, In k OCCUPANCY_LIST_KEYS -> lookup k d = None) ->
            no_list_key OCCUPANCY_LIST_KEYS d).
  { intros d H k Hin l. rewrite (H k Hin). discriminate. }
  split; [|split].
  - rewrite (H4 _ [] "Clubs" ["Items"; "Data"; "Result"; "results"]);
      [reflexivity | reflexivity | intros k [] | reflexivity].
  - rewrite H5; [reflexivity| |discriminate].
    apply Hno. intros k Hin. simpl in Hin.
    repeat (destruct Hin as [<-|Hin]; [reflexivity|]). destruct Hin.
  - rewrite H5; [reflexivity| |discriminate].
    apply Hno. intros k Hin. simpl in Hin.
    repeat (destruct Hin as [<-|Hin]; [reflexivity|]). destruct Hin.
Defined.

(** ** The refresh interval *)

(** X7. The refresh interval [async_setup_entry] computes is always a
    positive number of seconds: the option converted with [int()] when that
    gives a positive number, and 3600 when the option is not set, does not
    convert, or is zero or negative. *)
Theorem interval_seconds_positive (L : PyLib) (option : option json) :
  0 < interval_seconds option
  /\ (option = None -> interval_seconds option = 3600)
  /\ (forall v n, option = Some v -> py_int v = Ret n -> 0 < n ->
        interval_seconds option = n)
  /\ (forall v n, option = Some v -> py_int v = Ret n -> n <= 0 ->
        interval_seconds option = 3600)
  /\ (forall v e, option = Some v -> py_int v = Raise e ->
        interval_seconds option = 3600).
Proof.
  unfold interval_seconds, DEFAULT_UPDATE_INTERVAL_SECONDS.
  split.
  - destruct (py_int _) as [n|]; [|lia].
    destruct (n <=? 0) eqn:E; [lia|]. apply Z.leb_gt in E. exact E.
  - split; [intros ->; reflexivity|].
    split; [|split].
    + intros v n -> -> Hn. apply Z.leb_gt in Hn. rewrite Hn. reflexivity.
    + intros v n -> -> Hn. apply Z.leb_le in Hn. rewrite Hn. reflexivity.
    + intros v e -> ->. reflexivity.
Qed.

(** The form's number 600.0 gives 600; the text ["soon"] and [-5] give the
    default. *)
Lemma interval_seconds_positive_witness :
  @interval_seconds Reference.lib (Some (JFloat 600)) = 600
  /\ @interval_seconds Reference.lib (Some (JStr "soon")) = 3600
  /\ @interval_seconds Reference.lib (Some (JInt (-5))) = 3600.
Proof.
  destruct (interval_seconds_positive Reference.lib (Some (JFloat 600)))
    as (_ & _ & H & _).
  split; [apply (H (JFloat 600) 600); [reflexivity|reflexivity|lia]|].
  split; reflexivity.
Defined.

(** ** Requests that go out under a refreshed header *)

Section Guarded.
Context {L : PyLib}.
Variable portal : list request -> request -> reply.

(** The common shape of the guarded operations, from a state in which the
    lookup returns: refresh the header, send one request, and compute the
    result from the response without touching the session again; every
    exception gives the default. *)
Lemma guarded_request {A} (m : http_method) (url : string)
  (headers : list (string * string)) (body : http_body)
  (K : response -> M A) (F : response -> outcome A) (default : A) (w : world)
  (t : option string) :
  (forall resp w0, K resp w0 = (F resp, w0)) ->
  token_lookup w = Ret t ->
  let rq := {| rq_method := m; rq_url := url; rq_headers := headers;
               rq_authorization := refreshed_authorization w t;
               rq_body := body |} in
  exists w',
    bind _ensure_auth_header_from_cookie
      (fun _ => try_except (bind (session_request portal m url headers body) K)
                           (fun _ => ret default)) w
    = (Ret (match portal (sent w) rq with
            | TransportError _ => default
            | Response st b _ =>
                match F {| status_code := st; resp_body := b |} with
                | Ret a => a
                | Raise _ => default
                end
            end), w')
    /\ sent w' = (sent w ++ [rq])%list
    /\ authorization (_session (self w')) = refreshed_authorization w t
    /\ cookies (_session (self w'))
       = apply_changes (changes_of (portal (sent w) rq)) (cookies (_session (self w)))
    /\ _bookings_path_override (self w') = _bookings_path_override (self w)
    /\ _club_id (self w') = _club_id (self w).
Proof.
  intros HK Ht rq.
  destruct (_ensure_auth_header_from_cookie_spec w t Ht)
    as (wa & Ea & Hs & Hj & Ho & Hc & Ha).
  unfold bind at 1. rewrite Ea. unfold try_except.
  destruct (request_then portal m url headers body K F wa HK)
    as (w' & E & Hs' & Ha' & Hj' & Ho' & Hc').
  rewrite E. rewrite Hs, Ha in *. fold rq in E, Hs', Hj' |- *.
  exists w'. split.
  - destruct (portal (sent w) rq) as [ch|st b ch]; [reflexivity|].
    destruct (F {| status_code := st; resp_body := b |}); reflexivity.
  - split; [exact Hs'|]. split; [exact Ha'|]. split; [rewrite Hj', Hj; reflexivity|].
    split; congruence.
Qed.

(** The same shape, looking at the request only. *)
Lemma guarded_request_trace {A} (m : http_method) (url : string)
  (headers : list (string * string)) (body : http_body)
  (K : response -> M A) (default : A) (w : world) (t : option string) :
  (forall resp w0, snd (K resp w0) = w0) ->
  token_lookup w = Ret t ->
  let rq := {| rq_method := m; rq_url := url; rq_headers := headers;
               rq_authorization := refreshed_authorization w t;
               rq_body := body |} in
  exists a w',
    bind _ensure_auth_header_from_cookie
      (fun _ => try_except (bind (session_request portal m url headers body) K)
                           (fun _ => ret default)) w
    = (Ret a, w')
    /\ sent w' = (sent w ++ [rq])%list.
Proof.
  intros HK Ht rq.
  destruct (_ensure_auth_header_from_cookie_spec w t Ht)
    as (wa & Ea & Hs & _ & _ & _ & Ha).
  unfold bind at 1. rewrite Ea. unfold try_except, bind, session_request.
  rewrite Hs, Ha. fold rq.
  destruct (portal (sent w) rq) as [ch|st b ck].
  - do 2 eexists. split; reflexivity.
  - match goal with |- context [K ?r ?w0] =>
      pose proof (HK r w0) as Hk; destruct (K r w0) as [[a|e] w1] end;
      simpl in Hk; subst; do 2 eexists; split; reflexivity.
Qed.

End Guarded.

Section GuardedOperations.
Context {L : PyLib}.
Variable portal : list request -> request -> reply.

(** What the products lookup computes from the response. *)
Lemma fetch_products_for_user_pure (resp : response) (w0 : world) :
  (if negb (status_code resp =? 200) then ret None
   else
     data <- resp_json resp ;;
     club_name <- lift (py_get (or_empty_dict data) "ClubName") ;;
     ret (Some club_name)) w0
  = (if negb (status_code resp =? 200) then Ret None
     else match resp_body resp with
          | None => Raise JSONDecodeError
          | Some data =>
              club_name <~ py_get (or_empty_dict data) "ClubName" ;;
              Ret (Some club_name)
          end, w0).
Proof.
  destruct (negb (status_code resp =? 200)); [reflexivity|].
  unfold bind, resp_json. destruct (resp_body resp) as [data|]; [|reflexivity].
  simpl. unfold lift.
  destruct (py_get (or_empty_dict data) "ClubName"); reflexivity.
Qed.

(** What the occupancy report computes from the response. *)
Lemma fetch_members_in_clubs_pure (resp : response) (w0 : world) :
  (if negb (status_code resp =? 200) then ret empty_occupancy
   else
     data <- resp_json resp ;;
     lift (occupancy_loop (clubs_raw_of data) [] 0)) w0
  = (if negb (status_code resp =? 200) then Ret empty_occupancy
     else match resp_body resp with
          | Some data => occupancy_loop (clubs_raw_of data) [] 0
          | None => Raise JSONDecodeError
          end, w0).
Proof.
  destruct (negb (status_code resp =? 200)); [reflexivity|].
  unfold bind, resp_json. destruct (resp_body resp); reflexivity.
Qed.

(** X8. When the jar holds the token cookie once, with a value that is
    not empty, the occupancy, identity and products operations each send
    one request, and it carries that value as the bearer token, whatever
    [Authorization] header the session had before: the header is derived
    from the cookie on every call. *)
Theorem privileged_requests_carry_token (w : world) (token : string) :
  token_lookup w = Ret (Some token) ->
  (exists r w',
     fetch_members_in_clubs portal w = (Ret r, w')
     /\ sent w' = (sent w ++ [{| rq_method := POST;
                                 rq_url := (BASE_URL ++ OCCUPANCY_PATH)%string;
                                 rq_headers := [("X-Hash", "#/Clubs/MembersInClubs")];
                                 rq_authorization := Some ("Bearer " ++ token)%string;
                                 rq_body := EmptyBody |}])%list)
  /\ (exists r w',
        fetch_identity portal w = (Ret r, w')
        /\ sent w' = (sent w ++ [{| rq_method := POST;
                                    rq_url := (BASE_URL ++ IDENTITY_PATH)%string;
                                    rq_headers := [];
                                    rq_authorization := Some ("Bearer " ++ token)%string;
                                    rq_body := EmptyBody |}])%list)
  /\ (exists r w',
        fetch_products_for_user portal w = (Ret r, w')
        /\ sent w' = (sent w ++ [{| rq_method := GET;
                                    rq_url := (BASE_URL ++ PRODUCTS_PATH)%string;
                                    rq_headers := [];
                                    rq_authorization := Some ("Bearer " ++ token)%string;
                                    rq_body := NoBody |}])%list).
Proof.
  intros Ht.
  split; [|split].
  - unfold fetch_members_in_clubs.
    match goal with
    | |- context [bind (session_request _ ?m ?u ?h ?b) ?K] =>
        destruct (guarded_request portal m u h b K _ empty_occupancy w _
                    fetch_members_in_clubs_pure Ht)
          as (w' & E & Hs & _)
    end.
    eexists _, w'. split; [exact E|exact Hs].
  - unfold fetch_identity.
    match goal with
    | |- context [bind (session_request _ ?m ?u ?h ?b) ?K] =>
        destruct (guarded_request portal m u h b K _ None w _
                    (fetch_identity_pure) Ht)
          as (w' & E & Hs & _)
    end.
    eexists _, w'. split; [exact E|exact Hs].
  - unfold fetch_products_for_user.
    match goal with
    | |- context [bind (session_request _ ?m ?u ?h ?b) ?K] =>
        destruct (guarded_request portal m u h b K _ None w _
                    fetch_products_for_user_pure Ht)
          as (w' & E & Hs & _)
    end.
    eexists _, w'. split; [exact E|exact Hs].
Qed.

End GuardedOperations.

(** A rotated token in the jar replaces the stale header on the next
    identity request. *)
Lemma privileged_requests_carry_token_witness :
  let w := client_with [token_cookie "/" "n3w"] (Some "Bearer 0ld") in
  map rq_authorization
      (sent (snd (fetch_identity (always (Response 401 None [])) w)))
  = [Some "Bearer n3w"].
Proof.
  intros w.
  destruct (proj1 (proj2 (privileged_requests_carry_token (L := Reference.lib)
                            (always (Response 401 None [])) w "n3w" eq_refl)))
    as (o & w' & E & Hs).
  rewrite E. simpl. rewrite Hs. reflexivity.
Defined.

Section Replies.
Context {L : PyLib}.
Variable portal : list request -> request -> reply.

Lemma comprehension_normalize_club_non_dict (items : list json) :
  Exists (fun i => is_dict i = false) items ->
  comprehension normalize_club items = Raise AttributeError.
Proof.
  induction items as [|i items IH]; intros H; [inversion H|].
  simpl. destruct i;
    try reflexivity.
  destruct (normalize_club_dict d) as [r ->]. simpl.
  inversion H as [? ? Hi|? ? Hi]; subst; [discriminate Hi|].
  rewrite (IH Hi). reflexivity.
Qed.

(** X9. One entry that is not an object costs the whole occupancy
    report. From a state in which the lookup of the token cookie returns,
    [fetch_members_in_clubs] returns after one request; when the list of
    clubs found in a 200 body holds such an entry, it returns
    [{"clubs": [], "total": 0}], also for the clubs that were well formed.
    When all entries are objects, the report lists them in the order of the
    body. *)
Theorem fetch_members_in_clubs_all_or_nothing (w : world) (t : option string) :
  token_lookup w = Ret t ->
  exists rq r w',
    fetch_members_in_clubs portal w = (Ret r, w')
    /\ sent w' = (sent w ++ [rq])%list
    /\ (forall data ck,
          portal (sent w) rq = Response 200 (Some data) ck ->
          Exists (fun c => is_dict c = false) (clubs_raw_of data) ->
          r = empty_occupancy)
    /\ (forall data ck,
          portal (sent w) rq = Response 200 (Some data) ck ->
          Forall (fun c => is_dict c = true) (clubs_raw_of data) ->
          exists rs,
            comprehension normalize_club (clubs_raw_of data) = Ret rs
            /\ clubs r = map fst rs
            /\ List.length (clubs r) = List.length (clubs_raw_of data)).
Proof.
  intros Ht. unfold fetch_members_in_clubs.
  match goal with
  | |- context [bind (session_request _ ?m ?u ?h ?b) ?K] =>
      destruct (guarded_request portal m u h b K _ empty_occupancy w t
                  fetch_members_in_clubs_pure Ht)
        as (w' & E & Hs & _)
  end.
  eexists _, _, w'. split; [exact E|]. split; [exact Hs|]. split.
  - intros data ck -> Hex. simpl.
    rewrite occupancy_loop_comprehension,
      (comprehension_normalize_club_non_dict _ Hex). reflexivity.
  - intros data ck -> Hall. simpl.
    rewrite occupancy_loop_comprehension.
    destruct (comprehension_total normalize_club (clubs_raw_of data)) as [rs Hrs].
    { eapply Forall_impl; [|exact Hall]. intros [] Hd; try discriminate.
      apply normalize_club_dict. }
    rewrite Hrs. simpl. exists rs. split; [reflexivity|]. split; [reflexivity|].
    rewrite length_map. exact (comprehension_length _ _ _ Hrs).
Qed.

End Replies.

(** A [null] among two clubs: the report is empty. *)
Lemma fetch_members_in_clubs_all_or_nothing_witness :
  fst (fetch_members_in_clubs (L := Reference.lib)
         (always (Response 200
                    (Some (JList [JDict [("ClubName", JStr "North"); ("Count", JInt 7)];
                                  JNull]))
                    []))
         fresh)
  = Ret empty_occupancy.
Proof.
  set (portal := always _).
  destruct (fetch_members_in_clubs_all_or_nothing (L := Reference.lib) portal fresh
              None eq_refl)
    as (rq & r & w' & E & _ & H & _).
  rewrite E. simpl. f_equal.
  apply (H (JList [JDict [("ClubName", JStr "North"); ("Count", JInt 7)]; JNull]) []);
    [reflexivity|].
  right. left. reflexivity.
Defined.

(** ** Identity, contracts and login *)

Section Identity.
Context {L : PyLib}.
Variable portal : list request -> request -> reply.

(** X10. What [fetch_identity] makes of the portal's reply, from a state
    in which the lookup of the token cookie returns: it returns after one
    request. A request that
    raises, a status other than 200 or a body that is not JSON gives [{}].
    A 200 body that is false ([null], [{}], [0]) or an object without a
    true [Member] gives a dict of eight [None] fields, which is not [{}]
    but names no user. A [Member] object gives its fields. A body or a
    [Member] of any other kind gives [{}]. *)
Theorem fetch_identity_reply (w : world) (t : option string) :
  token_lookup w = Ret t ->
  exists rq r w',
    fetch_identity portal w = (Ret r, w')
    /\ sent w' = (sent w ++ [rq])%list
    /\ (remote_failure (portal (sent w) rq) = true -> r = None)
    /\ (forall data ck,
          portal (sent w) rq = Response 200 (Some data) ck ->
          truthy data = false
          \/ (exists d, data = JDict d /\ truthy (dict_get d "Member") = false) ->
          r = Some (identity_of_member []) /\ no_user_id r = true)
    /\ (forall d member ck,
          portal (sent w) rq = Response 200 (Some (JDict d)) ck ->
          dict_get d "Member" = JDict member ->
          r = Some (identity_of_member member))
    /\ (forall data ck,
          portal (sent w) rq = Response 200 (Some data) ck ->
          (truthy data = true /\ is_dict data = false)
          \/ (exists d, data = JDict d /\ truthy (dict_get d "Member") = true
                        /\ is_dict (dict_get d "Member") = false) ->
          r = None).
Proof.
  intros Ht0. unfold fetch_identity.
  match goal with
  | |- context [bind (session_request _ ?mt ?u ?h ?b) ?K] =>
      destruct (guarded_request portal mt u h b K _ None w t
                  fetch_identity_pure Ht0)
        as (w' & E & Hs & _)
  end.
  eexists _, _, w'. split; [exact E|]. split; [exact Hs|].
  split; [|split; [|split]].
  - destruct (portal (sent w) _) as [ch|st b ck]; [reflexivity|]. simpl.
    destruct (st =? 200); simpl; [|reflexivity].
    destruct b; [discriminate|reflexivity].
  - intros data ck -> H. simpl. unfold or_empty_dict, py_or.
    destruct H as [Hf|(d & -> & Hm)].
    + rewrite Hf. simpl. split; reflexivity.
    + assert (Hd : (if truthy (JDict d) then JDict d else JDict []) = JDict d)
        by (destruct d; reflexivity).
      rewrite Hd. simpl. rewrite Hm. simpl. split; reflexivity.
  - intros d member ck -> Hm. simpl. unfold or_empty_dict, py_or.
    assert (Hd : (if truthy (JDict d) then JDict d else JDict []) = JDict d)
      by (destruct d; reflexivity).
    rewrite Hd. simpl. rewrite Hm. destruct member; reflexivity.
  - intros data ck -> H. simpl. unfold or_empty_dict, py_or.
    destruct H as [[Ht Hd]|(d & -> & Ht & Hd)].
    + rewrite Ht. destruct data; try reflexivity; discriminate.
    + assert (Hd' : (if truthy (JDict d) then JDict d else JDict []) = JDict d)
        by (destruct d; reflexivity).
      rewrite Hd'. simpl. rewrite Ht.
      destruct (dict_get d "Member"); try reflexivity; discriminate.
Qed.

End Identity.

(** A 200 reply whose body is [null]: a dict comes back, without user id. *)
Lemma fetch_identity_reply_witness :
  fst (fetch_identity (always (Response 200 (Some JNull) [])) fresh)
  = Ret (Some (identity_of_member [])).
Proof.
  destruct (fetch_identity_reply (always (Response 200 (Some JNull) [])) fresh
              None eq_refl)
    as (rq & r & w' & E & _ & _ & H & _).
  rewrite E. simpl. f_equal.
  apply (H JNull []); [reflexivity|]. left. reflexivity.
Defined.

Section ContractsReply.
Context {L : PyLib}.
Variable portal : list request -> request -> reply.

(** With a user id given, [fetch_contracts] is one guarded request. *)
Lemma fetch_contracts_with_user_id (user_id : json) (w : world) :
  user_id <> JNull -> truthy user_id = true ->
  fetch_contracts portal user_id w
  = bind _ensure_auth_header_from_cookie
      (fun _ =>
         try_except
           (bind (session_request portal POST (BASE_URL ++ CONTRACTS_PATH)
                    [("X-Hash", "#/Profile/Contract")]
                    (JsonBody (JDict [("userId", user_id)])))
                 (fun resp =>
                    if negb (status_code resp =? 200) then ret empty_contracts
                    else
                      data <- resp_json resp ;;
                      contracts_raw <-
                        lift (x <~ py_get (or_empty_dict data) "Contracts" ;;
                              Ret (py_or x (JList []))) ;;
                      items <- lift (py_iter contracts_raw) ;;
                      contracts <- lift (comprehension normalize_contract items) ;;
                      ret {| contracts := contracts;
                             active := match contracts with
                                       | first :: _ => Some first
                                       | [] => None
                                       end |}))
           (fun _ => ret empty_contracts)) w.
Proof.
  intros Hn Ht. unfold fetch_contracts. apply bind_ext. intros _ w0.
  unfold try_except.
  assert (Hbody : forall (K : json -> M contracts_report),
            bind (match user_id with
                  | JNull =>
                      ident <- fetch_identity portal ;;
                      ret (match ident with
                           | Some i => id_user_id i
                           | None => JNull
                           end)
                  | _ => ret user_id
                  end) K w0 = K user_id w0)
    by (intros K; destruct user_id; try contradiction; reflexivity).
  rewrite Hbody. cbv beta. rewrite Ht. reflexivity.
Qed.

(** X11. With a user id given, and from a state in which the lookup of
    the token cookie returns, [fetch_contracts] asks the portal once, for
    the contracts of that id, and makes no identity request. From a 200
    body whose [Contracts] is a list of well-formed records it returns them
    all in the portal's order, the first one as [active]. One record that is
    not an object, or whose [Club] or [Cost] is neither an object nor
    false, costs the whole report: it is [{"contracts": [], "active":
    None}]. *)
Theorem fetch_contracts_reply (user_id : json) (w : world) (t : option string) :
  user_id <> JNull -> truthy user_id = true ->
  token_lookup w = Ret t ->
  exists rq r w',
    fetch_contracts portal user_id w = (Ret r, w')
    /\ sent w' = (sent w ++ [rq])%list
    /\ rq_url rq = BASE_URL ++ CONTRACTS_PATH
    /\ rq_body rq = JsonBody (JDict [("userId", user_id)])
    /\ (remote_failure (portal (sent w) rq) = true -> r = empty_contracts)
    /\ (forall d items ck,
          portal (sent w) rq = Response 200 (Some (JDict d)) ck ->
          dict_get d "Contracts" = JList items ->
          Forall (fun c => well_formed_contract c = true) items ->
          List.length (contracts r) = List.length items
          /\ map c_name (contracts r)
             = map (fun c => match c with
                             | JDict d => dict_get d "Name"
                             | _ => JNull
                             end) items
          /\ active r = hd_error (contracts r))
    /\ (forall d items ck,
          portal (sent w) rq = Response 200 (Some (JDict d)) ck ->
          dict_get d "Contracts" = JList items ->
          Exists (fun c => well_formed_contract c = false) items ->
          r = empty_contracts).
Proof.
  intros Hn Ht Ht0. rewrite (fetch_contracts_with_user_id user_id w Hn Ht).
  match goal with
  | |- context [bind (session_request _ ?mt ?u ?h ?b) ?K] =>
      destruct (guarded_request portal mt u h b K _ empty_contracts w t
                  (fetch_contracts_pure) Ht0)
        as (w' & E & Hs & _)
  end.
  eexists _, _, w'. split; [exact E|]. split; [exact Hs|].
  split; [reflexivity|]. split; [reflexivity|].
  assert (Hd : forall d, or_empty_dict (JDict d) = JDict d) by (intros []; reflexivity).
  assert (Hl : forall items, py_or (JList items) (JList []) = JList items)
    by (intros []; reflexivity).
  split; [|split].
  - destruct (portal (sent w) _) as [ch|st b ck]; [reflexivity|]. simpl.
    destruct (st =? 200); simpl; [|reflexivity].
    destruct b; [discriminate|reflexivity].
  - intros d items ck -> Hc Hwf. simpl. rewrite Hd. simpl. rewrite Hc, Hl. simpl.
    destruct (comprehension_normalize_contract_ok items Hwf) as (cs & Hcs & Hnames).
    rewrite Hcs. simpl.
    split; [exact (comprehension_length _ _ _ Hcs)|]. split; [exact Hnames|reflexivity].
  - intros d items ck -> Hc Hbad. simpl. rewrite Hd. simpl. rewrite Hc, Hl. simpl.
    rewrite (comprehension_normalize_contract_bad items Hbad). reflexivity.
Qed.

End ContractsReply.

(** The two contracts of the scenario come back in their order; with a
    third record whose [Club] is a string, none does. *)
Lemma fetch_contracts_reply_witness :
  (exists r,
     fst (fetch_contracts (L := Reference.lib)
            (always (Response 200 (Some two_contracts) [])) (JInt 42) fresh) = Ret r
     /\ map c_name (contracts r) = [JStr "Ended plan"; JStr "Running plan"])
  /\ fst (fetch_contracts (L := Reference.lib)
            (always (Response 200
                       (Some (JDict [("Contracts",
                                      JList [JDict [("Name", JStr "Plan")];
                                             JDict [("Club", JStr "North")]])]))
                       []))
            (JInt 42) fresh)
     = Ret empty_contracts.
Proof.
  assert (Hn : JInt 42 <> JNull) by discriminate.
  split.
  - destruct (fetch_contracts_reply (L := Reference.lib)
                (always (Response 200 (Some two_contracts) [])) (JInt 42) fresh None
                Hn eq_refl eq_refl)
      as (rq & r & w' & E & _ & _ & _ & _ & H & _).
    exists r. rewrite E. split; [reflexivity|].
    refine (proj1 (proj2 (H _ _ [] eq_refl eq_refl _))).
    repeat constructor.
  - set (portal := always _).
    destruct (fetch_contracts_reply (L := Reference.lib) portal (JInt 42) fresh None
                Hn eq_refl eq_refl)
      as (rq & r & w' & E & _ & _ & _ & _ & _ & H).
    rewrite E. simpl. f_equal.
    refine (H _ _ [] eq_refl eq_refl _).
    right. left. reflexivity.
Defined.

Section Login.
Context {L : PyLib}.
Variable portal : list request -> request -> reply.

(** X12. [login] sends one POST with the credentials and always returns.
    It returns [True] exactly when the status is 200, whatever the body
    holds, even none, and the lookup of the token cookie in the jar as the
    exchange left it does not raise: a 200 reply after which the jar holds
    two token cookies gives [False], like a request that raises. After a
    success the session's [Authorization] header is the bearer token found
    in the jar, or what it was when none was found; after a failure the
    header is what it was. *)
Theorem login_result (w : world) :
  let rq := login_request (self w) in
  let jar' := apply_changes (changes_of (portal (sent w) rq))
                            (cookies (_session (self w))) in
  exists ok w',
    login portal w = (Ret ok, w')
    /\ sent w' = (sent w ++ [rq])%list
    /\ cookies (_session (self w')) = jar'
    /\ (ok = true <->
        (exists b ck, portal (sent w) rq = Response 200 b ck)
        /\ exists t, cookies_get "CpAuthToken" jar' = Ret t)
    /\ (forall t,
          ok = true -> cookies_get "CpAuthToken" jar' = Ret t ->
          authorization (_session (self w')) = refreshed_authorization w t)
    /\ (ok = false ->
        authorization (_session (self w')) = authorization (_session (self w))).
Proof.
  intros rq jar'. unfold login, try_except, bind, get_self, session_request.
  fold (login_request (self w)). fold rq.
  destruct (portal (sent w) rq) as [ch|st b ck] eqn:Ep.
  - exists false. eexists. split; [reflexivity|]. split; [reflexivity|].
    split; [unfold jar'; rewrite ?Ep; reflexivity|].
    split; [split; [discriminate|intros [(? & ? & ?) _]; discriminate]|].
    split; [discriminate|reflexivity].
  - cbn [status_code]. destruct (st =? 200) eqn:Est.
    + apply Z.eqb_eq in Est. subst st.
      match goal with |- context [_ensure_auth_header_from_cookie ?w0] =>
        set (w1 := w0) end.
      assert (Hj1 : cookies (_session (self w1)) = jar')
        by (unfold jar'; rewrite ?Ep; reflexivity).
      destruct (token_lookup w1) as [t|e] eqn:El.
      * destruct (_ensure_auth_header_from_cookie_spec w1 t El)
          as (w2 & E2 & Hs2 & Hj2 & _ & _ & Ha2).
        rewrite E2. exists true, w2. split; [reflexivity|].
        split; [rewrite Hs2; reflexivity|]. split; [congruence|].
        unfold token_lookup in El. rewrite Hj1 in El.
        split; [split; [intros _; split; eauto|reflexivity]|].
        split; [|discriminate].
        intros t' _ Ht'. rewrite Ht' in El. inversion El; subst. exact Ha2.
      * rewrite (_ensure_auth_header_from_cookie_conflict w1 e El).
        exists false, w1. split; [reflexivity|]. split; [reflexivity|].
        split; [exact Hj1|].
        unfold token_lookup in El. rewrite Hj1 in El.
        split; [split; [discriminate|]|split; [discriminate|reflexivity]].
        intros [_ [t Ht]]. rewrite Ht in El. discriminate.
    + exists false. eexists. split; [reflexivity|]. split; [reflexivity|].
      split; [unfold jar'; rewrite ?Ep; reflexivity|].
      split; [split; [discriminate|]|split; [discriminate|reflexivity]].
      intros [(b' & ck' & Hr) _]. inversion Hr; subst. discriminate.
Qed.

End Login.

(** The login of the end-to-end scenario: no body, a cookie, a success. *)
Lemma login_result_witness :
  fst (login portal_e2e fresh) = Ret true
  /\ authorization (_session (self (snd (login portal_e2e fresh)))) = Some "Bearer t0k3n".
Proof.
  destruct (login_result portal_e2e fresh) as (ok & w' & E & _ & _ & Hok & Hauth & _).
  rewrite E. simpl.
  assert (Htrue : ok = true).
  { apply Hok. split; [do 2 eexists; reflexivity|]. eexists. reflexivity. }
  split; [f_equal; exact Htrue|].
  exact (Hauth (Some "t0k3n") Htrue eq_refl).
Defined.

(** A reply that sets the token under a second path: the status is 200,
    the lookup raises inside the [try], and [login] returns [False]. *)
Example login_cookie_conflict :
  let portal := always (Response 200 None [add_cookie (token_cookie "/clientportal2" "b")]) in
  let w := client_with [token_cookie "/" "a"] None in
  fst (login portal w) = Ret false
  /\ token_lookup (snd (login portal w)) = Raise CookieConflictError
  /\ fst (fetch_identity portal (snd (login portal w))) = Raise CookieConflictError.
Proof. vm_compute. repeat split; reflexivity. Qed.

(** ** The requests of the bookings loop *)

Section BookingsRequests.
Context {L : PyLib}.
Variable portal : list request -> request -> reply.
Variable now : clock.

(** A probe leaves the [Authorization] header alone. *)
Lemma _try_endpoint_keeps_header (path : string) (hs : list (string * string))
  (w : world) :
  authorization (_session (self (snd (_try_endpoint portal path hs w))))
  = authorization (_session (self w)).
Proof.
  unfold _try_endpoint, try_except, bind, session_request.
  destruct (portal (sent w) _) as [|st b ck]; [reflexivity|].
  simpl. destruct (negb (st =? 200)); [reflexivity|].
  unfold resp_json. simpl. destruct b; reflexivity.
Qed.

(** One probe of [path], followed by whatever [k] does when it fails. *)
Lemma probe_step_requests (req : string) (hs : list (string * string))
  (k : M (list booking)) (P : list string -> Prop) (w0 w : world)
  (o : outcome (list booking)) (w' : world) :
  authorization (_session (self w)) = authorization (_session (self w0)) ->
  (forall w1 o1 w1',
     authorization (_session (self w1)) = authorization (_session (self w0)) ->
     k w1 = (o1, w1') ->
     exists new,
       sent w1' = (sent w1 ++ new)%list
       /\ P (map rq_url new)
       /\ Forall (plain_get (authorization (_session (self w0)))) new
       /\ authorization (_session (self w1')) = authorization (_session (self w0))) ->
  bind (_try_endpoint portal req hs)
       (fun bookings =>
          if nonempty bookings then lift (normalize_batch (batch_of bookings)) else k)
       w = (o, w') ->
  exists new,
    sent w' = (sent w ++ new)%list
    /\ (map rq_url new = [BASE_URL ++ req]
        \/ exists more, map rq_url new = (BASE_URL ++ req) :: more /\ P more)
    /\ Forall (plain_get (authorization (_session (self w0)))) new
    /\ authorization (_session (self w')) = authorization (_session (self w0)).
Proof.
  intros Hw Hk H.
  pose proof (_try_endpoint_keeps_header req hs w) as Hkeep.
  destruct (_try_endpoint_spec portal req hs w) as (w1 & E & Hs & _).
  unfold bind in H. rewrite E in *. simpl in Hkeep.
  match type of Hs with _ = (_ ++ [?r])%list => set (rq := r) in * end.
  assert (Hrq : plain_get (authorization (_session (self w0))) rq)
    by (repeat split; exact Hw).
  destruct (nonempty _).
  - inversion H; subst. exists [rq]. split; [exact Hs|]. split; [left; reflexivity|].
    split; [constructor; [exact Hrq|constructor]|]. congruence.
  - destruct (Hk w1 o w' (eq_trans Hkeep Hw) H) as (new & Hs' & HP & Hall & Ha).
    exists (rq :: new). split; [rewrite Hs', Hs, <- app_assoc; reflexivity|].
    split; [right; exists (map rq_url new); split; [reflexivity|exact HP]|].
    split; [constructor; assumption|exact Ha].
Qed.

(** All the loop sends, for any list of candidates: a prefix of the URLs of
    the candidates, taken in order. *)
Lemma probe_paths_requests (paths : list string) (w0 w : world)
  (o : outcome (list booking)) (w' : world) :
  authorization (_session (self w)) = authorization (_session (self w0)) ->
  probe_paths portal now paths w = (o, w') ->
  exists new,
    sent w' = (sent w ++ new)%list
    /\ (exists rest, flat_map (attempt_urls now) paths = (map rq_url new ++ rest)%list)
    /\ Forall (plain_get (authorization (_session (self w0)))) new
    /\ authorization (_session (self w')) = authorization (_session (self w0)).
Proof.
  revert w o w'. induction paths as [|path rest IH]; intros w o w' Hw H.
  - inversion H; subst. exists []. rewrite app_nil_r.
    split; [reflexivity|]. split; [exists []; reflexivity|]. split; [constructor|exact Hw].
  - simpl in H. unfold bind at 1 in H. unfold get_self in H.
    set (P := fun urls : list string =>
                exists r, flat_map (attempt_urls now) rest = (urls ++ r)%list).
    assert (Hrest : forall w1 o1 w1',
              authorization (_session (self w1)) = authorization (_session (self w0)) ->
              probe_paths portal now rest w1 = (o1, w1') ->
              exists new,
                sent w1' = (sent w1 ++ new)%list
                /\ P (map rq_url new)
                /\ Forall (plain_get (authorization (_session (self w0)))) new
                /\ authorization (_session (self w1')) = authorization (_session (self w0)))
      by (intros w1 o1 w1' H1 H2; exact (IH w1 o1 w1' H1 H2)).
    simpl flat_map. unfold attempt_urls at 1.
    set (hs := headers_for now (self w) path) in *.
    set (unranged :=
           bind (_try_endpoint portal path hs)
                (fun bookings =>
                   if nonempty bookings then lift (normalize_batch (batch_of bookings))
                   else probe_paths portal now rest)) in *.
    assert (Hun : forall w1 o1 w1',
              authorization (_session (self w1)) = authorization (_session (self w0)) ->
              unranged w1 = (o1, w1') ->
              exists new,
                sent w1' = (sent w1 ++ new)%list
                /\ (map rq_url new = [BASE_URL ++ path]
                    \/ exists more, map rq_url new = (BASE_URL ++ path) :: more /\ P more)
                /\ Forall (plain_get (authorization (_session (self w0)))) new
                /\ authorization (_session (self w1')) = authorization (_session (self w0)))
      by (intros w1 o1 w1' H1 H2;
          exact (probe_step_requests path hs _ P w0 w1 o1 w1' H1 Hrest H2)).
    destruct (is_calendar_like path).
    + destruct (probe_step_requests (ranged now path) hs unranged
                  (fun urls => urls = [BASE_URL ++ path]
                               \/ exists more, urls = (BASE_URL ++ path) :: more /\ P more)
                  w0 w o w' Hw Hun H) as (new & Hs & Hu & Hall & Ha).
      exists new. split; [exact Hs|]. split; [|auto].
      destruct Hu as [->|(more & -> & [->|(more' & -> & (r & Hr))])].
      * eexists. reflexivity.
      * eexists. reflexivity.
      * exists r. simpl. rewrite Hr. reflexivity.
    + destruct (Hun w o w' Hw H) as (new & Hs & Hu & Hall & Ha).
      exists new. split; [exact Hs|]. split; [|auto].
      destruct Hu as [->|(more & -> & (r & Hr))].
      * eexists. reflexivity.
      * exists r. simpl. rewrite Hr. reflexivity.
Qed.

End BookingsRequests.

Section BookingsBounds.
Context {L : PyLib}.
Variable portal : list request -> request -> reply.
Variable now : clock.

(** X13. [fetch_upcoming_bookings] does not refresh the header: every
    request it sends is a GET without body under the [Authorization]
    header the session had when it was called, and it leaves that header
    as it was, also when a token cookie is in the jar or arrives with a
    reply on the way. *)
Theorem fetch_upcoming_bookings_keeps_header (w : world)
  (o : outcome (list booking)) (w' : world) :
  fetch_upcoming_bookings portal now w = (o, w') ->
  exists new,
    sent w' = (sent w ++ new)%list
    /\ Forall (plain_get (authorization (_session (self w)))) new
    /\ authorization (_session (self w')) = authorization (_session (self w)).
Proof.
  intros H. unfold fetch_upcoming_bookings, bind, get_self in H.
  destruct (probe_paths_requests portal now _ w w o w' eq_refl H)
    as (new & Hs & _ & Hall & Ha).
  exists new. auto.
Qed.

Lemma attempt_urls_length (path : string) :
  (List.length (attempt_urls now path) <= 2)%nat.
Proof. unfold attempt_urls. destruct (is_calendar_like path); simpl; lia. Qed.

(** X14. One call of [fetch_upcoming_bookings] sends at least one request
    and at most ten, eight when no override is set; the URLs requested are
    an initial part of the URLs of the candidates taken in order (the
    override first, each candidate's ranged variant before its plain path).
    The candidates are not compared with each other: an override equal to
    a built-in path is asked again under that path. *)
Theorem fetch_upcoming_bookings_request_bound (w : world)
  (o : outcome (list booking)) (w' : world) :
  fetch_upcoming_bookings portal now w = (o, w') ->
  exists new rest,
    sent w' = (sent w ++ new)%list
    /\ flat_map (attempt_urls now) (candidate_paths (self w))
       = (map rq_url new ++ rest)%list
    /\ (1 <= List.length new <= 10)%nat
    /\ (_bookings_path_override (self w) = None -> (List.length new <= 8)%nat).
Proof.
  intros H. unfold fetch_upcoming_bookings, bind, get_self in H.
  destruct (probe_paths_requests portal now _ w w o w' eq_refl H)
    as (new & Hs & (rest & Hu) & _).
  exists new, rest. split; [exact Hs|]. split; [exact Hu|].
  assert (Hlen : (List.length new
                  <= List.length (flat_map (attempt_urls now) (candidate_paths (self w))))%nat).
  { rewrite Hu, length_app, length_map. lia. }
  assert (Hbuilt : List.length (flat_map (attempt_urls now) BOOKINGS_CANDIDATE_PATHS)
                   = 8%nat) by reflexivity.
  assert (Hfirst : (1 <= List.length new)%nat).
  { assert (Hc : exists p ps, candidate_paths (self w) = p :: ps).
    { unfold candidate_paths, BOOKINGS_CANDIDATE_PATHS.
      destruct (_bookings_path_override (self w)) as [p|];
        [destruct (p =? "")%string|]; simpl; do 2 eexists; reflexivity. }
    destruct Hc as (p & ps & Hc). rewrite Hc in H.
    destruct (probe_paths_trace portal now _ _ _ _ H) as (rq & more & Hs' & _).
    rewrite Hs in Hs'. apply app_inv_head in Hs'. subst new. simpl. lia. }
  unfold candidate_paths in Hlen.
  rewrite flat_map_app, length_app, Hbuilt in Hlen.
  split; [split; [exact Hfirst|]|].
  - destruct (_bookings_path_override (self w)) as [p|];
      [destruct (p =? "")%string|]; simpl in Hlen; try lia.
    rewrite app_nil_r in Hlen. pose proof (attempt_urls_length p). lia.
  - intros Hnone. rewrite Hnone in Hlen. simpl in Hlen. lia.
Qed.

(** X15. When no request gets a usable reply, [fetch_upcoming_bookings]
    returns the empty list normally, after asking every URL of every
    candidate once, in order. *)
Theorem fetch_upcoming_bookings_exhausted (w : world) :
  (forall h rq, usable (portal h rq) = false) ->
  exists w' new,
    fetch_upcoming_bookings portal now w = (Ret [], w')
    /\ sent w' = (sent w ++ new)%list
    /\ map rq_url new = flat_map (attempt_urls now) (candidate_paths (self w)).
Proof.
  intros Hfail. unfold fetch_upcoming_bookings, bind, get_self.
  generalize (candidate_paths (self w)). intros paths. revert w.
  induction paths as [|path rest IH]; intros w.
  - exists w, []. rewrite app_nil_r. repeat split.
  - destruct (probe_paths_skip portal now path rest w (fun h rq _ => Hfail h rq))
      as (w1 & n1 & E1 & S1 & U1).
    destruct (IH w1) as (w' & n2 & E2 & S2 & U2).
    exists w', (n1 ++ n2)%list. rewrite E1, E2. split; [reflexivity|].
    split; [rewrite S2, S1, <- app_assoc; reflexivity|].
    simpl. rewrite map_app, U1, U2. reflexivity.
Qed.

End BookingsBounds.

(** A stale header and a fresh token in the jar: the bookings probe still
    goes out under the stale header. *)
Lemma fetch_upcoming_bookings_keeps_header_witness :
  let w := {| self := with_session (self fresh)
                        {| cookies := [token_cookie "/" "n3w"];
                           authorization := Some "Bearer 0ld" |};
              sent := [] |} in
  map rq_authorization
      (sent (snd (fetch_upcoming_bookings (L := Reference.lib)
                    (always (Response 200 (Some (JList [yoga])) [])) clock0 w)))
  = [Some "Bearer 0ld"].
Proof.
  intros w.
  set (run := fetch_upcoming_bookings (L := Reference.lib)
                (always (Response 200 (Some (JList [yoga])) [])) clock0 w).
  destruct (fetch_upcoming_bookings_keeps_header (L := Reference.lib)
              (always (Response 200 (Some (JList [yoga])) [])) clock0 w
              (fst run) (snd run)) as (new & Hs & Hall & _).
  { unfold run. destruct (fetch_upcoming_bookings _ _ _); reflexivity. }
  assert (Hlen : List.length (sent (snd run)) = 1%nat) by (vm_compute; reflexivity).
  rewrite Hs in *. simpl in *. destruct new as [|rq [|rq' new]]; try discriminate Hlen.
  inversion Hall as [|? ? (_ & _ & Hrq) _]; subst. simpl. rewrite Hrq. reflexivity.
Defined.

(** The portal is down: eight requests, an empty list. *)
Lemma fetch_upcoming_bookings_exhausted_witness :
  fst (fetch_upcoming_bookings (L := Reference.lib) (always (TransportError [])) clock0 fresh)
  = Ret []
  /\ List.length (sent (snd (fetch_upcoming_bookings (L := Reference.lib)
                               (always (TransportError [])) clock0 fresh))) = 8%nat.
Proof.
  destruct (fetch_upcoming_bookings_exhausted (L := Reference.lib)
              (always (TransportError [])) clock0 fresh (fun _ _ => eq_refl))
    as (w' & new & E & Hs & Hu).
  rewrite E. simpl. split; [reflexivity|].
  rewrite Hs. simpl. rewrite <- (length_map rq_url), Hu. reflexivity.
Defined.

(** The bound at work on a portal that answers the first probe. *)
Lemma fetch_upcoming_bookings_request_bound_witness :
  (1 <= List.length (sent (snd (fetch_upcoming_bookings (L := Reference.lib)
                                  (always (Response 200 (Some (JList [yoga])) []))
                                  clock0 fresh))) <= 8)%nat.
Proof.
  set (run := fetch_upcoming_bookings (L := Reference.lib)
                (always (Response 200 (Some (JList [yoga])) [])) clock0 fresh).
  destruct (fetch_upcoming_bookings_request_bound (L := Reference.lib)
              (always (Response 200 (Some (JList [yoga])) [])) clock0 fresh
              (fst run) (snd run)) as (new & rest & Hs & _ & Hb & H8).
  { unfold run. destruct (fetch_upcoming_bookings _ _ _); reflexivity. }
  rewrite Hs. simpl. specialize (H8 eq_refl). lia.
Defined.

(** ** The profile *)

Lemma post_bind_lift {A B} (o : outcome A) (k : A -> M B) (P : B -> Prop) :
  (forall a, o = Ret a -> post (k a) P) -> post (bind (lift o) k) P.
Proof.
  intros Hk w b w' E. unfold bind, lift in E.
  destruct o as [a|e]; [|discriminate]. eapply (Hk a eq_refl). exact E.
Qed.

Lemma join_strs_ret (xs : list json) (names : list string) :
  join_strs xs = Ret names -> xs = map JStr names.
Proof.
  revert names. induction xs as [|x xs IH]; simpl; intros names H.
  - inversion H. reflexivity.
  - destruct x; try discriminate.
    destruct (join_strs xs) as [ss|]; simpl in H; [|discriminate].
    inversion H; subst. simpl. rewrite (IH ss eq_refl). reflexivity.
Qed.

Lemma concat_space_nonempty (a : string) (rest : list string) :
  a <> "" -> (String.concat " " (a :: rest) =? "")%string = false.
Proof.
  intros Ha. destruct a as [|c a]; [contradiction|].
  destruct rest; reflexivity.
Qed.

Lemma bind_lift {A B} (o : outcome A) (k : A -> M B) (w : world) :
  bind (lift o) k w = match o with Ret a => k a w | Raise e => (Raise e, w) end.
Proof. destruct o; reflexivity. Qed.

Lemma bind_ret {A B} (a : A) (k : A -> M B) (w : world) :
  bind (ret a) k w = k a w.
Proof. reflexivity. Qed.

Section Profile.
Context {L : PyLib}.
Variable portal : list request -> request -> reply.

(** The products lookup, from a state in which the token lookup returns:
    one GET, and the club name read off the reply. *)
Lemma fetch_products_for_user_run (w : world) (t : option string) :
  token_lookup w = Ret t ->
  let rq := {| rq_method := GET; rq_url := BASE_URL ++ PRODUCTS_PATH;
               rq_headers := []; rq_authorization := refreshed_authorization w t;
               rq_body := NoBody |} in
  exists prod w',
    fetch_products_for_user portal w = (Ret prod, w')
    /\ sent w' = (sent w ++ [rq])%list
    /\ (forall x, prod = Some x ->
          exists data ck,
            portal (sent w) rq = Response 200 (Some data) ck
            /\ py_get (or_empty_dict data) "ClubName" = Ret x).
Proof.
  intros Ht rq. unfold fetch_products_for_user.
  match goal with
  | |- context [bind (session_request _ ?mt ?u ?h ?b) ?K] =>
      destruct (guarded_request portal mt u h b K _ None w t
                  fetch_products_for_user_pure Ht)
        as (w' & E & Hs & _)
  end.
  fold rq in E, Hs. eexists _, w'. split; [exact E|]. split; [exact Hs|].
  intros x Hx.
  destruct (portal (sent w) rq) as [ch|st b ck]; [discriminate|].
  cbn [status_code resp_body] in Hx.
  destruct (st =? 200) eqn:Est; cbn [negb] in Hx; cbv iota in Hx; [|discriminate].
  apply Z.eqb_eq in Est. subst st.
  destruct b as [data|]; [|discriminate].
  exists data, ck. split; [reflexivity|].
  destruct (py_get (or_empty_dict data) "ClubName") as [c|]; [|discriminate].
  simpl in Hx. inversion Hx; subst. reflexivity.
Qed.

Ltac profile_fails w1 Hs1 :=
  exists None, w1, w1; split; [reflexivity|]; split; [exact Hs1|]; left; split; reflexivity.

(** [fetch_profile], from a state in which the token lookup returns, step
    by step: the POST; then either [{}], with nothing more sent (the
    request failed, the reply has not the shape read, or the lookup that
    opens the products request met a conflict in the jar as the reply left
    it), or the products request and a profile made of the fields read. *)
Lemma fetch_profile_run (user_id : json) (w : world) (t : option string) :
  token_lookup w = Ret t ->
  let rq := {| rq_method := POST; rq_url := BASE_URL ++ PROFILE_PATH;
               rq_headers := if truthy user_id
                             then [("X-Hash", "#/Profile/Edit?userId=" ++ py_str user_id)]
                             else [];
               rq_authorization := refreshed_authorization w t;
               rq_body := if truthy user_id
                          then JsonBody (JDict [("userId", user_id)])
                          else EmptyBody |} in
  exists r w' w1,
    fetch_profile portal user_id w = (Ret r, w')
    /\ sent w1 = (sent w ++ [rq])%list
    /\ ((r = None /\ w' = w1)
        \/ (exists d model pd phone photo names prod t1 rq2 ck,
              portal (sent w) rq = Response 200 (Some (JDict d)) ck
              /\ or_empty_dict (dict_get d "Model") = JDict model
              /\ or_empty_dict (dict_get model "PersonalData") = JDict pd
              /\ or_empty_dict (dict_get pd "Phone") = JDict phone
              /\ or_empty_dict (dict_get pd "Photo") = JDict photo
              /\ join_strs (filter truthy [dict_get pd "FirstName"; dict_get pd "LastName"])
                 = Ret names
              /\ token_lookup w1 = Ret t1
              /\ fetch_products_for_user portal w1 = (Ret prod, w')
              /\ sent w' = (sent w1 ++ [rq2])%list
              /\ rq_method rq2 = GET
              /\ rq_url rq2 = BASE_URL ++ PRODUCTS_PATH
              /\ (forall x, prod = Some x ->
                    exists data ck2,
                      portal (sent w1) rq2 = Response 200 (Some data) ck2
                      /\ py_get (or_empty_dict data) "ClubName" = Ret x)
              /\ r = Some {| pr_user_id := py_or (dict_get model "UserId") user_id;
                             pr_first_name := dict_get pd "FirstName";
                             pr_last_name := dict_get pd "LastName";
                             pr_email := dict_get pd "Email";
                             pr_phone := dict_get phone "PhoneNumber";
                             pr_referral_code := dict_get pd "ReferralCode";
                             pr_full_name :=
                               if (String.concat " " names =? "")%string then None
                               else Some (String.concat " " names);
                             pr_photo_url := dict_get photo "Url";
                             pr_club_name :=
                               match prod with
                               | Some club_name =>
                                   if truthy club_name then Some club_name else None
                               | None => None
                               end |})).
Proof.
  intros Ht rq.
  destruct (_ensure_auth_header_from_cookie_spec w t Ht)
    as (wa & Ea & Hs & _ & _ & _ & Ha).
  unfold fetch_profile. unfold bind at 1. rewrite Ea.
  unfold try_except. unfold bind at 1.
  assert (Hreq : exists w1,
            sent w1 = (sent w ++ [rq])%list
            /\ (if truthy user_id
                then session_request portal POST (BASE_URL ++ PROFILE_PATH)
                       [("X-Hash", "#/Profile/Edit?userId=" ++ py_str user_id)]
                       (JsonBody (JDict [("userId", user_id)]))
                else session_request portal POST (BASE_URL ++ PROFILE_PATH) [] EmptyBody)
                 wa
               = (match portal (sent w) rq with
                  | TransportError _ => Raise RequestException
                  | Response st b _ => Ret {| status_code := st; resp_body := b |}
                  end, w1)).
  { unfold rq. rewrite <- Ha, <- Hs. destruct (truthy user_id).
    - destruct (session_request_spec portal POST (BASE_URL ++ PROFILE_PATH)
                  [("X-Hash", "#/Profile/Edit?userId=" ++ py_str user_id)]
                  (JsonBody (JDict [("userId", user_id)])) wa) as (w1 & H1 & _ & _ & H2).
      exists w1. split; [exact H1|exact H2].
    - destruct (session_request_spec portal POST (BASE_URL ++ PROFILE_PATH) [] EmptyBody wa)
        as (w1 & H1 & _ & _ & H2).
      exists w1. split; [exact H1|exact H2]. }
  destruct Hreq as (w1 & Hs1 & Ereq). rewrite Ereq. clear Ereq.
  destruct (portal (sent w) rq) as [ch|st b ck] eqn:Ep; [profile_fails w1 Hs1|].
  cbn [status_code]. destruct (st =? 200) eqn:Est; cbn [negb]; cbv iota;
    [|profile_fails w1 Hs1].
  apply Z.eqb_eq in Est. subst st.
  unfold resp_json. cbn [resp_body].
  destruct b as [data|]; [rewrite bind_ret|rewrite bind_lift; profile_fails w1 Hs1].
  rewrite bind_lift.
  destruct data as [| | | | | |d]; cbn [py_get obind]; try (profile_fails w1 Hs1).
  destruct (or_empty_dict (dict_get d "Model")) as [| | | | | |model] eqn:Hmodel;
    rewrite bind_lift; cbn [py_get obind]; try (profile_fails w1 Hs1).
  destruct (or_empty_dict (dict_get model "PersonalData")) as [| | | | | |pd] eqn:Hpd;
    rewrite bind_lift; cbn [py_get obind]; try (profile_fails w1 Hs1).
  repeat (rewrite bind_lift; cbn [py_get obind]).
  destruct (join_strs (filter truthy [dict_get pd "FirstName"; dict_get pd "LastName"]))
    as [names|] eqn:Hnames; [|profile_fails w1 Hs1].
  repeat (rewrite bind_lift; cbn [py_get obind]).
  destruct (or_empty_dict (dict_get pd "Phone")) as [| | | | | |phone] eqn:Hphone;
    cbn [py_get obind]; try (profile_fails w1 Hs1).
  repeat (rewrite bind_lift; cbn [py_get obind]).
  destruct (or_empty_dict (dict_get pd "Photo")) as [| | | | | |photo] eqn:Hphoto;
    cbn [py_get obind]; try (profile_fails w1 Hs1).
  unfold bind at 1.
  destruct (token_lookup w1) as [t1|e] eqn:El.
  - destruct (fetch_products_for_user_run w1 t1 El) as (prod & w2 & Ep2 & Hs2 & Hprod).
    rewrite Ep2. unfold ret.
    eexists _, w2, w1. split; [reflexivity|]. split; [exact Hs1|]. right.
    match type of Hs2 with _ = (_ ++ [?r2])%list =>
      exists d, model, pd, phone, photo, names, prod, t1, r2, ck end.
    repeat (split; [first [reflexivity|assumption]|]). reflexivity.
  - unfold fetch_products_for_user. rewrite (refresh_conflict _ w1 e El).
    profile_fails w1 Hs1.
Qed.

(** X16. What holds of every profile [fetch_profile] returns, from a state
    in which the lookup of the token cookie returns. The portal answered
    the profile request with 200 and an object; with [Model] and
    [PersonalData] read as the code reads them, [user_id] is the [UserId]
    of the model when that is true and the caller's otherwise, and the
    names, the email and the referral code are the fields of the personal
    data. Each name that is true is a string: a reply with a number for a
    name gives [{}] instead. [full_name] is the true names joined by one
    space, and absent when neither is true. [club_name] is only set to a
    true value, the [ClubName] of the products reply. *)
Theorem fetch_profile_returned (user_id : json) (w : world) (t : option string) :
  token_lookup w = Ret t ->
  let rq := {| rq_method := POST; rq_url := BASE_URL ++ PROFILE_PATH;
               rq_headers := if truthy user_id
                             then [("X-Hash", "#/Profile/Edit?userId=" ++ py_str user_id)]
                             else [];
               rq_authorization := refreshed_authorization w t;
               rq_body := if truthy user_id
                          then JsonBody (JDict [("userId", user_id)])
                          else EmptyBody |} in
  exists r w',
    fetch_profile portal user_id w = (Ret r, w')
    /\ forall p, r = Some p ->
         exists d model pd names ck,
           portal (sent w) rq = Response 200 (Some (JDict d)) ck
           /\ or_empty_dict (dict_get d "Model") = JDict model
           /\ or_empty_dict (dict_get model "PersonalData") = JDict pd
           /\ pr_user_id p = py_or (dict_get model "UserId") user_id
           /\ pr_first_name p = dict_get pd "FirstName"
           /\ pr_last_name p = dict_get pd "LastName"
           /\ pr_email p = dict_get pd "Email"
           /\ pr_referral_code p = dict_get pd "ReferralCode"
           /\ filter truthy [pr_first_name p; pr_last_name p] = map JStr names
           /\ pr_full_name p = match names with
                               | [] => None
                               | _ :: _ => Some (String.concat " " names)
                               end
           /\ (forall x, pr_club_name p = Some x ->
                 truthy x = true
                 /\ exists rq2 data ck2,
                      rq_url rq2 = BASE_URL ++ PRODUCTS_PATH
                      /\ portal (sent w ++ [rq])%list rq2 = Response 200 (Some data) ck2
                      /\ py_get (or_empty_dict data) "ClubName" = Ret x).
Proof.
  intros Ht rq.
  destruct (fetch_profile_run user_id w t Ht) as (r & w' & w1 & E & Hs1 & Hcases).
  fold rq in Hs1, Hcases.
  exists r, w'. split; [exact E|]. intros p Hp.
  destruct Hcases as [[Hn _]|Hsome]; [congruence|].
  destruct Hsome as (d & model & pd & phone & photo & names & prod & t1 & rq2 & ck
                     & Hrep & Hmodel & Hpd & _ & _ & Hnames & _ & _ & _ & _ & Hu2
                     & Hprod & Hr).
  rewrite Hr in Hp. inversion Hp; subst p; clear Hp.
  cbn [pr_user_id pr_first_name pr_last_name pr_email pr_referral_code pr_full_name
       pr_club_name].
  apply join_strs_ret in Hnames.
  exists d, model, pd, names, ck.
  repeat (split; [first [reflexivity|assumption]|]).
  split.
  - destruct names as [|a rest]; [reflexivity|].
    assert (Ha : a <> "").
    { assert (Hin : In (JStr a)
                      (filter truthy [dict_get pd "FirstName"; dict_get pd "LastName"]))
        by (rewrite Hnames; left; reflexivity).
      apply filter_In in Hin. destruct Hin as [_ Hta]. simpl in Hta.
      intros ->. discriminate. }
    rewrite (concat_space_nonempty a rest Ha). reflexivity.
  - intros x Hx. destruct prod as [club|]; [|discriminate].
    destruct (truthy club) eqn:Et; [|discriminate]. inversion Hx; subst.
    split; [exact Et|].
    destruct (Hprod x eq_refl) as (data & ck2 & Hrep2 & Hget).
    exists rq2, data, ck2. rewrite <- Hs1. auto.
Qed.

(** X17. [fetch_profile] reads the token cookie before its [try] and lets
    the jar's conflict error out before any request. Otherwise it returns
    after a POST to the profile path, under the refreshed header, and at
    most one more request, the GET of the products lookup; a profile is
    only returned after both. With a true user id the POST carries the id
    in its JSON body and in the [X-Hash] header; without one it carries
    neither. *)
Theorem fetch_profile_requests (user_id : json) (w : world) :
  (forall e, token_lookup w = Raise e ->
     fetch_profile portal user_id w = (Raise CookieConflictError, w))
  /\ (forall t, token_lookup w = Ret t ->
      exists r w' rq more,
        fetch_profile portal user_id w = (Ret r, w')
        /\ sent w' = (sent w ++ rq :: more)%list
        /\ rq_method rq = POST
        /\ rq_url rq = BASE_URL ++ PROFILE_PATH
        /\ rq_authorization rq = refreshed_authorization w t
        /\ (truthy user_id = true ->
            rq_body rq = JsonBody (JDict [("userId", user_id)])
            /\ rq_headers rq = [("X-Hash", "#/Profile/Edit?userId=" ++ py_str user_id)])
        /\ (truthy user_id = false -> rq_body rq = EmptyBody /\ rq_headers rq = [])
        /\ (more = []
            \/ exists rq2,
                 more = [rq2] /\ rq_method rq2 = GET
                 /\ rq_url rq2 = BASE_URL ++ PRODUCTS_PATH)
        /\ (r <> None -> more <> [])).
Proof.
  split.
  { intros e He. exact (refresh_conflict _ w e He). }
  intros t Ht.
  destruct (fetch_profile_run user_id w t Ht) as (r & w' & w1 & E & Hs1 & Hcases).
  match type of Hs1 with _ = (_ ++ [?r1])%list => set (rq := r1) in * end.
  assert (Hshape : rq_method rq = POST
                   /\ rq_url rq = BASE_URL ++ PROFILE_PATH
                   /\ rq_authorization rq = refreshed_authorization w t
                   /\ (truthy user_id = true ->
                       rq_body rq = JsonBody (JDict [("userId", user_id)])
                       /\ rq_headers rq
                          = [("X-Hash", "#/Profile/Edit?userId=" ++ py_str user_id)])
                   /\ (truthy user_id = false -> rq_body rq = EmptyBody /\ rq_headers rq = []))
    by (split; [reflexivity|]; split; [reflexivity|]; split; [reflexivity|];
        split; intros Hu; unfold rq; simpl; rewrite Hu; split; reflexivity).
  destruct Hshape as (Hm & Hu & Ha & Hb1 & Hb2).
  exists r, w', rq.
  destruct Hcases as [[Hn Hw]|Hsome].
  - subst r w'. exists []. split; [exact E|]. split; [exact Hs1|].
    repeat (split; [assumption|]). split; [left; reflexivity|]. intros H; contradiction.
  - destruct Hsome as (d & model & pd & phone & photo & names & prod & t1 & rq2 & ck
                       & _ & _ & _ & _ & _ & _ & _ & _ & Hs2 & Hm2 & Hu2 & _ & Hr).
    exists [rq2]. split; [exact E|].
    split; [rewrite Hs2, Hs1, <- app_assoc; reflexivity|].
    repeat (split; [assumption|]).
    split; [right; exists rq2; auto|]. discriminate.
Qed.

End Profile.

(** A profile with a numeric [UserId] in the model: it is the one returned,
    not the caller's. *)
Lemma fetch_profile_returned_witness :
  let reply :=
    Response 200
      (Some (JDict [("Model",
                     JDict [("UserId", JInt 7);
                            ("PersonalData", JDict [("FirstName", JStr "Ada")])])]))
      [] in
  exists p,
    fst (fetch_profile (L := Reference.lib) (always reply) (JInt 42) fresh) = Ret (Some p)
    /\ pr_user_id p = JInt 7
    /\ pr_full_name p = Some "Ada".
Proof.
  intros reply.
  destruct (fetch_profile_returned (L := Reference.lib) (always reply) (JInt 42) fresh
              None eq_refl) as (r & w' & E & H).
  assert (Hr : Ret r
               = fst (fetch_profile (L := Reference.lib) (always reply) (JInt 42) fresh))
    by (rewrite E; reflexivity).
  vm_compute in Hr.
  match type of Hr with _ = Ret (Some ?q) => exists q end.
  rewrite E. cbn [fst]. split; [exact Hr|]. split; reflexivity.
Defined.

(** ** The coordinators' update methods *)

Section Updates.
Context {L : PyLib}.
Variable portal : list request -> request -> reply.

Lemma truthy_not_null (v : json) : truthy v = true -> v <> JNull.
Proof. intros H ->. discriminate. Qed.

Lemma no_user_id_truthy (ident : option identity) :
  no_user_id ident = negb (truthy (user_id_of ident)).
Proof. destruct ident; reflexivity. Qed.

(** X18. The update methods of the profile and contracts coordinators
    look the identity up first. From a state in which the lookup of the
    token cookie returns, that costs one request. When the identity names
    no user, nothing else is sent and they return [{}] and
    [{"contracts": [], "active": None}]. When it names one, the fetch
    operation that follows reads the token cookie again, in the jar as the
    identity exchange left it: if that lookup raises, so does the update,
    with nothing more sent; otherwise the contracts update sends one more
    request, to the contracts path with that id in the body (the identity
    is not looked up a second time inside [fetch_contracts]) and returns a
    report whose [active] is the head of its [contracts]. *)
Theorem async_update_requests (w : world) (t : option string) :
  token_lookup w = Ret t ->
  exists ident w1 rq1,
    fetch_identity portal w = (Ret ident, w1)
    /\ sent w1 = (sent w ++ [rq1])%list
    /\ rq_url rq1 = BASE_URL ++ IDENTITY_PATH
    /\ (no_user_id ident = true ->
        async_update_profile portal w = (Ret None, w1)
        /\ async_update_contracts portal w = (Ret empty_contracts, w1))
    /\ (no_user_id ident = false ->
        (forall e, token_lookup w1 = Raise e ->
           async_update_profile portal w = (Raise CookieConflictError, w1)
           /\ async_update_contracts portal w = (Raise CookieConflictError, w1))
        /\ (forall t1, token_lookup w1 = Ret t1 ->
            exists r w' rq2,
              async_update_contracts portal w = (Ret r, w')
              /\ sent w' = (sent w ++ [rq1; rq2])%list
              /\ rq_url rq2 = BASE_URL ++ CONTRACTS_PATH
              /\ rq_body rq2 = JsonBody (JDict [("userId", user_id_of ident)])
              /\ active r = hd_error (contracts r))).
Proof.
  intros Ht.
  destruct (fetch_identity_returns portal w t Ht) as (ident & w1 & Ei).
  destruct (fetch_identity_trace portal w t _ _ Ht Ei) as (rq1 & Hs1 & Hu1).
  exists ident, w1, rq1. split; [exact Ei|]. split; [exact Hs1|]. split; [exact Hu1|].
  rewrite no_user_id_truthy.
  unfold async_update_profile, async_update_contracts, bind. rewrite Ei.
  split.
  - intros Hno. apply negb_true_iff in Hno. rewrite Hno. split; reflexivity.
  - intros Hyes. apply negb_false_iff in Hyes. rewrite Hyes. split.
    + intros e He. split; exact (refresh_conflict _ w1 e He).
    + intros t1 Ht1.
      destruct (fetch_contracts_returns portal (user_id_of ident) w1 t1 Ht1)
        as (r & w' & E).
      pose proof (fetch_contracts_post portal (user_id_of ident) w1 r w' E) as Hact.
      exists r, w'. pose proof E as E0.
      rewrite (fetch_contracts_with_user_id portal _ w1 (truthy_not_null _ Hyes) Hyes) in E.
      revert E.
      match goal with
      | |- context [bind (session_request _ ?mt ?u ?h ?b) ?K] =>
          destruct (guarded_request portal mt u h b K _ empty_contracts w1 t1
                      (fetch_contracts_pure) Ht1)
            as (w2 & E2 & Hs2 & _)
      end.
      rewrite E2. intros E. inversion E; subst.
      eexists. split; [exact E0|].
      split; [rewrite Hs2, Hs1, <- app_assoc; reflexivity|].
      split; [reflexivity|]. split; [reflexivity|exact Hact].
Qed.

End Updates.

(** The identity reply names the member 7 and sets the token under a
    second path: the contracts update raises. *)
Lemma async_update_requests_witness :
  let portal :=
    always (Response 200 (Some (JDict [("Member", JDict [("Id", JInt 7)])]))
                     [add_cookie (token_cookie "/clientportal2" "b")]) in
  let w := client_with [token_cookie "/" "a"] None in
  token_lookup w = Ret (Some "a")
  /\ fst (async_update_contracts (L := Reference.lib) portal w)
     = Raise CookieConflictError
  /\ List.length (sent (snd (async_update_contracts (L := Reference.lib) portal w)))
     = 1%nat.
Proof.
  intros portal w. split; [reflexivity|].
  destruct (async_update_requests (L := Reference.lib) portal w (Some "a") eq_refl)
    as (ident & w1 & rq1 & Ei & Hs1 & _ & _ & Hyes).
  assert (Hi : ident = fst_value (fetch_identity portal w))
    by (unfold fst_value; rewrite Ei; reflexivity).
  assert (Hw : w1 = snd (fetch_identity portal w))
    by (rewrite Ei; reflexivity).
  assert (Hno : no_user_id ident = false) by (rewrite Hi; vm_compute; reflexivity).
  assert (Hl : token_lookup w1 = Raise CookieConflictError)
    by (rewrite Hw; vm_compute; reflexivity).
  destruct (proj1 (Hyes Hno) _ Hl) as [_ Ec].
  rewrite Ec. cbn [fst snd]. split; [reflexivity|]. rewrite Hs1. reflexivity.
Defined.

(** ** The next-booking sensor *)

Lemma start_lt_aware (a b : booking) :
  aware_start a -> aware_start b ->
  start_lt a b = Ret (start_instant a <? start_instant b).
Proof.
  intros (sa & oa & Ha & Hoa) (sb & ob & Hb & Hob).
  unfold start_lt, start_instant, dt_compare. rewrite Ha, Hb.
  destruct sa as [wa ta], sb as [wb tb]. simpl in *. subst. simpl.
  unfold Z.ltb. destruct (wa - oa * 1000000 ?= wb - ob * 1000000); reflexivity.
Qed.

Lemma insert_by_start_aware (b : booking) (sorted : list booking) :
  aware_start b -> Forall aware_start sorted ->
  exists r, insert_by_start b sorted = Ret r
    /\ Forall aware_start r
    /\ hd_error r = match hd_error sorted with
                    | None => Some b
                    | Some x => if start_instant x <? start_instant b
                                then Some x else Some b
                    end.
Proof.
  intros Hb Hs. induction Hs as [|x rest Hx Hrest IH].
  - exists [b]. simpl. repeat split. constructor; [exact Hb|constructor].
  - simpl. rewrite (start_lt_aware x b Hx Hb). simpl.
    destruct (start_instant x <? start_instant b).
    + destruct IH as (r & Er & Hr & _). rewrite Er. simpl.
      exists (x :: r). repeat split. constructor; assumption.
    + exists (b :: x :: rest). repeat split.
      constructor; [exact Hb|]. constructor; assumption.
Qed.

Lemma sort_by_start_aware (bs : list booking) :
  Forall aware_start bs ->
  exists r, sort_by_start bs = Ret r
    /\ Forall aware_start r
    /\ hd_error r = earliest bs.
Proof.
  intros Hs. induction Hs as [|b rest Hb Hrest IH].
  - exists []. repeat split. constructor.
  - destruct IH as (r & Er & Hr & Hhd). simpl. rewrite Er. simpl.
    destruct (insert_by_start_aware b r Hb Hr) as (r' & Er' & Hr' & Hhd').
    exists r'. split; [exact Er'|]. split; [exact Hr'|].
    rewrite Hhd', Hhd. reflexivity.
Qed.

Lemma earliest_spec (bs : list booking) :
  match earliest bs with
  | None => bs = []
  | Some b =>
      exists pre post, bs = (pre ++ b :: post)%list
        /\ Forall (fun b' => start_instant b < start_instant b') pre
        /\ Forall (fun b' => start_instant b <= start_instant b') post
  end.
Proof.
  induction bs as [|b rest IH]; [reflexivity|]. simpl.
  destruct (earliest rest) as [x|].
  - destruct IH as (pre & post & -> & Hpre & Hpost).
    destruct (Z.ltb_spec (start_instant x) (start_instant b)) as [Hlt|Hge].
    + exists (b :: pre), post. split; [reflexivity|]. split; [|exact Hpost].
      constructor; [exact Hlt|exact Hpre].
    + exists [], (pre ++ x :: post)%list. split; [reflexivity|].
      split; [constructor|]. apply Forall_app. split.
      * eapply Forall_impl; [|exact Hpre]. simpl. intros; lia.
      * constructor; [exact Hge|].
        eapply Forall_impl; [|exact Hpost]. simpl. intros; lia.
  - subst rest. exists [], []. repeat split; constructor.
Qed.

Lemma upcoming_of_aware (now : Z) (off : Z) (bs : list booking) :
  Forall aware_start bs ->
  upcoming_of {| dt_wall := now + off * 1000000; dt_tzinfo := Some off |} bs
  = Ret (filter (fun b => now <=? start_instant b) bs).
Proof.
  intros Hs. induction Hs as [|b rest Hb Hrest IH]; [reflexivity|].
  simpl. rewrite IH. destruct Hb as (s & ob & Hb & Hob).
  unfold start_instant. rewrite Hb. destruct s as [wb tb]. simpl in *. subst tb.
  unfold dt_ge, dt_compare. simpl.
  replace (now + off * 1000000 - off * 1000000) with now by lia.
  rewrite Z.leb_compare, (Z.compare_antisym (wb - ob * 1000000) now).
  destruct (wb - ob * 1000000 ?= now); reflexivity.
Qed.

Lemma filter_split {A : Type} (p : A -> bool) (l pre post : list A) (x : A) :
  filter p l = (pre ++ x :: post)%list ->
  exists pre' post', l = (pre' ++ x :: post')%list
    /\ filter p pre' = pre /\ filter p post' = post.
Proof.
  revert pre. induction l as [|a l IH]; intros pre H.
  - destruct pre; discriminate.
  - simpl in H. destruct (p a) eqn:Hp.
    + destruct pre as [|y pre]; simpl in H; inversion H; subst.
      * exists [], l. repeat split.
      * destruct (IH pre H2) as (pre' & post' & -> & Hpre & Hpost).
        exists (y :: pre'), post'. simpl. rewrite Hp, Hpre. repeat split. exact Hpost.
    + destruct (IH pre H) as (pre' & post' & -> & Hpre & Hpost).
      exists (a :: pre'), post'. simpl. rewrite Hp. repeat split; assumption.
Qed.

Lemma Forall_filter_impl {A : Type} (p : A -> bool) (Q : A -> Prop) (l : list A) :
  Forall Q (filter p l) -> Forall (fun a => p a = true -> Q a) l.
Proof.
  induction l as [|a l IH]; intros H; [constructor|].
  simpl in H. destruct (p a) eqn:Hp.
  - inversion H; subst. constructor; [intros _; assumption|apply IH; assumption].
  - constructor; [congruence|apply IH; exact H].
Qed.

(** X19. The next-booking sensor on data whose bookings all have a start
    with a zone (what [fetch_upcoming_bookings] returns): it does not
    raise; it reports no booking exactly when every start lies before the
    present instant; otherwise it reports the booking that starts soonest
    among those starting now or later, and of several that start at that
    same instant the one listed first. The local clock face plays no part. *)
Theorem next_booking_earliest (k : wall_clock) (bookings : list booking) :
  Forall aware_start bookings ->
  exists r, next_booking k (Some bookings) = Ret r
    /\ match r with
       | None =>
           Forall (fun b => start_instant b < utc_now_us k) bookings
       | Some b =>
           exists pre post, bookings = (pre ++ b :: post)%list
             /\ utc_now_us k <= start_instant b
             /\ Forall (fun b' => utc_now_us k <= start_instant b' ->
                                  start_instant b < start_instant b') pre
             /\ Forall (fun b' => utc_now_us k <= start_instant b' ->
                                  start_instant b <= start_instant b') post
       end.
Proof.
  intros Hall. destruct bookings as [|first rest].
  { exists None. split; [reflexivity|constructor]. }
  unfold next_booking.
  pose proof Hall as Hall0. inversion Hall as [|? ? Hfirst Hrest]; subst.
  destruct Hfirst as (s & off & Hs & Hoff). rewrite Hs, Hoff.
  unfold datetime_now.
  rewrite (upcoming_of_aware (utc_now_us k) off (first :: rest) Hall0).
  set (p := fun b => utc_now_us k <=? start_instant b).
  assert (Hup : Forall aware_start (filter p (first :: rest))).
  { apply Forall_forall. intros b Hb. apply filter_In in Hb.
    rewrite Forall_forall in Hall0. apply Hall0. apply Hb. }
  destruct (sort_by_start_aware _ Hup) as (sorted & Es & _ & Hhd).
  pose proof (earliest_spec (filter p (first :: rest))) as Hspec.
  fold p. remember (filter p (first :: rest)) as up eqn:Ef. symmetry in Ef.
  unfold obind at 1.
  destruct up as [|u us].
  - exists None. split; [reflexivity|].
    apply Forall_forall. intros b Hb.
    destruct (Z.leb_spec (utc_now_us k) (start_instant b)) as [Hle|Hlt]; [|exact Hlt].
    assert (Hin : In b (filter p (first :: rest))).
    { apply filter_In. split; [exact Hb|]. unfold p. apply Z.leb_le. exact Hle. }
    rewrite Ef in Hin. destruct Hin.
  - rewrite Es. simpl. rewrite Hhd.
    destruct (earliest (u :: us)) as [b|]; [|discriminate Hspec].
    exists (Some b). split; [reflexivity|].
    destruct Hspec as (pre & post & Hsplit & Hpre & Hpost).
    rewrite <- Ef in Hsplit.
    destruct (filter_split p _ _ _ _ Hsplit) as (pre' & post' & Hl & Hfpre & Hfpost).
    exists pre', post'. split; [exact Hl|]. split.
    + assert (Hin : In b (filter p (first :: rest))).
      { rewrite Hsplit. apply in_or_app. right. left. reflexivity. }
      apply filter_In in Hin. destruct Hin as [_ Hp]. unfold p in Hp.
      apply Z.leb_le. exact Hp.
    + split.
      * rewrite <- Hfpre in Hpre. apply Forall_filter_impl in Hpre.
        eapply Forall_impl; [|exact Hpre]. simpl. intros a Ha Hle.
        apply Ha. unfold p. apply Z.leb_le. exact Hle.
      * rewrite <- Hfpost in Hpost. apply Forall_filter_impl in Hpost.
        eapply Forall_impl; [|exact Hpost]. simpl. intros a Ha Hle.
        apply Ha. unfold p. apply Z.leb_le. exact Hle.
Qed.

Lemma next_booking_earliest_witness :
  let at_ (name : string) (wall off : Z) :=
    {| summary := JStr name;
       start := Some {| dt_wall := wall; dt_tzinfo := Some off |};
       end_ := None; location := JNull; description := None |} in
  let bookings :=
    [at_ "Spin" 10 0; at_ "Late" 70 0; at_ "Yoga" 3600000050 3600;
     at_ "Pilates" 50 0] in
  Forall aware_start bookings
  /\ next_booking {| utc_now_us := 20; local_now_us := 7200000020 |} (Some bookings)
     = Ret (Some (at_ "Yoga" 3600000050 3600)).
Proof.
  intros at_ bookings.
  assert (Hall : Forall aware_start bookings).
  { repeat constructor; do 2 eexists; split; reflexivity. }
  split; [exact Hall|].
  destruct (next_booking_earliest {| utc_now_us := 20; local_now_us := 7200000020 |}
              bookings Hall) as (r & E & _).
  rewrite E. f_equal. vm_compute in E. inversion E. reflexivity.
Defined.

(** ** From the client to the sensor *)

Section Fetched.
Context {L : PyLib}.
Variable portal : list request -> request -> reply.
Variable now : clock.

Lemma comprehension_In {A B} (f : A -> outcome B) (xs : list A) (ys : list B) :
  comprehension f xs = Ret ys ->
  Forall (fun y => exists x, In x xs /\ f x = Ret y) ys.
Proof.
  revert ys. induction xs as [|x xs IH]; simpl; intros ys H.
  - inversion H. constructor.
  - destruct (f x) as [y|] eqn:Ey; simpl in H; [|discriminate].
    destruct (comprehension f xs) as [ys'|]; simpl in H; [|discriminate].
    inversion H; subst; clear H. constructor.
    + exists x. split; [left; reflexivity|exact Ey].
    + eapply Forall_impl; [|apply IH; reflexivity].
      intros b (x' & Hin & Hx'). exists x'. split; [right; exact Hin|exact Hx'].
Qed.

(** What the mapper returns has no instant without zone. *)
Lemma _normalize_booking_aware (item : json) (b : booking) :
  _normalize_booking item = Ret b ->
  (forall s, start b = Some s -> exists off, dt_tzinfo s = Some off)
  /\ (forall e, end_ b = Some e -> exists off, dt_tzinfo e = Some off).
Proof.
  unfold _normalize_booking. destruct item; simpl; try discriminate.
  intros H. inversion H; subst; clear H. simpl.
  split; intros x Hx; exact (_parse_dt_aware _ _ Hx).
Qed.

Lemma normalize_batch_aware (items : list json) (bs : list booking) :
  normalize_batch items = Ret bs ->
  Forall (fun b => aware_start b
                   /\ forall e, end_ b = Some e -> exists off, dt_tzinfo e = Some off) bs.
Proof.
  unfold normalize_batch.
  destruct (comprehension _normalize_booking items) as [all|] eqn:E; simpl; [|discriminate].
  intros H. inversion H; subst; clear H.
  pose proof (comprehension_In _ _ _ E) as Hall. rewrite Forall_forall in Hall.
  apply Forall_forall. intros b Hb. apply filter_In in Hb. destruct Hb as [Hin Hs].
  destruct (Hall b Hin) as (item & _ & Hitem).
  destruct (_normalize_booking_aware item b Hitem) as [Hst Hen].
  split; [|exact Hen].
  unfold has_start in Hs. destruct (start b) as [s|] eqn:Es; [|discriminate].
  destruct (Hst s eq_refl) as [off Hoff]. exists s, off. split; [exact Es|exact Hoff].
Qed.

Lemma probe_paths_post_aware (paths : list string) :
  post (probe_paths portal now paths)
       (Forall (fun b => aware_start b
                         /\ forall e, end_ b = Some e -> exists off, dt_tzinfo e = Some off)).
Proof.
  induction paths as [|path rest IH]; simpl.
  - apply post_ret. constructor.
  - apply post_bind; intros c.
    assert (Hun : post
      (bind (_try_endpoint portal path (headers_for now c path))
            (fun bookings =>
               if nonempty bookings then lift (normalize_batch (batch_of bookings))
               else probe_paths portal now rest))
      (Forall (fun b => aware_start b
                        /\ forall e, end_ b = Some e -> exists off, dt_tzinfo e = Some off))).
    { apply post_bind; intros b. apply post_if; [|exact IH].
      apply post_lift. intros bs. apply normalize_batch_aware. }
    destruct (is_calendar_like path); [|exact Hun].
    apply post_bind; intros b. apply post_if; [|exact Hun].
    apply post_lift. intros bs. apply normalize_batch_aware.
Qed.

(** X20. No booking [fetch_upcoming_bookings] returns holds an instant
    without zone: its start is present and carries one, and its end is
    absent or carries one. So the sensor and the calendar, which compare
    these instants with zoned ones, are never handed a naive value by the
    client, whatever the portal wrote in the time fields. *)
Theorem fetch_upcoming_bookings_aware (w : world) (bs : list booking) (w' : world) :
  fetch_upcoming_bookings portal now w = (Ret bs, w') ->
  Forall aware_start bs
  /\ Forall (fun b => forall e, end_ b = Some e -> exists off, dt_tzinfo e = Some off) bs.
Proof.
  intros H. unfold fetch_upcoming_bookings, bind, get_self in H.
  pose proof (probe_paths_post_aware _ _ _ _ H) as Hp.
  split; (eapply Forall_impl; [|exact Hp]); simpl; intros b [Ha He]; assumption.
Qed.

End Fetched.

(** The booking of the running example reaches the sensor with its zone. *)
Lemma fetch_upcoming_bookings_aware_witness :
  let run := fetch_upcoming_bookings (L := Reference.lib)
               (always (Response 200 (Some (JList [yoga])) [])) clock0 fresh in
  fst run = Ret [yoga_booking] /\ Forall aware_start [yoga_booking].
Proof.
  intros run.
  assert (E : run = (Ret [yoga_booking], snd run)) by (vm_compute; reflexivity).
  split; [rewrite E; reflexivity|].
  exact (proj1 (fetch_upcoming_bookings_aware (L := Reference.lib)
                  (always (Response 200 (Some (JList [yoga])) [])) clock0
                  fresh [yoga_booking] (snd run) E)).
Defined.
